(** * TorchDrive: the [Driver] network and its training loop

    A shallow embedding of [torch_model.py].  Tensors are a shape together
    with a row-major buffer of scalars; the scalar type is an interface
    (exact rationals and IEEE binary32 are its instances below), the random
    generator is an interface, and everything that can raise in Python
    returns a [res].  Torch modules are mutable objects: a call threads the
    module and the generator through a state monad in which the state
    survives an exception, as the attributes of a Python object do. *)

From Stdlib Require Import ZArith QArith Lqa List String Lia Bool DecimalString.
From Stdlib Require Import Floats.SpecFloat.
From stdpp Require Import gmap strings.
Import ListNotations.

#[local] Open Scope nat_scope.

(** ** Scalars *)

(** The element type of a tensor ([torch.float32] in the program). *)
Class Scalar (R : Type) := {
  of_Q : Q -> R;                (* a Python number literal *)
  radd : R -> R -> R;
  rsub : R -> R -> R;
  rmul : R -> R -> R;
  rdiv : R -> R -> R;
  rltb : R -> R -> bool;
  rleb : R -> R -> bool;
  rexp : R -> R
}.

Definition of_nat `{Scalar R} (n : nat) : R := of_Q (inject_Z (Z.of_nat n)).

(** [rsum n f] is f 0 + ... + f (n-1), accumulated left to right. *)
Fixpoint rsum `{Scalar R} (n : nat) (f : nat -> R) : R :=
  match n with
  | O => of_Q 0
  | S k => radd (rsum k f) (f k)
  end.

(** ** Exceptions and results *)

Inductive exn :=
| RuntimeError (msg : string)
| IndexError (msg : string)
| AttributeError (attr : string).

Inductive res (A : Type) :=
| Ok (a : A)
| Raise (e : exn).
Arguments Ok {A} a.
Arguments Raise {A} e.

Definition res_bind {A B} (r : res A) (f : A -> res B) : res B :=
  match r with
  | Ok a => f a
  | Raise e => Raise e
  end.

(** State and exceptions; the state is kept when an exception is raised. *)
Definition M (S A : Type) : Type := S -> res A * S.

Definition ret {S A} (a : A) : M S A := fun s => (Ok a, s).

Definition bind {S A B} (m : M S A) (f : A -> M S B) : M S B :=
  fun s => match m s with
           | (Ok a, s') => f a s'
           | (Raise e, s') => (Raise e, s')
           end.

Definition lift {S A} (r : res A) : M S A := fun s => (r, s).
Definition get {S} : M S S := fun s => (Ok s, s).
Definition modify {S} (f : S -> S) : M S unit := fun s => (Ok tt, f s).

Declare Scope py_scope.
Delimit Scope py_scope with py.
Notation "x <- m ;; k" := (bind m (fun x => k))
  (at level 100, m at next level, right associativity) : py_scope.
Notation "m ;;; k" := (bind m (fun _ => k))
  (at level 100, right associativity) : py_scope.

(** ** Tensors *)

Definition product (l : list nat) : nat := fold_right Nat.mul 1 l.

(** Row-major offset of a multi-index, and back. *)
Fixpoint ravel (shape idx : list nat) : nat :=
  match shape, idx with
  | _ :: ds, i :: js => i * product ds + ravel ds js
  | _, _ => 0
  end.

Fixpoint unravel (shape : list nat) (off : nat) : list nat :=
  match shape with
  | [] => []
  | _ :: ds => off / product ds :: unravel ds (off mod product ds)
  end.

Section Tensors.
Context {R : Type} `{Scalar R}.

Record Tensor := mkTensor { shape : list nat; data : nat -> R }.

Definition numel (t : Tensor) : nat := product (shape t).

(** The elements of a tensor in storage order. *)
Definition to_list (t : Tensor) : list R := map (data t) (seq 0 (numel t)).

Definition at_index (t : Tensor) (idx : list nat) : R := data t (ravel (shape t) idx).

(** [F.elu(x, alpha)]: x for x > 0, alpha * (exp x - 1) otherwise. *)
Definition elu_scalar (alpha : Q) (x : R) : R :=
  if rleb x (of_Q 0) then rmul (of_Q alpha) (rsub (rexp x) (of_Q 1)) else x.

Definition elu (t : Tensor) (alpha : Q) : Tensor :=
  mkTensor (shape t) (fun i => elu_scalar alpha (data t i)).

(** [t / c] and [t - c] with a Python number. *)
Definition div_scalar (t : Tensor) (c : Q) : Tensor :=
  mkTensor (shape t) (fun i => rdiv (data t i) (of_Q c)).

Definition sub_scalar (t : Tensor) (c : Q) : Tensor :=
  mkTensor (shape t) (fun i => rsub (data t i) (of_Q c)).

(** [torch.flatten(t, start_dim, end_dim)]. *)
Definition flatten (t : Tensor) (start_dim end_dim : nat) : res Tensor :=
  let sh := shape t in
  if negb (end_dim <? length sh) then
    Raise (IndexError "Dimension out of range")
  else if end_dim <? start_dim then
    Raise (RuntimeError "flatten() has invalid args: start_dim cannot come after end_dim")
  else
    Ok (mkTensor (firstn start_dim sh
                    ++ [product (firstn (end_dim - start_dim + 1) (skipn start_dim sh))]
                    ++ skipn (end_dim + 1) sh)
                 (data t)).

(** [t.squeeze()]: every dimension of size 1 is removed. *)
Definition squeeze (t : Tensor) : Tensor :=
  mkTensor (List.filter (fun d => negb (d =? 1)) (shape t)) (data t).

(** [t.unsqueeze(0)]. *)
Definition unsqueeze0 (t : Tensor) : Tensor := mkTensor (1 :: shape t) (data t).

(** Position of [j] in [dims]. *)
Fixpoint index_of (j : nat) (dims : list nat) : nat :=
  match dims with
  | [] => 0
  | d :: ds => if d =? j then 0 else S (index_of j ds)
  end.

Definition is_permutation (dims : list nat) : bool :=
  forallb (fun j => existsb (Nat.eqb j) dims) (seq 0 (length dims)).

(** [t.permute(dims)]: dimension k of the result is dimension dims[k] of t. *)
Definition permute (t : Tensor) (dims : list nat) : res Tensor :=
  let sh := shape t in
  if negb (length dims =? length sh) then
    Raise (RuntimeError "permute: number of dimensions in the tensor input does not match the length of the desired ordering of dimensions")
  else if negb (is_permutation dims) then
    Raise (RuntimeError "permute(): duplicate dims are not allowed.")
  else
    let sh' := map (fun d => nth d sh 0) dims in
    Ok (mkTensor sh'
          (fun off =>
             let idx' := unravel sh' off in
             at_index t (map (fun j => nth (index_of j dims) idx' 0)
                             (seq 0 (length sh))))).

(** [t.T]: the dimensions reversed (the transpose of a matrix). *)
Definition transpose (t : Tensor) : Tensor :=
  let r := length (shape t) in
  let sh' := rev (shape t) in
  mkTensor sh' (fun off => at_index t (rev (unravel sh' off))).

(** Sizes agree everywhere but at dimension [dim]. *)
Fixpoint cat_compatible (dim : nat) (a b : list nat) : bool :=
  match a, b with
  | [], [] => false
  | x :: a', y :: b' =>
      match dim with
      | O => forallb (fun p => fst p =? snd p) (combine a' b') && (length a' =? length b')
      | S d => (x =? y) && cat_compatible d a' b'
      end
  | _, _ => false
  end.

Fixpoint set_nth (k v : nat) (l : list nat) : list nat :=
  match l, k with
  | [], _ => []
  | _ :: l', O => v :: l'
  | x :: l', S k' => x :: set_nth k' v l'
  end.

(** [torch.cat((a, b), dim)].  A one-dimensional empty tensor is skipped,
    whatever the shape of the other, as torch does. *)
Definition cat (a b : Tensor) (dim : nat) : res Tensor :=
  match shape a, shape b with
  | [0], _ => Ok b
  | _, [0] => Ok a
  | sa, sb =>
      if negb (length sa =? length sb) then
        Raise (RuntimeError "Tensors must have same number of dimensions")
      else if negb (dim <? length sa) then
        Raise (IndexError "Dimension out of range")
      else if negb (cat_compatible dim sa sb) then
        Raise (RuntimeError "Sizes of tensors must match except in the concatenated dimension")
      else
        let da := nth dim sa 0 in
        let sh' := set_nth dim (da + nth dim sb 0) sa in
        Ok (mkTensor sh'
              (fun off =>
                 let idx := unravel sh' off in
                 let i := nth dim idx 0 in
                 if i <? da then at_index a idx
                 else at_index b (set_nth dim (i - da) idx)))
  end.

(** [t.mean()] of a floating tensor: the sum of the elements over their
    number (0/0 for an empty tensor, which is nan in floating point). *)
Definition mean (t : Tensor) : R :=
  rdiv (rsum (numel t) (data t)) (of_nat (numel t)).

(** [torch.tensor([])] and a one-element tensor made from a zero-dimensional
    one by [unsqueeze(dim=0)].  A zero-dimensional tensor is represented by
    its element. *)
Definition empty_tensor : Tensor := mkTensor [0] (fun _ => of_Q 0).
Definition unsqueeze_scalar (x : R) : Tensor := mkTensor [1] (fun _ => x).

End Tensors.
Arguments Tensor R : clear implicits.

(** ** Random numbers *)

(** A generator state [G] and what the program draws from it: a buffer of
    [n] standard normal values ([torch.randn]), the initial values of a
    layer's parameter of [n] elements with the given fan-in, and [n] coin
    flips that come up [true] with probability [keep] (the mask of a
    dropout).  Each draw returns the advanced generator. *)
Class RandomSource (G R : Type) := {
  normal_draw : G -> nat -> (nat -> R) * G;
  init_draw : G -> nat -> nat -> (nat -> R) * G;
  bernoulli_draw : G -> Q -> nat -> (nat -> bool) * G
}.

Section Layers.
Context {R : Type} `{Scalar R} {G : Type} `{RandomSource G R}.

(** [torch.randn(size)]. *)
Definition randn (size : list Z) : M G (Tensor R) :=
  fun g =>
    if forallb (Z.leb 0) size then
      let sh := map Z.to_nat size in
      let '(buf, g') := normal_draw g (product sh) in
      (Ok (mkTensor sh buf), g')
    else (Raise (RuntimeError "Trying to create tensor with negative dimension"), g).

(** *** nn.Conv2d (no padding, no dilation, one group, with bias) *)

Record Conv2d := mkConv2d {
  in_channels : nat;
  out_channels : nat;
  kernel_size : nat * nat;
  stride : nat * nat;
  conv_weight : Tensor R;        (* [out_channels; in_channels; kh; kw] *)
  conv_bias : Tensor R           (* [out_channels] *)
}.

(** The constructor draws the weight, then the bias. *)
Definition new_Conv2d (cin cout : nat) (k s : nat * nat) : M G Conv2d :=
  fun g =>
    let fan_in := cin * fst k * snd k in
    let wsh := [cout; cin; fst k; snd k] in
    let '(w, g1) := init_draw g fan_in (product wsh) in
    let '(b, g2) := init_draw g1 fan_in cout in
    (Ok (mkConv2d cin cout k s (mkTensor wsh w) (mkTensor [cout] b)), g2).

(** Output extent of one spatial dimension: floor((n - k) / s) + 1. *)
Definition conv_out_size (n k s : nat) : nat := (n - k) / s + 1.

Definition conv2d_shape (c : Conv2d) (sh : list nat) : res (list nat) :=
  let check (lead : list nat) (ci h w : nat) :=
    if negb (ci =? in_channels c) then
      Raise (RuntimeError "expected input to have in_channels channels")
    else if (h <? fst (kernel_size c)) || (w <? snd (kernel_size c)) then
      Raise (RuntimeError "Kernel size can't be greater than actual input size")
    else Ok (lead ++ [out_channels c;
                      conv_out_size h (fst (kernel_size c)) (fst (stride c));
                      conv_out_size w (snd (kernel_size c)) (snd (stride c))]) in
  match sh with
  | [n; ci; h; w] => check [n] ci h w
  | [ci; h; w] => check [] ci h w
  | _ => Raise (RuntimeError "Expected 3D (unbatched) or 4D (batched) input to conv2d")
  end.

(** out[n,o,i,j] = bias[o] + sum over ci, a, b of
    weight[o,ci,a,b] * x[n,ci,i*sh+a,j*sw+b]. *)
Definition conv2d_data (c : Conv2d) (x : Tensor R) (sh' : list nat) (off : nat) : R :=
  let idx := unravel sh' off in
  let r := length idx in
  let lead := firstn (r - 3) idx in
  let o := nth (r - 3) idx 0 in
  let i := nth (r - 2) idx 0 in
  let j := nth (r - 1) idx 0 in
  radd
    (rsum (in_channels c) (fun ci =>
       rsum (fst (kernel_size c)) (fun a =>
         rsum (snd (kernel_size c)) (fun b =>
           rmul (at_index (conv_weight c) [o; ci; a; b])
                (at_index x (lead ++ [ci; i * fst (stride c) + a;
                                      j * snd (stride c) + b]))))))
    (data (conv_bias c) o).

Definition conv2d_call (c : Conv2d) (x : Tensor R) : res (Tensor R) :=
  match conv2d_shape c (shape x) with
  | Ok sh' => Ok (mkTensor sh' (conv2d_data c x sh'))
  | Raise e => Raise e
  end.

(** *** nn.Linear *)

Record Linear := mkLinear {
  in_features : nat;
  out_features : nat;
  lin_weight : Tensor R;         (* [out_features; in_features] *)
  lin_bias : Tensor R            (* [out_features] *)
}.

Definition new_Linear (fin fout : nat) : M G Linear :=
  fun g =>
    let '(w, g1) := init_draw g fin (fout * fin) in
    let '(b, g2) := init_draw g1 fin fout in
    (Ok (mkLinear fin fout (mkTensor [fout; fin] w) (mkTensor [fout] b)), g2).

Definition linear_shape (l : Linear) (sh : list nat) : res (list nat) :=
  match rev sh with
  | [] => Raise (RuntimeError "both arguments to linear need to be at least 1D")
  | k :: lead =>
      if negb (k =? in_features l) then
        Raise (RuntimeError "mat1 and mat2 shapes cannot be multiplied")
      else Ok (rev lead ++ [out_features l])
  end.

(** out[r,o] = bias[o] + sum over i of x[r,i] * weight[o,i]. *)
Definition linear_data (l : Linear) (x : Tensor R) (off : nat) : R :=
  let r := off / out_features l in
  let o := off mod out_features l in
  radd
    (rsum (in_features l) (fun i =>
       rmul (data x (r * in_features l + i)) (at_index (lin_weight l) [o; i])))
    (data (lin_bias l) o).

Definition linear_call (l : Linear) (x : Tensor R) : res (Tensor R) :=
  match linear_shape l (shape x) with
  | Ok sh' => Ok (mkTensor sh' (linear_data l x))
  | Raise e => Raise e
  end.

(** *** nn.Dropout *)

Record Dropout := mkDropout {
  p : Q;
  inplace : bool;
  drop_training : bool
}.

(** In training mode every element is multiplied by mask/(1-p) with a fresh
    mask; in evaluation mode the input is returned as it is. *)
Definition dropout_call (dr : Dropout) (x : Tensor R) : M G (Tensor R) :=
  fun g =>
    if drop_training dr then
      let keep := (1 - p dr)%Q in
      let '(mask, g') := bernoulli_draw g keep (numel x) in
      (Ok (mkTensor (shape x)
             (fun i => rmul (data x i)
                            (rdiv (of_Q (if mask i then 1 else 0)) (of_Q keep)))),
       g')
    else (Ok x, g).

(** *** nn.MSELoss(reduction='sum') *)

Fixpoint broadcast_rev (a b : list nat) : option (list nat) :=
  match a, b with
  | [], l => Some l
  | l, [] => Some l
  | x :: a', y :: b' =>
      match broadcast_rev a' b' with
      | None => None
      | Some l =>
          if x =? y then Some (x :: l)
          else if x =? 1 then Some (y :: l)
          else if y =? 1 then Some (x :: l)
          else None
      end
  end.

Definition broadcast_shapes (a b : list nat) : option (list nat) :=
  option_map (@rev nat) (broadcast_rev (rev a) (rev b)).

(** The index into a tensor of shape [sh] that an index of the broadcast
    shape reads. *)
Definition expand_index (sh idx : list nat) : list nat :=
  map (fun di => if fst di =? 1 then 0 else snd di)
      (combine sh (skipn (length idx - length sh) idx)).

(** The sum over the broadcast shape of the squared differences; the result
    is zero-dimensional. *)
Definition lossFunc (input target : Tensor R) : res R :=
  match broadcast_shapes (shape input) (shape target) with
  | None => Raise (RuntimeError "The size of tensor a must match the size of tensor b")
  | Some sh =>
      Ok (rsum (product sh) (fun off =>
            let idx := unravel sh off in
            let d := rsub (at_index input (expand_index (shape input) idx))
                          (at_index target (expand_index (shape target) idx)) in
            rmul d d))
  end.

End Layers.
Arguments Conv2d R : clear implicits.
Arguments Linear R : clear implicits.

(** ** class Driver(nn.Module) *)

Section DriverModel.
Context {R : Type} `{Scalar R} {G : Type} `{RandomSource G R}.

(** The attributes of a [Driver] object.  [flattened_size] and the four
    linear layers are assigned late in the constructor, so they may be
    absent; [training] is the flag of [nn.Module] (the flags of the
    parameter layers have no effect and are left out, that of the dropout
    is [drop_training]). *)
Record Driver := mkDriver {
  training : bool;
  first_linear_size : nat;
  conv_1 : Conv2d R;
  conv_2 : Conv2d R;
  conv_3 : Conv2d R;
  conv_4 : Conv2d R;
  conv_5 : Conv2d R;
  drop : Dropout;
  flattened_size : option nat;
  lin1 : option (Linear R);
  lin2 : option (Linear R);
  lin3 : option (Linear R);
  lin4 : option (Linear R)
}.

Definition set_flattened_size (v : nat) (d : Driver) : Driver :=
  mkDriver (training d) (first_linear_size d) (conv_1 d) (conv_2 d) (conv_3 d)
           (conv_4 d) (conv_5 d) (drop d) (Some v)
           (lin1 d) (lin2 d) (lin3 d) (lin4 d).

Definition set_linears (l1 l2 l3 l4 : Linear R) (d : Driver) : Driver :=
  mkDriver (training d) (first_linear_size d) (conv_1 d) (conv_2 d) (conv_3 d)
           (conv_4 d) (conv_5 d) (drop d) (flattened_size d)
           (Some l1) (Some l2) (Some l3) (Some l4).

(** [nn.Module.train(mode)]: the flag of the module and of its children. *)
Definition set_training (mode : bool) (d : Driver) : Driver :=
  mkDriver mode (first_linear_size d) (conv_1 d) (conv_2 d) (conv_3 d)
           (conv_4 d) (conv_5 d)
           (mkDropout (p (drop d)) (inplace (drop d)) mode)
           (flattened_size d) (lin1 d) (lin2 d) (lin3 d) (lin4 d).

(** The state of a method call: the object and the global generator. *)
Definition Self : Type := Driver * G.

Definition self_attr {A} (f : Driver -> A) : M Self A := fun s => (Ok (f (fst s)), s).

Definition self_opt_attr {A} (name : string) (f : Driver -> option A) : M Self A :=
  fun s => match f (fst s) with
           | Some a => (Ok a, s)
           | None => (Raise (AttributeError name), s)
           end.

Definition self_assign (f : Driver -> Driver) : M Self unit :=
  fun s => (Ok tt, (f (fst s), snd s)).

(** A computation on the generator alone, run inside a method. *)
Definition with_generator {A} (m : M G A) : M Self A :=
  fun s => let '(r, g') := m (snd s) in (r, (fst s, g')).

#[local] Open Scope py_scope.

(** Run convolutional block. *)
Definition _convs (image : Tensor R) : M Self (Tensor R) :=
  let image := sub_scalar (div_scalar image 127.5) 1 in
  c1 <- self_attr conv_1 ;;
  a1 <- lift (conv2d_call c1 image) ;;
  let conv1 := elu a1 0.3 in
  c2 <- self_attr conv_2 ;;
  a2 <- lift (conv2d_call c2 conv1) ;;
  let conv2 := elu a2 0.3 in
  c3 <- self_attr conv_3 ;;
  a3 <- lift (conv2d_call c3 conv2) ;;
  let conv3 := elu a3 0.3 in
  c4 <- self_attr conv_4 ;;
  a4 <- lift (conv2d_call c4 conv3) ;;
  let conv4 := elu a4 0.3 in
  c5 <- self_attr conv_5 ;;
  a5 <- lift (conv2d_call c5 conv4) ;;
  let conv5 := elu a5 0.3 in
  dr <- self_attr drop ;;
  dropped <- with_generator (dropout_call dr conv5) ;;
  flat <- lift (flatten dropped 1 3) ;;
  self_assign (set_flattened_size (nth 1 (shape flat) 0)) ;;;
  ret flat.

(** Forward Prop. *)
Definition forward (sample : Tensor R * Tensor R) : M Self (Tensor R) :=
  flat <- _convs (fst sample) ;;
  l1 <- self_opt_attr "lin1" lin1 ;;
  a1 <- lift (linear_call l1 flat) ;;
  let lin1 := elu a1 0.3 in
  l2 <- self_opt_attr "lin2" lin2 ;;
  a2 <- lift (linear_call l2 lin1) ;;
  let lin2 := elu a2 0.3 in
  featureAdded <- lift (cat lin2 (snd sample) 1) ;;
  l3 <- self_opt_attr "lin3" lin3 ;;
  a3 <- lift (linear_call l3 featureAdded) ;;
  let lin3 := elu a3 0.3 in
  l4 <- self_opt_attr "lin4" lin4 ;;
  lin4 <- lift (linear_call l4 lin3) ;;
  ret (squeeze lin4).

(** The constructor.  The object is in training mode, as every new module;
    the dummy pass runs on it before the linear layers exist. *)
Definition __init__ (batch_size : Z) : M G Driver :=
  conv_1 <- new_Conv2d 3 24 (5, 5) (2, 2) ;;
  conv_2 <- new_Conv2d 24 36 (5, 5) (2, 2) ;;
  conv_3 <- new_Conv2d 36 48 (5, 5) (2, 2) ;;
  conv_4 <- new_Conv2d 48 64 (3, 3) (1, 1) ;;
  conv_5 <- new_Conv2d 64 64 (3, 3) (1, 1) ;;
  let self := mkDriver true 1 conv_1 conv_2 conv_3 conv_4 conv_5
                       (mkDropout 0.5 false true) None None None None None in
  dummy <- randn [batch_size; 3; 66; 200]%Z ;;
  fun g =>
    match _convs dummy (self, g) with
    | (Raise e, (_, g')) => (Raise e, g')
    | (Ok _, (self, g')) =>
        match flattened_size self with
        | None => (Raise (AttributeError "flattened_size"), g')
        | Some fs =>
            (lin1 <- new_Linear fs 100 ;;
             lin2 <- new_Linear 100 50 ;;
             lin3 <- new_Linear 51 10 ;;
             lin4 <- new_Linear 10 3 ;;
             ret (set_linears lin1 lin2 lin3 lin4 self)) g'
        end
    end.

(** *** The two halves of a forward pass as functions *)

(** The five convolutions of [_convs] on a normalized image. *)
Definition conv_stack (d : Driver) (image : Tensor R) : res (Tensor R) :=
  res_bind (conv2d_call (conv_1 d) (sub_scalar (div_scalar image 127.5) 1)) (fun a1 =>
  res_bind (conv2d_call (conv_2 d) (elu a1 0.3)) (fun a2 =>
  res_bind (conv2d_call (conv_3 d) (elu a2 0.3)) (fun a3 =>
  res_bind (conv2d_call (conv_4 d) (elu a3 0.3)) (fun a4 =>
  res_bind (conv2d_call (conv_5 d) (elu a4 0.3)) (fun a5 =>
  Ok (elu a5 0.3)))))).

Definition need_attr {A} (name : string) (o : option A) : res A :=
  match o with
  | Some a => Ok a
  | None => Raise (AttributeError name)
  end.

(** The layers of [forward] after [_convs]. *)
Definition dense_head (d : Driver) (flat speed : Tensor R) : res (Tensor R) :=
  res_bind (need_attr "lin1" (lin1 d)) (fun l1 =>
  res_bind (linear_call l1 flat) (fun a1 =>
  res_bind (need_attr "lin2" (lin2 d)) (fun l2 =>
  res_bind (linear_call l2 (elu a1 0.3)) (fun a2 =>
  res_bind (cat (elu a2 0.3) speed 1) (fun featureAdded =>
  res_bind (need_attr "lin3" (lin3 d)) (fun l3 =>
  res_bind (linear_call l3 featureAdded) (fun a3 =>
  res_bind (need_attr "lin4" (lin4 d)) (fun l4 =>
  res_bind (linear_call l4 (elu a3 0.3)) (fun a4 =>
  Ok (squeeze a4)))))))))).

(** The result of a forward pass that draws no random number: the
    convolutions, the flattening and the dense layers. *)
Definition eval_forward (d : Driver) (sample : Tensor R * Tensor R) : res (Tensor R) :=
  res_bind (conv_stack d (fst sample)) (fun conv5 =>
  res_bind (flatten conv5 1 3) (fun flat =>
  dense_head d flat (snd sample))).

(** *** The architecture *)

(** The hyperparameters of a convolution and the sizes of a linear layer. *)
Definition hyper (c : Conv2d R) : nat * nat * (nat * nat) * (nat * nat) :=
  (in_channels c, out_channels c, kernel_size c, stride c).

Definition conv_hypers (d : Driver) : list (nat * nat * (nat * nat) * (nat * nat)) :=
  [hyper (conv_1 d); hyper (conv_2 d); hyper (conv_3 d); hyper (conv_4 d); hyper (conv_5 d)].

Definition features (l : Linear R) : nat * nat := (in_features l, out_features l).

Definition linear_features (d : Driver) : list (option (nat * nat)) :=
  [option_map features (lin1 d); option_map features (lin2 d);
   option_map features (lin3 d); option_map features (lin4 d)].

(** What the constructor passes to the five [nn.Conv2d]. *)
Definition constructor_hypers : list (nat * nat * (nat * nat) * (nat * nat)) :=
  [(3, 24, (5, 5), (2, 2)); (24, 36, (5, 5), (2, 2)); (36, 48, (5, 5), (2, 2));
   (48, 64, (3, 3), (1, 1)); (64, 64, (3, 3), (1, 1))].

(** The extent of one spatial dimension after a chain of (kernel, stride)
    convolutions; [None] when a kernel does not fit. *)
Fixpoint extent_after (layers : list (nat * nat)) (n : nat) : option nat :=
  match layers with
  | [] => Some n
  | (k, s) :: ls => if n <? k then None else extent_after ls (conv_out_size n k s)
  end.

Definition conv_chain : list (nat * nat) := [(5, 2); (5, 2); (5, 2); (3, 1); (3, 1)].

(** A sequence of forward calls on one object, whatever each returns or
    raises. *)
Fixpoint forward_calls (samples : list (Tensor R * Tensor R)) (s : Self) : Self :=
  match samples with
  | [] => s
  | x :: xs => forward_calls xs (snd (forward x s))
  end.

(** A driver with another value of the [flattened_size] attribute. *)
Definition with_flattened_size (o : option nat) (d : Driver) : Driver :=
  mkDriver (training d) (first_linear_size d) (conv_1 d) (conv_2 d) (conv_3 d)
           (conv_4 d) (conv_5 d) (drop d) o
           (lin1 d) (lin2 d) (lin3 d) (lin4 d).

End DriverModel.
Arguments Driver R : clear implicits.

(** ** def train(net, device, epochs, lr, trainingLoader, validationLoader) *)

(** What [train] uses of a network: calling it on a sample (which may change
    the object and draws from the global generator) and switching between
    training and evaluation mode. *)
Class Module (R G Net : Type) := {
  module_call : Tensor R * Tensor R -> M (Net * G) (Tensor R);
  module_train : bool -> Net -> Net
}.

(** [torch.optim.Adam] over the parameters of the network, and the effect of
    [loss.backward(); optimizer.step(); optimizer.zero_grad()] on them.  The
    gradient is that of the loss of one forward pass: it is determined by
    the network and the generator before the pass, the sample and the
    labels. *)
Class Optimizer (R G Net Opt : Type) := {
  Adam : Net -> Q -> Opt;
  backward_step : Opt -> Net * G -> Tensor R * Tensor R -> Tensor R -> Net -> res (Net * Opt)
}.

Definition newline : string := String (Ascii.ascii_of_nat 10) EmptyString.

(** [str] of a Python integer. *)
Definition str (z : Z) : string := NilZero.string_of_int (Z.to_int z).

Fixpoint for_each {S A B : Type} (xs : list A) (body : A -> B -> M S B) (b : B) : M S B :=
  match xs with
  | [] => ret b
  | x :: xs' => bind (body x b) (for_each xs' body)
  end.

Section Training.
Context {R : Type} `{Scalar R} {G Net Opt : Type}.
Context `{Module R G Net} `{Optimizer R G Net Opt}.

(** Whether a device designator names a device of this machine, and how a
    zero-dimensional tensor is formatted in an f-string. *)
Variable device_available : string -> bool.
Variable tensor_format : R -> string.

Inductive event :=
| Stdout (line : string)
| Saved (path : string) (obj : Net)
| VisTrain (trainingMetric validationMetric : list R) (epochs : Z) (metricType : string).

(** What a run acts on besides its local variables: the network object the
    caller passed, the global generator, the files, and what was printed,
    saved and plotted, oldest first. *)
Record World := mkWorld {
  net : Net;
  generator : G;
  disk : gmap string Net;
  events : list event
}.

(** A batch as a loader yields it: images (batch, H, W, channels), speeds,
    labels. *)
Definition Batch : Type := Tensor R * Tensor R * Tensor R.

Record Locals := mkLocals {
  optimizer : Opt;
  training_losses : list R;
  validation_losses : list R;
  training_epoch_losses : Tensor R;
  validation_epoch_losses : Tensor R;
  min_lost : R
}.

Definition emit (e : event) : M World unit :=
  fun w => (Ok tt, mkWorld (net w) (generator w) (disk w) (events w ++ [e])).

Definition print (line : string) : M World unit := emit (Stdout line).

(** [torch.save(obj, path)] with the network as the object. *)
Definition torch_save_model (path : string) : M World unit :=
  fun w => (Ok tt, mkWorld (net w) (generator w) (<[path := net w]> (disk w))
                           (events w ++ [Saved path (net w)])).

Definition vis_train (trainingMetric validationMetric : list R) (epochs : Z)
    (metricType : string) : M World unit :=
  emit (VisTrain trainingMetric validationMetric epochs metricType).

(** [model(sample)]. *)
Definition call_model (sample : Tensor R * Tensor R) : M World (Tensor R) :=
  fun w =>
    let '(r, (n, g)) := module_call sample (net w, generator w) in
    (r, mkWorld n g (disk w) (events w)).

(** [model.train()] and [model.eval()]. *)
Definition model_train (mode : bool) : M World unit :=
  fun w => (Ok tt, mkWorld (module_train mode (net w)) (generator w) (disk w) (events w)).

(** [net.to(device)]: the same object, moved. *)
Definition net_to (device : string) : M World unit :=
  fun w => if device_available device then (Ok tt, w)
           else (Raise (RuntimeError "device is not available"), w).

#[local] Open Scope py_scope.

(** One iteration of the optimisation loop (lines 91 to 98). *)
Definition train_batch (b : Batch) (st : Locals) : M World Locals :=
  let '(img_batch, speed, labels) := b in
  img_batch <- lift (permute img_batch [0; 3; 1; 2]) ;;
  let sample := (img_batch, transpose (unsqueeze0 speed)) in
  before <- get ;;
  outputs <- call_model sample ;;
  loss <- lift (lossFunc outputs labels) ;;
  losses <- lift (cat (unsqueeze_scalar loss) (training_epoch_losses st) 0) ;;
  now <- get ;;
  fun w =>
    match backward_step (optimizer st) (net before, generator before) sample labels (net now) with
    | Raise e => (Raise e, w)
    | Ok (n, o) =>
        (Ok (mkLocals o (training_losses st) (validation_losses st) losses
                      (validation_epoch_losses st) (min_lost st)),
         mkWorld n (generator w) (disk w) (events w))
    end.

(** One iteration of the validation loop (lines 110 to 116). *)
Definition validate_batch (b : Batch) (st : Locals) : M World Locals :=
  let '(val_img_batch, val_speed, val_labels) := b in
  val_img_batch <- lift (permute val_img_batch [0; 3; 1; 2]) ;;
  outputs <- call_model (val_img_batch, transpose (unsqueeze0 val_speed)) ;;
  val_loss <- lift (lossFunc outputs val_labels) ;;
  losses <- lift (cat (unsqueeze_scalar val_loss) (validation_epoch_losses st) 0) ;;
  ret (mkLocals (optimizer st) (training_losses st) (validation_losses st)
                (training_epoch_losses st) losses (min_lost st)).

(** Lines 100 to 102 and 118 to 120: the mean of the accumulated losses
    joins the history, and the accumulator is emptied. *)
Definition record_training_loss (st : Locals) : Locals :=
  mkLocals (optimizer st) (training_losses st ++ [mean (training_epoch_losses st)])
           (validation_losses st) empty_tensor
           (validation_epoch_losses st) (min_lost st).

Definition record_validation_loss (st : Locals) : Locals :=
  mkLocals (optimizer st) (training_losses st)
           (validation_losses st ++ [mean (validation_epoch_losses st)])
           (training_epoch_losses st) empty_tensor (min_lost st).

(** Lines 88 to 103: the optimisation pass over the training loader and the
    record of its mean loss. *)
Definition optimize_phase (trainingLoader : list Batch) (st : Locals) : M World Locals :=
  model_train true ;;;
  st <- for_each trainingLoader train_batch st ;;
  let trainingLossMean := mean (training_epoch_losses st) in
  let st := record_training_loss st in
  print ("Training: Loss= " +:+ tensor_format trainingLossMean +:+ " ") ;;;
  ret st.

(** Lines 105 to 122: the pass over the validation loader in evaluation
    mode and the record of its mean loss. *)
Definition validate_phase (validationLoader : list Batch) (st : Locals) :
    M World (R * Locals) :=
  model_train false ;;;
  st <- for_each validationLoader validate_batch st ;;
  let valLossMean := mean (validation_epoch_losses st) in
  let st := record_validation_loss st in
  print ("Validation: Loss= " +:+ tensor_format valLossMean +:+ " " +:+ newline) ;;;
  ret (valLossMean, st).

(** Lines 125 to 128. *)
Definition checkpoint (valLossMean : R) (st : Locals) : M World Locals :=
  if rltb valLossMean (min_lost st) then
    let st := mkLocals (optimizer st) (training_losses st) (validation_losses st)
                       (training_epoch_losses st) (validation_epoch_losses st)
                       valLossMean in
    let model_name := "driver" +:+ "_best.pt" in
    torch_save_model model_name ;;;
    ret st
  else ret st.

(** The body of [for i in range(epochs)]. *)
Definition epoch (epochs : Z) (trainingLoader validationLoader : list Batch)
    (i : nat) (st : Locals) : M World Locals :=
  print ("Epoch " +:+ str (Z.of_nat i + 1) +:+ "/" +:+ str epochs) ;;;
  st <- optimize_phase trainingLoader st ;;
  r <- validate_phase validationLoader st ;;
  checkpoint (fst r) (snd r).

(** The local variables when the loop is entered (lines 79 to 84). *)
Definition initial_locals (model : Net) (lr : Q) : Locals :=
  mkLocals (Adam model lr) [] [] empty_tensor empty_tensor (of_Q 1000000).

(** The first [n] iterations of the loop over the epochs. *)
Definition epochs_loop (epochs : Z) (trainingLoader validationLoader : list Batch)
    (n : nat) (st : Locals) : M World Locals :=
  for_each (seq 0 n) (epoch epochs trainingLoader validationLoader) st.

(** The run; [net] is the network of the world it starts in. *)
Definition train (device : string) (epochs : Z) (lr : Q)
    (trainingLoader validationLoader : list Batch) : M World unit :=
  net_to device ;;;
  model <- get ;;
  st <- epochs_loop epochs trainingLoader validationLoader (Z.to_nat epochs)
                    (initial_locals (net model) lr) ;;
  vis_train (training_losses st) (validation_losses st) epochs "Losses".

(** *** Notions the statements about a run use *)

(** The forward pass and the loss of one batch, as both loops compute them. *)
Definition forward_loss (b : Batch) : M World R :=
  let '(img_batch, speed, labels) := b in
  img_batch <- lift (permute img_batch [0; 3; 1; 2]) ;;
  outputs <- call_model (img_batch, transpose (unsqueeze0 speed)) ;;
  lossFunc_ <- lift (lossFunc outputs labels) ;;
  ret lossFunc_.

(** The losses of the batches of a loop in loader order, each computed in
    the world the loop has reached when the batch's turn comes. *)
Fixpoint batch_losses (body : Batch -> Locals -> M World Locals) (loader : list Batch)
    (st : Locals) (w : World) : list R :=
  match loader with
  | [] => []
  | b :: bs =>
      match forward_loss b w with
      | (Ok loss, _) =>
          loss :: match body b st w with
                  | (Ok st', w') => batch_losses body bs st' w'
                  | (Raise _, _) => []
                  end
      | (Raise _, _) => []
      end
  end.

(** The worlds in which the two loops of epoch [i] start. *)
Definition training_start (epochs : Z) (i : nat) (w : World) : World :=
  mkWorld (module_train true (net w)) (generator w) (disk w)
          (events w ++ [Stdout ("Epoch " +:+ str (Z.of_nat i + 1) +:+ "/" +:+ str epochs)]).

Definition validation_start (trainingLossMean : R) (w : World) : World :=
  mkWorld (module_train false (net w)) (generator w) (disk w)
          (events w ++ [Stdout ("Training: Loss= " +:+ tensor_format trainingLossMean +:+ " ")]).

(** The per-batch training losses and the per-batch validation losses of
    the epoch [i] that starts with the locals [st] in the world [w]. *)
Definition epoch_training_losses (epochs : Z) (trainingLoader : list Batch)
    (i : nat) (st : Locals) (w : World) : list R :=
  batch_losses train_batch trainingLoader st (training_start epochs i w).

Definition epoch_validation_losses (epochs : Z) (trainingLoader validationLoader : list Batch)
    (i : nat) (st : Locals) (w : World) : list R :=
  match for_each trainingLoader train_batch st (training_start epochs i w) with
  | (Ok st', w') =>
      batch_losses validate_batch validationLoader (record_training_loss st')
                   (validation_start (mean (training_epoch_losses st')) w')
  | (Raise _, _) => []
  end.

(** Sum over count. *)
Definition arith_mean (l : list R) : R :=
  rdiv (fold_left radd l (of_Q 0)) (of_nat (length l)).

(** The best of a sentinel and a sequence of losses: a later loss replaces
    the best when it is strictly lower. *)
Definition running_best (sentinel : R) (losses : list R) : R :=
  fold_left (fun best v => if rltb v best then v else best) losses sentinel.

Definition is_saved (e : event) : bool :=
  match e with Saved _ _ => true | _ => false end.

Definition is_vis_train (e : event) : bool :=
  match e with VisTrain _ _ _ _ => true | _ => false end.

(** A computation is silent when, whether it returns or raises, it leaves
    the files and the events as they are. *)
Definition silent {A : Type} (m : M World A) : Prop :=
  forall w, disk (snd (m w)) = disk w /\ events (snd (m w)) = events w.

(** A one-dimensional tensor that holds the elements of a list. *)
Definition holds (t : Tensor R) (l : list R) : Prop :=
  shape t = [length l] /\ to_list t = l.

(** A computation is quiet when, whether it returns or raises, it leaves the
    files as they are and adds nothing but printed lines to the events. *)
Definition quiet {A : Type} (m : M World A) : Prop :=
  forall w, disk (snd (m w)) = disk w /\
            exists out, events (snd (m w)) = events w ++ map Stdout out.

(** A computation plots nothing when, whether it returns or raises, the calls
    of [vis_train] among the events are those there were. *)
Definition plotless {A : Type} (m : M World A) : Prop :=
  forall w, List.filter is_vis_train (events (snd (m w))) =
            List.filter is_vis_train (events w).

(** The locals when the loop over the epochs is entered: no history, and
    empty accumulators. *)
Definition fresh (st : Locals) : Prop :=
  training_losses st = [] /\ validation_losses st = [] /\
  holds (training_epoch_losses st) [] /\ holds (validation_epoch_losses st) [].

(** A step of a loop over the batches computes the loss of its batch and
    puts it in front of an accumulator. *)
Definition accumulates (body : Batch -> Locals -> M World Locals)
    (acc : Locals -> Tensor R) : Prop :=
  forall b st w st1 w1,
    body b st w = (Ok st1, w1) ->
    exists loss w2,
      forward_loss b w = (Ok loss, w2) /\
      cat (unsqueeze_scalar loss) (acc st) 0 = Ok (acc st1).

End Training.

(** [Driver] is the network [train] is run on. *)
#[export] Instance Driver_Module {R G : Type} `{Scalar R} `{RandomSource G R} :
  Module R G (Driver R) := {|
  module_call := forward;
  module_train := set_training
|}.

(** ** Instances to run the model on *)

(** exp by the Horner form of its Taylor polynomial of degree [n]; it stands
    in for the library's exp where an example is evaluated. *)
Fixpoint horner_exp {R : Type} (one : R) (add mul div : R -> R -> R) (of_n : nat -> R)
    (x : R) (k n : nat) : R :=
  match n with
  | O => one
  | S n' => add one (mul (div x (of_n k)) (horner_exp one add mul div of_n x (S k) n'))
  end.

(** Exact rational arithmetic, every result in lowest terms: the real-number
    reading of the program. *)
#[export] Instance Q_Scalar : Scalar Q := {|
  of_Q := Qred;
  radd a b := Qred (a + b);
  rsub a b := Qred (a - b);
  rmul a b := Qred (a * b);
  rdiv a b := Qred (a / b);
  rltb a b := negb (Qle_bool b a);
  rleb a b := Qle_bool a b;
  rexp x := horner_exp 1%Q (fun a b => Qred (a + b)) (fun a b => Qred (a * b))
                       (fun a b => Qred (a / b)) (fun n => inject_Z (Z.of_nat n)) x 1 8
|}.

(** IEEE 754 binary32 with round to nearest even: [torch.float32]. *)
Definition binary32 : Type := spec_float.
Definition prec32 : Z := 24.
Definition emax32 : Z := 128.

Definition b32_of_Z (z : Z) : binary32 := binary_normalize prec32 emax32 z 0 false.

Definition b32_of_Q (q : Q) : binary32 :=
  SFdiv prec32 emax32 (b32_of_Z (Qnum q)) (b32_of_Z (Zpos (Qden q))).

#[export] Instance binary32_Scalar : Scalar binary32 := {|
  of_Q := b32_of_Q;
  radd := SFadd prec32 emax32;
  rsub := SFsub prec32 emax32;
  rmul := SFmul prec32 emax32;
  rdiv := SFdiv prec32 emax32;
  rltb := SFltb;
  rleb := SFleb;
  rexp x := horner_exp (b32_of_Z 1) (SFadd prec32 emax32) (SFmul prec32 emax32)
                       (SFdiv prec32 emax32) (fun n => b32_of_Z (Z.of_nat n)) x 1 8
|}.

(** A counter-based generator: draw number [c] is a fixed function of [c],
    and [n] draws advance the counter by [n]. *)
Definition counter_unit (c : N) : Q :=
  (inject_Z (Z.of_N ((c * 7919 + 104729) mod 2001)) - 1000) / 1000.

#[export] Instance Counter_RandomSource {R : Type} `{Scalar R} : RandomSource N R := {|
  normal_draw g n := (fun i => of_Q (3 * counter_unit (g + N.of_nat i)), (g + N.of_nat n)%N);
  init_draw g fan_in n :=
    (fun i => of_Q (counter_unit (g + N.of_nat i) / inject_Z (Z.of_nat (S fan_in))),
     (g + N.of_nat n)%N);
  bernoulli_draw g keep n :=
    (fun i => Qle_bool ((counter_unit (g + N.of_nat i) + 1) / 2) keep, (g + N.of_nat n)%N)
|}.

(** An optimizer whose step leaves the parameters as they are (a learning
    rate of zero). *)
#[export] Instance Frozen_Optimizer {R G Net : Type} : Optimizer R G Net unit := {|
  Adam _ _ := tt;
  backward_step o _ _ _ n := Ok (n, o)
|}.

(** ** The inverse of the normalization *)

(** The expression [y * 127.5 + 127.5] of the round trip.  It follows the
    words of the specification, not the source: the program normalizes only
    and has no inverse to compare with. *)
Definition denormalize {R : Type} `{Scalar R} (y : R) : R :=
  radd (rmul y (of_Q 127.5)) (of_Q 127.5).

(** The 256 pixel values survive the round trip in binary32, and their
    normalized values lie in [-1, 1]. *)
Definition binary32_round_trip (pixel : nat) : bool :=
  let x : binary32 := of_nat pixel in
  let y := rsub (rdiv x (of_Q 127.5)) (of_Q 1) in
  SFleb (of_Q (-1)) y && SFleb y (of_Q 1) && SFeqb (denormalize y) x.

(** ** Concrete inputs *)

(** A network of one weight, to run the loop on: the prediction for a
    sample is the weight times its speed. *)
#[export] Instance Scale_Module {R G : Type} `{Scalar R} : Module R G R := {|
  module_call sample :=
    fun s => (Ok (squeeze (mkTensor (shape (snd sample))
                             (fun i => rmul (fst s) (data (snd sample) i)))), s);
  module_train _ weight := weight
|}.

Definition tensor_of_list {R : Type} `{Scalar R} (sh : list nat) (l : list R) : Tensor R :=
  mkTensor sh (fun i => nth i l (of_Q 0)).

(** Two samples of 2 by 2 pixels, their speeds 1 and 2, and their labels. *)
Definition demo_batch (label1 label2 : Q) : Batch (R := Q) :=
  (mkTensor [2; 2; 2; 3] (fun i => of_nat (i mod 256)),
   tensor_of_list [2] [1; 2]%Q,
   tensor_of_list [2] [label1; label2]).

(** A batch whose three labels do not match its two samples. *)
Definition bad_batch : Batch (R := Q) :=
  (mkTensor [2; 2; 2; 3] (fun i => of_nat (i mod 256)),
   tensor_of_list [2] [1; 2]%Q,
   tensor_of_list [3] [1; 2; 3]%Q).

(** A world whose network is the one-weight network with weight 2, with no
    file, or with a checkpoint an earlier run has left. *)
Definition demo_world : World (R := Q) (G := N) (Net := Q) := mkWorld 2%Q 0%N ∅ [].

Definition demo_world_with_checkpoint : World (R := Q) (G := N) (Net := Q) :=
  mkWorld 2%Q 0%N (<["driver_best.pt" := 5%Q]> ∅) [].

Definition demo_format {R : Type} (x : R) : string := "<loss>".

Definition any_device (device : string) : bool := true.

Definition is_ok {A : Type} (r : res A) : bool :=
  match r with Ok _ => true | Raise _ => false end.

(** A driver made by the constructor with batch size 1 from the counter
    generator, over the rationals and over binary32, and what a function
    sees of the object and the generator it leaves. *)
Definition demo_construction : res (Driver Q) * N := __init__ 1 0%N.
Definition demo_construction32 : res (Driver binary32) * N := __init__ 1 0%N.

Definition observe {R A : Type} (r : res (Driver R) * N) (f : Driver R * N -> A) : option A :=
  match r with
  | (Ok d, g) => Some (f (d, g))
  | (Raise _, _) => None
  end.

(** Loaders of the one-weight network: the weight 2 fits the labels 3 and 5
    nearly and the labels 1000 badly. *)
Definition demo_training_loader : list (Batch (R := Q)) :=
  [demo_batch 1000 1000; demo_batch 3 5].
Definition demo_validation_loader : list (Batch (R := Q)) := [demo_batch 3 5].
Definition harsh_validation_loader : list (Batch (R := Q)) := [demo_batch 1000 1000].
Definition failing_validation_loader : list (Batch (R := Q)) := [demo_batch 3 5; bad_batch].

(** The loop and the run on them, with a learning rate of zero. *)
Abbreviation demo_epochs epochs vl n w :=
  (epochs_loop (Opt := unit) demo_format epochs demo_training_loader vl n
               (initial_locals (G := N) (net w) 0) w).

Abbreviation demo_train epochs vl w :=
  (train (Opt := unit) any_device demo_format "cpu" epochs 0 demo_training_loader vl w).

(** One epoch of the driver over binary32 with no batch to validate on. *)
Definition demo_epoch_without_validation :
    option (bool * list binary32 * nat * nat) :=
  observe demo_construction32 (fun s =>
    let '(r, w) := epochs_loop (Opt := unit) demo_format 1 [] [] 1
                     (initial_locals (G := N) (fst s) 0) (mkWorld (fst s) (snd s) ∅ []) in
    (is_ok r,
     match r with Ok st => validation_losses st | Raise _ => [] end,
     size (disk w), length (List.filter is_saved (events w)))).


(** A batch of [b] images of [h] by [w] pixels, channels first, with pixel
    values 0..255, and a (b, 1) column of speeds. *)
Definition demo_image {R : Type} `{Scalar R} (b h w : nat) : Tensor R :=
  mkTensor [b; 3; h; w] (fun i => of_nat (i mod 256)).

Definition demo_speed {R : Type} `{Scalar R} (b : nat) : Tensor R :=
  mkTensor [b; 1] (fun i => of_nat (10 + i)).

(** ** The arguments of the optimizer *)

(** [model.parameters()] (line 79): the parameter tensors of a network. *)
Class Parameters (R Net : Type) := {
  parameters : Net -> list (Tensor R)
}.

(** [torch.optim.Adam(params, lr=lr)] raises ValueError for a negative
    learning rate and for an empty parameter list, before the loop over the
    epochs is entered; [Adam] of the class [Optimizer] is the optimizer it
    returns when it accepts its arguments. *)
Definition adam_accepts {R : Type} (params : list (Tensor R)) (lr : Q) : bool :=
  Qle_bool 0 lr && negb (length params =? 0).

(** The parameters of a driver: the weight and the bias of every layer it
    has. *)
#[export] Instance Driver_Parameters {R : Type} : Parameters R (Driver R) := {|
  parameters d :=
    flat_map (fun c => [conv_weight c; conv_bias c])
             [conv_1 d; conv_2 d; conv_3 d; conv_4 d; conv_5 d]
    ++ flat_map (fun o => match o with
                          | Some l => [lin_weight l; lin_bias l]
                          | None => []
                          end)
                [lin1 d; lin2 d; lin3 d; lin4 d]
|}.

(** The one-weight network has its weight. *)
#[export] Instance Scale_Parameters {R : Type} : Parameters R R := {|
  parameters weight := [unsqueeze_scalar weight]
|}.

(** ** What a run leaves to see *)

Section Observations.
Context {R Net : Type}.
Variable tensor_format : R -> string.

(** The printed lines among some events, oldest first. *)
Definition printed (evs : list (@event R Net)) : list string :=
  flat_map (fun e => match e with Stdout line => [line] | _ => [] end) evs.

(** The three lines an epoch prints (lines 87, 103 and 122): its number
    counted from 1, and the two means as the f-strings format them. *)
Definition epoch_lines (epochs : Z) (i : nat) (trainingLossMean valLossMean : R) :
    list string :=
  ["Epoch " +:+ str (Z.of_nat i + 1) +:+ "/" +:+ str epochs;
   "Training: Loss= " +:+ tensor_format trainingLossMean +:+ " ";
   "Validation: Loss= " +:+ tensor_format valLossMean +:+ " " +:+ newline].

(** The lines of the epochs from number [i] on, for two histories. *)
Fixpoint progress_lines (epochs : Z) (i : nat) (training validation : list R) : list string :=
  match training, validation with
  | t :: ts, v :: vs => epoch_lines epochs i t v ++ progress_lines epochs (S i) ts vs
  | _, _ => []
  end.

(** The object of the last save among some events. *)
Definition last_saved (evs : list (@event R Net)) : option Net :=
  fold_left (fun found e => match e with Saved _ obj => Some obj | _ => found end) evs None.

End Observations.

(** An optimizer that counts its steps and leaves the parameters as they
    are. *)
Definition Counting_Optimizer {R G Net : Type} : Optimizer R G Net nat := {|
  Adam _ _ := 0;
  backward_step steps _ _ _ n := Ok (n, S steps)
|}.

(** The driver is in evaluation mode: the flag of the module and the flag of
    its dropout are off. *)
Definition eval_mode {R : Type} (m : Driver R) : Prop :=
  training m = false /\ drop_training (drop m) = false.

(** Sample [n] of the batch [x] is sample [n'] of the batch [y]: the two
    batches have the same shape but for the batch dimension, and the
    elements of the one sample are those of the other. *)
Definition same_sample {R : Type} (n n' : nat) (x y : Tensor R) : Prop :=
  tl (shape x) = tl (shape y) /\
  forall off, off < product (tl (shape x)) ->
    data x (n * product (tl (shape x)) + off) = data y (n' * product (tl (shape x)) + off).

(** * Properties *)

(** ** The forward pass *)

Section DriverFacts.
Context {R : Type} `{Scalar R} {G : Type} `{RandomSource G R}.

(** [_convs] is the convolution stack, the dropout, the flattening, and then
    the assignment of [flattened_size]. *)
Lemma _convs_eq (image : Tensor R) (d : Driver R) (g : G) :
  _convs image (d, g) =
  match conv_stack d image with
  | Raise e => (Raise e, (d, g))
  | Ok conv5 =>
      match dropout_call (drop d) conv5 g with
      | (Raise e, g') => (Raise e, (d, g'))
      | (Ok dropped, g') =>
          match flatten dropped 1 3 with
          | Raise e => (Raise e, (d, g'))
          | Ok flat => (Ok flat, (set_flattened_size (nth 1 (shape flat) 0) d, g'))
          end
      end
  end.
Proof.
  unfold _convs, conv_stack, bind, lift, self_attr, with_generator, self_assign, ret,
    res_bind; simpl.
  repeat (destruct (conv2d_call _ _); simpl; [| reflexivity]).
  destruct (dropout_call _ _ g) as [[dropped | e] g']; simpl; [| reflexivity].
  destruct (flatten dropped 1 3); reflexivity.
Qed.

(** After [_convs], [forward] runs the dense layers on the object as
    [_convs] left it and changes nothing more. *)
Lemma forward_eq (sample : Tensor R * Tensor R) (d : Driver R) (g : G) :
  forward sample (d, g) =
  match _convs (fst sample) (d, g) with
  | (Raise e, s) => (Raise e, s)
  | (Ok flat, (d', g')) => (dense_head d' flat (snd sample), (d', g'))
  end.
Proof.
  unfold forward, bind.
  destruct (_convs (fst sample) (d, g)) as [[flat | e] [d' g']]; [| reflexivity].
  unfold dense_head, self_opt_attr, lift, ret, need_attr, res_bind; simpl.
  destruct (lin1 d'); simpl; [| reflexivity].
  destruct (linear_call _ _); simpl; [| reflexivity].
  destruct (lin2 d'); simpl; [| reflexivity].
  destruct (linear_call _ _); simpl; [| reflexivity].
  destruct (cat _ _ _); simpl; [| reflexivity].
  destruct (lin3 d'); simpl; [| reflexivity].
  destruct (linear_call _ _); simpl; [| reflexivity].
  destruct (lin4 d'); simpl; [| reflexivity].
  destruct (linear_call _ _); reflexivity.
Qed.

Lemma dense_head_flattened (o : option nat) (d : Driver R) (flat speed : Tensor R) :
  dense_head (with_flattened_size o d) flat speed = dense_head d flat speed.
Proof. reflexivity. Qed.

Lemma conv_stack_flattened (o : option nat) (d : Driver R) (image : Tensor R) :
  conv_stack (with_flattened_size o d) image = conv_stack d image.
Proof. reflexivity. Qed.

(** *** Shapes *)

Lemma conv_step (c : Conv2d R) (x : Tensor R) (b ci co kh kw sh sw h w : nat) :
  hyper c = (ci, co, (kh, kw), (sh, sw)) ->
  shape x = [b; ci; h; w] ->
  (h <? kh) = false -> (w <? kw) = false ->
  exists t, conv2d_call c x = Ok t /\
            shape t = [b; co; conv_out_size h kh sh; conv_out_size w kw sw].
Proof.
  unfold hyper. intros Hc Hx Hh Hw.
  destruct c as [ci' co' [kh' kw'] [sh' sw'] wt bs]; simpl in Hc.
  injection Hc as -> -> -> -> -> ->.
  unfold conv2d_call, conv2d_shape. rewrite Hx. simpl.
  rewrite Nat.eqb_refl, Hh, Hw. simpl. eexists. split; reflexivity.
Qed.

Lemma extent_after_cons (k s : nat) (ls : list (nat * nat)) (n m : nat) :
  extent_after ((k, s) :: ls) n = Some m ->
  (n <? k) = false /\ extent_after ls (conv_out_size n k s) = Some m.
Proof. simpl. destruct (n <? k); [discriminate | auto]. Qed.

(** The convolution stack of the constructor's architecture maps a batch of
    [b] images of [h] by [w] pixels in 3 channels to [b] maps of 64
    channels, of the extents the kernel and stride arithmetic gives. *)
Lemma conv_stack_ok (d : Driver R) (image : Tensor R) (b h w h5 w5 : nat) :
  conv_hypers d = constructor_hypers ->
  shape image = [b; 3; h; w] ->
  extent_after conv_chain h = Some h5 ->
  extent_after conv_chain w = Some w5 ->
  exists t, conv_stack d image = Ok t /\ shape t = [b; 64; h5; w5].
Proof.
  unfold conv_hypers, constructor_hypers, conv_chain.
  intros Hd Hx Hh Hw.
  pose (dflt := (0, 0, (0, 0), (0, 0))).
  pose proof (f_equal (fun l => nth 0 l dflt) Hd) as H1.
  pose proof (f_equal (fun l => nth 1 l dflt) Hd) as H2.
  pose proof (f_equal (fun l => nth 2 l dflt) Hd) as H3.
  pose proof (f_equal (fun l => nth 3 l dflt) Hd) as H4.
  pose proof (f_equal (fun l => nth 4 l dflt) Hd) as H5.
  cbn [nth] in H1, H2, H3, H4, H5.
  apply extent_after_cons in Hh as [Hh1 Hh]. apply extent_after_cons in Hw as [Hw1 Hw].
  apply extent_after_cons in Hh as [Hh2 Hh]. apply extent_after_cons in Hw as [Hw2 Hw].
  apply extent_after_cons in Hh as [Hh3 Hh]. apply extent_after_cons in Hw as [Hw3 Hw].
  apply extent_after_cons in Hh as [Hh4 Hh]. apply extent_after_cons in Hw as [Hw4 Hw].
  apply extent_after_cons in Hh as [Hh5 Hh]. apply extent_after_cons in Hw as [Hw5 Hw].
  simpl in Hh, Hw. injection Hh as <-. injection Hw as <-.
  unfold conv_stack.
  destruct (conv_step _ (sub_scalar (div_scalar image 127.5) 1) _ _ _ _ _ _ _ _ _ H1 Hx Hh1 Hw1)
    as (a1 & -> & S1); simpl.
  destruct (conv_step _ (elu a1 0.3) _ _ _ _ _ _ _ _ _ H2 S1 Hh2 Hw2) as (a2 & -> & S2); simpl.
  destruct (conv_step _ (elu a2 0.3) _ _ _ _ _ _ _ _ _ H3 S2 Hh3 Hw3) as (a3 & -> & S3); simpl.
  destruct (conv_step _ (elu a3 0.3) _ _ _ _ _ _ _ _ _ H4 S3 Hh4 Hw4) as (a4 & -> & S4); simpl.
  destruct (conv_step _ (elu a4 0.3) _ _ _ _ _ _ _ _ _ H5 S4 Hh5 Hw5) as (a5 & -> & S5); simpl.
  eexists. split; [reflexivity | exact S5].
Qed.

(** A dropout keeps the shape; in evaluation mode it returns its input and
    leaves the generator alone. *)
Lemma dropout_call_shape (dr : Dropout) (x : Tensor R) (g : G) :
  exists x' g', dropout_call dr x g = (Ok x', g') /\ shape x' = shape x.
Proof.
  unfold dropout_call. destruct (drop_training dr).
  - destruct (bernoulli_draw g _ _) as [mask g']. eexists _, _. split; reflexivity.
  - eexists _, _. split; reflexivity.
Qed.

Lemma dropout_call_eval (dr : Dropout) (x : Tensor R) (g : G) :
  drop_training dr = false -> dropout_call dr x g = (Ok x, g).
Proof. unfold dropout_call. intros ->. reflexivity. Qed.

Lemma flatten_feature_maps (t : Tensor R) (b c h w : nat) :
  shape t = [b; c; h; w] ->
  flatten t 1 3 = Ok (mkTensor [b; c * h * w] (data t)).
Proof.
  unfold flatten. intros ->. simpl.
  replace (c * (h * (w * 1))) with (c * h * w) by lia. reflexivity.
Qed.

(** [_convs] on a batch of 3-channel images that the kernels fit: it
    succeeds and assigns the product of the final extents to
    [flattened_size], whatever the attribute held before. *)
Lemma _convs_ok (d : Driver R) (image : Tensor R) (g : G) (b h w h5 w5 : nat) :
  conv_hypers d = constructor_hypers ->
  shape image = [b; 3; h; w] ->
  extent_after conv_chain h = Some h5 ->
  extent_after conv_chain w = Some w5 ->
  exists flat g',
    _convs image (d, g) = (Ok flat, (set_flattened_size (64 * h5 * w5) d, g')) /\
    shape flat = [b; 64 * h5 * w5].
Proof.
  intros Hd Hx Hh Hw. rewrite _convs_eq.
  destruct (conv_stack_ok d image b h w h5 w5 Hd Hx Hh Hw) as (t & -> & St).
  destruct (dropout_call_shape (drop d) t g) as (x' & g' & -> & Sx).
  rewrite St in Sx. rewrite (flatten_feature_maps x' _ _ _ _ Sx). simpl.
  eexists _, _. split; reflexivity.
Qed.

Lemma linear_step (l : Linear R) (x : Tensor R) (b fi fo : nat) :
  features l = (fi, fo) ->
  shape x = [b; fi] ->
  linear_call l x = Ok (mkTensor [b; fo] (linear_data l x)).
Proof.
  unfold features, linear_call, linear_shape. intros Hl ->. injection Hl as -> ->.
  simpl. rewrite Nat.eqb_refl. reflexivity.
Qed.

Lemma linear_mismatch (l : Linear R) (x : Tensor R) (b n : nat) :
  shape x = [b; n] -> n <> in_features l ->
  linear_call l x = Raise (RuntimeError "mat1 and mat2 shapes cannot be multiplied").
Proof.
  unfold linear_call, linear_shape. intros -> Hn. simpl.
  destruct (Nat.eqb_spec n (in_features l)); [contradiction | reflexivity].
Qed.

Lemma cat_columns (a s : Tensor R) (b n m : nat) :
  shape a = [b; n] -> shape s = [b; m] ->
  exists t, cat a s 1 = Ok t /\ shape t = [b; n + m].
Proof.
  unfold cat. intros -> ->.
  destruct b; simpl; rewrite ?Nat.eqb_refl; simpl; eexists; split; reflexivity.
Qed.

(** The dense layers on a flattened batch: with the layer sizes the
    constructor gives and a (b, 1) speed column they succeed, and the result
    is the squeezed (b, 3) output of [lin4]. *)
Lemma dense_head_ok (d : Driver R) (flat speed : Tensor R) (b n : nat) :
  linear_features d = [Some (n, 100); Some (100, 50); Some (51, 10); Some (10, 3)] ->
  shape flat = [b; n] ->
  shape speed = [b; 1] ->
  exists l4 x,
    lin4 d = Some l4 /\
    dense_head d flat speed = Ok (squeeze (mkTensor [b; 3] (linear_data l4 x))).
Proof.
  unfold linear_features. intros Hd Hf Hs.
  injection Hd as H1 H2 H3 H4.
  unfold dense_head.
  destruct (lin1 d) as [l1 |]; [| discriminate].
  assert (F1 : features l1 = (n, 100)) by (simpl in H1; congruence); clear H1.
  destruct (lin2 d) as [l2 |]; [| discriminate].
  assert (F2 : features l2 = (100, 50)) by (simpl in H2; congruence); clear H2.
  destruct (lin3 d) as [l3 |]; [| discriminate].
  assert (F3 : features l3 = (51, 10)) by (simpl in H3; congruence); clear H3.
  destruct (lin4 d) as [l4 |]; [| discriminate].
  assert (F4 : features l4 = (10, 3)) by (simpl in H4; congruence); clear H4.
  unfold need_attr, res_bind.
  rewrite (linear_step l1 flat b n 100 F1 Hf).
  set (a1 := elu (mkTensor [b; 100] (linear_data l1 flat)) 0.3).
  rewrite (linear_step l2 a1 b 100 50 F2 eq_refl).
  set (a2 := elu (mkTensor [b; 50] (linear_data l2 a1)) 0.3).
  destruct (cat_columns a2 speed b 50 1 eq_refl Hs) as (fa & -> & Sfa).
  rewrite (linear_step l3 fa b 51 10 F3 Sfa).
  set (a3 := elu (mkTensor [b; 10] (linear_data l3 fa)) 0.3).
  rewrite (linear_step l4 a3 b 10 3 F4 eq_refl).
  eexists _, _. split; reflexivity.
Qed.

(** A forward pass on a batch of [b] images with a (b, 1) speed column. *)
Lemma forward_ok (d : Driver R) (sample : Tensor R * Tensor R) (g : G) (b h w h5 w5 : nat) :
  conv_hypers d = constructor_hypers ->
  linear_features d =
    [Some (64 * h5 * w5, 100); Some (100, 50); Some (51, 10); Some (10, 3)] ->
  shape (fst sample) = [b; 3; h; w] ->
  shape (snd sample) = [b; 1] ->
  extent_after conv_chain h = Some h5 ->
  extent_after conv_chain w = Some w5 ->
  exists l4 x g',
    lin4 d = Some l4 /\
    forward sample (d, g) =
      (Ok (squeeze (mkTensor [b; 3] (linear_data l4 x))),
       (set_flattened_size (64 * h5 * w5) d, g')).
Proof.
  intros Hc Hl Hx Hs Hh Hw. rewrite forward_eq.
  destruct (_convs_ok d (fst sample) g b h w h5 w5 Hc Hx Hh Hw) as (flat & g' & -> & Sf).
  destruct (dense_head_ok (set_flattened_size (64 * h5 * w5) d) flat (snd sample) b
              (64 * h5 * w5) Hl Sf Hs) as (l4 & x & E4 & ->).
  exists l4, x, g'. split; [exact E4 | reflexivity].
Qed.

(** A forward pass changes no attribute but [flattened_size]. *)
Lemma forward_frame (sample : Tensor R * Tensor R) (d : Driver R) (g : G) :
  let d' := fst (snd (forward sample (d, g))) in
  d' = with_flattened_size (flattened_size d') d.
Proof.
  rewrite forward_eq, _convs_eq.
  destruct (conv_stack d (fst sample)); [| destruct d; reflexivity].
  destruct (dropout_call (drop d) a g) as [[dropped | e] g']; [| destruct d; reflexivity].
  destruct (flatten dropped 1 3); destruct d; reflexivity.
Qed.

Lemma forward_keeps_architecture (sample : Tensor R * Tensor R) (d : Driver R) (g : G) :
  let d' := fst (snd (forward sample (d, g))) in
  conv_hypers d' = conv_hypers d /\ linear_features d' = linear_features d /\
  drop d' = drop d /\ training d' = training d.
Proof.
  intros d'. pose proof (forward_frame sample d g) as E. fold d' in E.
  rewrite E. repeat split.
Qed.

(** The constructor succeeds for a batch size that is not negative, and
    yields the architecture of the class in training mode. *)
Lemma init_ok (batch_size : Z) (g : G) :
  (0 <= batch_size)%Z ->
  exists d g',
    __init__ batch_size g = (Ok d, g') /\
    conv_hypers d = constructor_hypers /\
    flattened_size d = Some 1152 /\
    linear_features d = [Some (1152, 100); Some (100, 50); Some (51, 10); Some (10, 3)] /\
    training d = true /\ drop_training (drop d) = true /\ first_linear_size d = 1.
Proof.
  intros Hb. unfold __init__, bind, new_Conv2d.
  repeat (destruct (init_draw _ _ _) as [? ?]).
  unfold randn. cbn [forallb]. rewrite (proj2 (Z.leb_le 0 batch_size) Hb).
  cbn [andb Z.leb Z.compare]. cbv beta iota zeta.
  destruct (normal_draw _ _) as [buf gn].
  match goal with
  | |- context [_convs ?x (?d, ?g)] =>
      destruct (_convs_ok d x g (Z.to_nat batch_size) 66 200 1 18 eq_refl eq_refl eq_refl eq_refl)
        as (flat & gc & -> & _)
  end.
  cbn [flattened_size set_flattened_size]. unfold new_Linear, ret.
  repeat (destruct (init_draw _ _ _) as [? ?]).
  eexists _, _. split; [reflexivity |]. repeat split.
Qed.

Lemma init_negative (batch_size : Z) (g : G) :
  (batch_size < 0)%Z -> exists e g', __init__ batch_size g = (Raise e, g').
Proof.
  intros Hb. unfold __init__, bind, new_Conv2d.
  repeat (destruct (init_draw _ _ _) as [? ?]).
  unfold randn. cbn [forallb]. rewrite (proj2 (Z.leb_gt 0 batch_size) Hb).
  cbn [andb]. cbv beta iota zeta. eexists _, _. reflexivity.
Qed.

(** What a successful construction establishes. *)
Lemma init_inv (batch_size : Z) (g g' : G) (d : Driver R) :
  __init__ batch_size g = (Ok d, g') ->
  conv_hypers d = constructor_hypers /\
  flattened_size d = Some 1152 /\
  linear_features d = [Some (1152, 100); Some (100, 50); Some (51, 10); Some (10, 3)] /\
  drop_training (drop d) = true.
Proof.
  intros E. destruct (Z.lt_ge_cases batch_size 0) as [Hb | Hb].
  - destruct (init_negative batch_size g Hb) as (e & g2 & E2). congruence.
  - destruct (init_ok batch_size g Hb) as (d2 & g2 & E2 & Hc & Hf & Hl & _ & Hd & _).
    rewrite E in E2. injection E2 as <- <-. auto.
Qed.

(** The state a forward pass leaves when the convolutions accept the image,
    whatever the dense layers do with the result. *)
Lemma forward_state (d : Driver R) (sample : Tensor R * Tensor R) (g : G) (b h w h5 w5 : nat) :
  conv_hypers d = constructor_hypers ->
  shape (fst sample) = [b; 3; h; w] ->
  extent_after conv_chain h = Some h5 ->
  extent_after conv_chain w = Some w5 ->
  exists g', snd (forward sample (d, g)) = (set_flattened_size (64 * h5 * w5) d, g').
Proof.
  intros Hc Hx Hh Hw. rewrite forward_eq.
  destruct (_convs_ok d (fst sample) g b h w h5 w5 Hc Hx Hh Hw) as (flat & g' & -> & _).
  exists g'. reflexivity.
Qed.

Lemma forward_calls_keep_architecture (samples : list (Tensor R * Tensor R)) (s : Self) :
  conv_hypers (fst (forward_calls samples s)) = conv_hypers (fst s) /\
  linear_features (fst (forward_calls samples s)) = linear_features (fst s).
Proof.
  revert s. induction samples as [| x xs IH]; intros s; [split; reflexivity |].
  simpl. destruct s as [d g].
  destruct (forward_keeps_architecture x d g) as (Hc & Hl & _).
  destruct (IH (snd (forward x (d, g)))) as [Hc' Hl'].
  split; [rewrite Hc' | rewrite Hl']; assumption.
Qed.

(** C1: the head after the concatenation is 51 to 10 and then 10 to 3, not
    10 to 1: for a driver made by the constructor, a forward pass on a batch
    of [b] camera images with their speeds returns the squeezed (b, 3)
    output of [lin4], that is three scalars per sample, and for a single
    sample the squeeze removes the batch dimension too. *)
Theorem forward_output_shape (batch_size b : nat) (g g2 : G) (pixels speeds : nat -> R) :
  exists d g1 out s',
    __init__ (Z.of_nat batch_size) g = (Ok d, g1) /\
    linear_features d = [Some (1152, 100); Some (100, 50); Some (51, 10); Some (10, 3)] /\
    forward (mkTensor [b; 3; 66; 200] pixels, mkTensor [b; 1] speeds) (d, g2) = (Ok out, s') /\
    shape out = (if b =? 1 then [3] else [b; 3]) /\
    numel out = 3 * b.
Proof.
  destruct (init_ok (Z.of_nat batch_size) g (Nat2Z.is_nonneg _))
    as (d & g1 & E & Hc & _ & Hl & _).
  destruct (forward_ok d (mkTensor [b; 3; 66; 200] pixels, mkTensor [b; 1] speeds) g2
              b 66 200 1 18 Hc Hl eq_refl eq_refl eq_refl eq_refl) as (l4 & x & g' & _ & F).
  eexists d, g1, _, _. split; [exact E |]. split; [exact Hl |]. split; [exact F |].
  unfold numel, squeeze. cbn [shape List.filter].
  destruct (b =? 1) eqn:Eb; cbn [negb Nat.eqb].
  - apply Nat.eqb_eq in Eb as ->. split; reflexivity.
  - split; [reflexivity |]. unfold product. simpl. lia.
Qed.

(** C2: for every positive batch size, and whatever the generator draws for
    the parameters and the dummy input, the constructor succeeds and the
    flattened width it infers is 1152 = 64 * 1 * 18, the extents that the
    five kernel and stride pairs give for 66 rows and 200 columns. *)
Theorem flattened_width_at_construction (batch_size : Z) (g : G) :
  (0 < batch_size)%Z ->
  exists d g',
    __init__ batch_size g = (Ok d, g') /\
    flattened_size d = Some 1152 /\
    extent_after conv_chain 66 = Some 1 /\
    extent_after conv_chain 200 = Some 18 /\
    1152 = 64 * 1 * 18.
Proof.
  intros Hb. destruct (init_ok batch_size g) as (d & g' & E & _ & Hf & _); [lia |].
  exists d, g'. repeat split; assumption.
Qed.

Lemma forward_calls_camera (samples : list (Tensor R * Tensor R)) (s : Self) :
  conv_hypers (fst s) = constructor_hypers ->
  flattened_size (fst s) = Some 1152 ->
  Forall (fun x => exists b, shape (fst x) = [b; 3; 66; 200]) samples ->
  flattened_size (fst (forward_calls samples s)) = Some 1152.
Proof.
  intros Hc Hf Hs. revert s Hc Hf.
  induction Hs as [| x xs [b Hx] _ IH]; intros [d g] Hc Hf; [exact Hf |].
  simpl in Hc. simpl forward_calls.
  destruct (forward_state d x g b 66 200 1 18 Hc Hx eq_refl eq_refl) as [g' ->].
  apply IH; [exact Hc | reflexivity].
Qed.

(** C3 (amended): the flattened width is assigned by the dummy pass of the
    constructor and again by every forward pass.  Over every sequence of
    forward calls on images of shape (batch, 3, 66, 200) it keeps the value
    of the construction, 1152; and over every sequence of forward calls at
    all the first dense layer keeps the input width taken from it. *)
Theorem flattened_size_stable_on_camera_images (batch_size : Z) (g g1 g2 : G)
    (d0 : Driver R) (samples others : list (Tensor R * Tensor R)) :
  __init__ batch_size g = (Ok d0, g1) ->
  Forall (fun x => exists b, shape (fst x) = [b; 3; 66; 200]) samples ->
  flattened_size (fst (forward_calls samples (d0, g2))) = flattened_size d0 /\
  flattened_size d0 = Some 1152 /\
  option_map features (lin1 (fst (forward_calls others (d0, g2)))) = Some (1152, 100).
Proof.
  intros E Hs. destruct (init_inv _ _ _ _ E) as (Hc & Hf & Hl & _).
  split; [| split].
  - rewrite Hf. apply forward_calls_camera; assumption.
  - exact Hf.
  - destruct (forward_calls_keep_architecture others (d0, g2)) as [_ Hl'].
    simpl in Hl'. rewrite Hl in Hl'. unfold linear_features in Hl'. congruence.
Qed.

(** *** Evaluation mode *)

Lemma forward_eval (d : Driver R) (sample : Tensor R * Tensor R) (g : G) :
  drop_training (drop d) = false ->
  exists o, forward sample (d, g) = (eval_forward d sample, (with_flattened_size o d, g)).
Proof.
  intros Hd. rewrite forward_eq, _convs_eq. unfold eval_forward, res_bind.
  destruct (conv_stack d (fst sample)) as [conv5 | e].
  - rewrite (dropout_call_eval _ _ _ Hd).
    destruct (flatten conv5 1 3) as [flat | e].
    + eexists. reflexivity.
    + exists (flattened_size d). destruct d; reflexivity.
  - exists (flattened_size d). destruct d; reflexivity.
Qed.

(** C7: after [model.eval()] the dropout returns its input and leaves the
    generator alone, and a forward pass is a function of the parameters and
    the sample, [eval_forward]: it draws nothing from the generator, and a
    second pass on the same input, on the object as the first pass left it
    and whatever the generator state, returns (or raises) the same. *)
Theorem eval_forward_deterministic (d : Driver R) (sample : Tensor R * Tensor R) (g1 g2 : G) :
  let model := set_training false d in
  let first := forward sample (model, g1) in
  let second := forward sample (fst (snd first), g2) in
  (forall x g, dropout_call (drop model) x g = (Ok x, g)) /\
  fst first = eval_forward model sample /\
  fst second = fst first /\
  fst (forward sample (model, g2)) = fst first /\
  snd (snd first) = g1 /\ snd (snd second) = g2.
Proof.
  intros model first second.
  assert (Hd : drop_training (drop model) = false) by reflexivity.
  destruct (forward_eval model sample g1 Hd) as [o1 E1].
  destruct (forward_eval model sample g2 Hd) as [o2 E2].
  destruct (forward_eval (with_flattened_size o1 model) sample g2 Hd) as [o3 E3].
  subst first second. rewrite E1. cbn [fst snd]. rewrite E2, E3. cbn [fst snd].
  split; [intros x g; apply dropout_call_eval; exact Hd |].
  repeat split.
Qed.

(** *** Which inputs a forward pass accepts *)

Lemma div_bounds (a b : nat) : 0 < b -> b * (a / b) <= a < b * (a / b) + b.
Proof.
  intros Hb. pose proof (Nat.div_mod_eq a b). pose proof (Nat.mod_upper_bound a b). lia.
Qed.

(** The chain of the five kernels and strides in closed form: an extent
    below 61 does not survive it, an extent n from 61 on becomes
    (n - 61) / 8 + 1. *)
Lemma extent_closed_form (n : nat) :
  extent_after conv_chain n = if n <? 61 then None else Some ((n - 61) / 8 + 1).
Proof.
  unfold conv_chain, extent_after, conv_out_size. rewrite !Nat.div_1_r.
  pose proof (div_bounds (n - 5) 2 ltac:(lia)) as B1. set (q1 := (n - 5) / 2) in *.
  pose proof (div_bounds (q1 + 1 - 5) 2 ltac:(lia)) as B2. set (q2 := (q1 + 1 - 5) / 2) in *.
  pose proof (div_bounds (q2 + 1 - 5) 2 ltac:(lia)) as B3. set (q3 := (q2 + 1 - 5) / 2) in *.
  pose proof (div_bounds (n - 61) 8 ltac:(lia)) as B4. set (q4 := (n - 61) / 8) in *.
  repeat match goal with
         | |- context [?a <? ?b] => destruct (Nat.ltb_spec a b)
         end; try reflexivity; try (exfalso; lia).
  f_equal. lia.
Qed.

Lemma extent_from_61 (n : nat) :
  61 <= n -> extent_after conv_chain n = Some ((n - 61) / 8 + 1).
Proof.
  intros Hn. rewrite extent_closed_form.
  destruct (Nat.ltb_spec n 61); [lia | reflexivity].
Qed.

(** A convolution on a batch with the right number of channels: either a
    kernel extent exceeds the image and it raises, or it returns the maps of
    the next extents. *)
Lemma conv_cases (c : Conv2d R) (x : Tensor R) (b ci co kh kw sh sw h w : nat) :
  hyper c = (ci, co, (kh, kw), (sh, sw)) ->
  shape x = [b; ci; h; w] ->
  ((h <? kh) || (w <? kw) = true /\ exists msg, conv2d_call c x = Raise (RuntimeError msg)) \/
  ((h <? kh) = false /\ (w <? kw) = false /\
   exists t, conv2d_call c x = Ok t /\
             shape t = [b; co; conv_out_size h kh sh; conv_out_size w kw sw]).
Proof.
  intros Hc Hx. destruct ((h <? kh) || (w <? kw)) eqn:E.
  - left. split; [reflexivity |].
    unfold hyper in Hc. destruct c as [ci' co' [kh' kw'] [sh' sw'] wt bs]; simpl in Hc.
    injection Hc as -> -> -> -> -> ->.
    unfold conv2d_call, conv2d_shape. rewrite Hx. cbn [in_channels kernel_size fst snd].
    rewrite Nat.eqb_refl, E. cbn [negb]. eexists. reflexivity.
  - right. apply orb_false_elim in E as [Eh Ew]. split; [exact Eh |]. split; [exact Ew |].
    exact (conv_step c x b ci co kh kw sh sw h w Hc Hx Eh Ew).
Qed.

(** An image with an extent below 61 is refused by one of the five
    convolutions. *)
Lemma conv_stack_small (d : Driver R) (image : Tensor R) (b h w : nat) :
  conv_hypers d = constructor_hypers ->
  shape image = [b; 3; h; w] ->
  (h <? 61) || (w <? 61) = true ->
  exists msg, conv_stack d image = Raise (RuntimeError msg).
Proof.
  unfold conv_hypers, constructor_hypers. intros Hd Hx Hs.
  pose (dflt := (0, 0, (0, 0), (0, 0))).
  pose proof (f_equal (fun l => nth 0 l dflt) Hd) as H1.
  pose proof (f_equal (fun l => nth 1 l dflt) Hd) as H2.
  pose proof (f_equal (fun l => nth 2 l dflt) Hd) as H3.
  pose proof (f_equal (fun l => nth 3 l dflt) Hd) as H4.
  pose proof (f_equal (fun l => nth 4 l dflt) Hd) as H5.
  cbn [nth] in H1, H2, H3, H4, H5.
  unfold conv_stack.
  destruct (conv_cases _ (sub_scalar (div_scalar image 127.5) 1) _ _ _ _ _ _ _ _ _ H1 Hx)
    as [[_ [m ->]] | (Hh1 & Hw1 & a1 & -> & S1)]; [exists m; reflexivity |].
  cbn [res_bind].
  destruct (conv_cases _ (elu a1 0.3) _ _ _ _ _ _ _ _ _ H2 S1)
    as [[_ [m ->]] | (Hh2 & Hw2 & a2 & -> & S2)]; [exists m; reflexivity |].
  cbn [res_bind].
  destruct (conv_cases _ (elu a2 0.3) _ _ _ _ _ _ _ _ _ H3 S2)
    as [[_ [m ->]] | (Hh3 & Hw3 & a3 & -> & S3)]; [exists m; reflexivity |].
  cbn [res_bind].
  destruct (conv_cases _ (elu a3 0.3) _ _ _ _ _ _ _ _ _ H4 S3)
    as [[_ [m ->]] | (Hh4 & Hw4 & a4 & -> & S4)]; [exists m; reflexivity |].
  cbn [res_bind].
  destruct (conv_cases _ (elu a4 0.3) _ _ _ _ _ _ _ _ _ H5 S4)
    as [[_ [m ->]] | (Hh5 & Hw5 & a5 & -> & S5)]; [exists m; reflexivity |].
  exfalso.
  assert (Eh : extent_after conv_chain h <> None).
  { unfold conv_chain, extent_after. rewrite Hh1, Hh2, Hh3, Hh4, Hh5. discriminate. }
  assert (Ew : extent_after conv_chain w <> None).
  { unfold conv_chain, extent_after. rewrite Hw1, Hw2, Hw3, Hw4, Hw5. discriminate. }
  rewrite extent_closed_form in Eh, Ew.
  destruct (h <? 61); [contradiction |]. destruct (w <? 61); [contradiction | discriminate].
Qed.

(** X1: a negative batch size makes the constructor raise, in [torch.randn]
    for the dummy input, after the five convolutions have been made; no
    driver results. *)
Theorem constructor_rejects_negative_batch_size (batch_size : Z) (g : G) :
  (batch_size < 0)%Z ->
  exists msg g', __init__ batch_size g = (Raise (RuntimeError msg), g').
Proof.
  intros Hb. unfold __init__, bind, new_Conv2d.
  repeat (destruct (init_draw _ _ _) as [? ?]).
  unfold randn. cbn [forallb]. rewrite (proj2 (Z.leb_gt 0 batch_size) Hb).
  cbn [andb]. cbv beta iota zeta. eexists _, _. reflexivity.
Qed.

(** X2: the flattened width in closed form.  On a driver made by the
    constructor, [_convs] refuses a batch of 3-channel images with fewer
    than 61 rows or columns and leaves the object and the generator as they
    are; on any larger image of h rows and w columns it returns b rows of
    64 * ((h - 61) / 8 + 1) * ((w - 61) / 8 + 1) features and assigns that
    width to [flattened_size]. *)
Theorem convs_closed_form (batch_size : Z) (g g1 g2 : G) (d : Driver R) (image : Tensor R)
    (b h w : nat) :
  __init__ batch_size g = (Ok d, g1) ->
  shape image = [b; 3; h; w] ->
  let width := 64 * ((h - 61) / 8 + 1) * ((w - 61) / 8 + 1) in
  if (h <? 61) || (w <? 61) then
    exists msg, _convs image (d, g2) = (Raise (RuntimeError msg), (d, g2))
  else
    exists flat g3,
      _convs image (d, g2) = (Ok flat, (set_flattened_size width d, g3)) /\
      shape flat = [b; width].
Proof.
  intros E Hx width. destruct (init_inv _ _ _ _ E) as (Hc & _).
  destruct ((h <? 61) || (w <? 61)) eqn:Es.
  - destruct (conv_stack_small d image b h w Hc Hx Es) as [msg Er].
    exists msg. rewrite _convs_eq, Er. reflexivity.
  - apply orb_false_elim in Es as [Eh Ew].
    apply Nat.ltb_ge in Eh, Ew.
    exact (_convs_ok d image g2 b h w _ _ Hc Hx (extent_from_61 h Eh) (extent_from_61 w Ew)).
Qed.

(** X3: the forward pass accepts exactly the images whose flattened width
    is 1152, whatever their extents: on a driver made by the constructor, an
    image of at least 61 by 61 pixels with a (b, 1) speed column is mapped to
    an output when 64 * ((h - 61) / 8 + 1) * ((w - 61) / 8 + 1) is 1152 (so
    for 66 by 200, and as well for 200 by 66), and otherwise the first
    dense layer raises after [flattened_size] has been assigned. *)
Theorem forward_accepts_width_1152 (batch_size : Z) (g g1 g2 : G) (d : Driver R)
    (sample : Tensor R * Tensor R) (b h w : nat) :
  __init__ batch_size g = (Ok d, g1) ->
  shape (fst sample) = [b; 3; h; w] ->
  shape (snd sample) = [b; 1] ->
  61 <= h -> 61 <= w ->
  let width := 64 * ((h - 61) / 8 + 1) * ((w - 61) / 8 + 1) in
  (width = 1152 ->
     exists out g3,
       forward sample (d, g2) = (Ok out, (set_flattened_size 1152 d, g3)) /\
       shape out = (if b =? 1 then [3] else [b; 3])) /\
  (width <> 1152 ->
     exists msg g3,
       forward sample (d, g2) = (Raise (RuntimeError msg), (set_flattened_size width d, g3))).
Proof.
  intros E Hx Hs Hh Hw width. destruct (init_inv _ _ _ _ E) as (Hc & _ & Hl & _).
  pose proof (extent_from_61 h Hh) as Eh. pose proof (extent_from_61 w Hw) as Ew.
  split; intros Hwd.
  - fold width in Hwd.
    assert (Hl' : linear_features d =
                  [Some (64 * ((h - 61) / 8 + 1) * ((w - 61) / 8 + 1), 100);
                   Some (100, 50); Some (51, 10); Some (10, 3)]).
    { fold width. rewrite Hwd. exact Hl. }
    destruct (forward_ok d sample g2 b h w _ _ Hc Hl' Hx Hs Eh Ew) as (l4 & x & g3 & _ & F).
    fold width in F. rewrite Hwd in F.
    eexists _, g3. split; [exact F |].
    unfold squeeze. cbn [shape List.filter].
    destruct (b =? 1); reflexivity.
  - rewrite forward_eq.
    destruct (_convs_ok d (fst sample) g2 b h w _ _ Hc Hx Eh Ew) as (flat & g3 & -> & Sf).
    fold width in Sf |- *.
    unfold linear_features in Hl. injection Hl as H1 _.
    unfold dense_head. cbn [lin1 set_flattened_size].
    destruct (lin1 d) as [l1 |]; [| discriminate].
    assert (F1 : in_features l1 = 1152) by (simpl in H1; unfold features in H1; congruence).
    cbn [need_attr res_bind].
    rewrite (linear_mismatch l1 flat b width Sf) by (rewrite F1; exact Hwd).
    eexists _, g3. reflexivity.
Qed.

Lemma conv_wrong_channels (c : Conv2d R) (x : Tensor R) (b ci h w : nat) :
  shape x = [b; ci; h; w] -> ci <> in_channels c ->
  exists msg, conv2d_call c x = Raise (RuntimeError msg).
Proof.
  intros Hx Hc. unfold conv2d_call, conv2d_shape. rewrite Hx.
  destruct (Nat.eqb_spec ci (in_channels c)); [contradiction |].
  cbn [negb]. eexists. reflexivity.
Qed.

(** X5: a batch of images that do not have three channels is refused by the
    first convolution: the forward pass raises, and the object and the
    generator are as they were ([flattened_size] is not assigned and no
    dropout mask is drawn). *)
Theorem forward_rejects_wrong_channels (batch_size : Z) (g g1 g2 : G) (d : Driver R)
    (sample : Tensor R * Tensor R) (b c h w : nat) :
  __init__ batch_size g = (Ok d, g1) ->
  shape (fst sample) = [b; c; h; w] ->
  c <> 3 ->
  exists msg, forward sample (d, g2) = (Raise (RuntimeError msg), (d, g2)).
Proof.
  intros E Hx Hc. destruct (init_inv _ _ _ _ E) as (Hh & _).
  unfold conv_hypers, constructor_hypers in Hh.
  pose proof (f_equal (fun l => fst (fst (fst (nth 0 l (0, 0, (0, 0), (0, 0)))))) Hh) as H1.
  cbn [nth fst] in H1. unfold hyper in H1. cbn [fst] in H1.
  destruct (conv_wrong_channels (conv_1 d) (sub_scalar (div_scalar (fst sample) 127.5) 1)
              b c h w Hx) as [msg Er]; [congruence |].
  exists msg. rewrite forward_eq, _convs_eq. unfold conv_stack. rewrite Er. reflexivity.
Qed.

Lemma conv_rank (c : Conv2d R) (x t : Tensor R) :
  conv2d_call c x = Ok t ->
  length (shape t) = length (shape x) /\ (length (shape x) = 3 \/ length (shape x) = 4).
Proof.
  unfold conv2d_call, conv2d_shape.
  destruct (shape x) as [| n1 [| n2 [| n3 [| n4 [| n5 l]]]]]; try discriminate.
  - destruct (negb _); [discriminate |]. destruct (_ || _); [discriminate |].
    intros E. injection E as <-. split; [reflexivity | left; reflexivity].
  - destruct (negb _); [discriminate |]. destruct (_ || _); [discriminate |].
    intros E. injection E as <-. split; [reflexivity | right; reflexivity].
Qed.

Lemma conv_stack_rank (d : Driver R) (image t : Tensor R) :
  conv_stack d image = Ok t ->
  length (shape t) = length (shape image) /\
  (length (shape image) = 3 \/ length (shape image) = 4).
Proof.
  unfold conv_stack.
  destruct (conv2d_call (conv_1 d) _) as [a1 |] eqn:E1; [| discriminate]. cbn [res_bind].
  destruct (conv2d_call (conv_2 d) _) as [a2 |] eqn:E2; [| discriminate]. cbn [res_bind].
  destruct (conv2d_call (conv_3 d) _) as [a3 |] eqn:E3; [| discriminate]. cbn [res_bind].
  destruct (conv2d_call (conv_4 d) _) as [a4 |] eqn:E4; [| discriminate]. cbn [res_bind].
  destruct (conv2d_call (conv_5 d) _) as [a5 |] eqn:E5; [| discriminate]. cbn [res_bind].
  intros E. injection E as <-.
  apply conv_rank in E1 as [R1 K1], E2 as [R2 _], E3 as [R3 _], E4 as [R4 _], E5 as [R5 _].
  cbn [elu shape sub_scalar div_scalar] in *.
  split; [congruence | exact K1].
Qed.

(** X6: the forward pass needs a batched image.  Whatever the driver, an
    image tensor that does not have four dimensions makes it raise (a
    single (3, h, w) image passes the convolutions and fails in the
    flattening of dimensions 1 to 3), and no attribute of the object is
    assigned. *)
Theorem forward_needs_batched_image (d : Driver R) (sample : Tensor R * Tensor R) (g : G) :
  length (shape (fst sample)) <> 4 ->
  exists e g', forward sample (d, g) = (Raise e, (d, g')).
Proof.
  intros Hr. rewrite forward_eq, _convs_eq.
  destruct (conv_stack d (fst sample)) as [conv5 | e] eqn:Ec; [| eexists _, _; reflexivity].
  destruct (conv_stack_rank _ _ _ Ec) as [Hl [H3 | H4]]; [| contradiction].
  destruct (dropout_call_shape (drop d) conv5 g) as (x' & g' & -> & Sx).
  unfold flatten. rewrite Sx.
  replace (length (shape conv5)) with 3 by congruence.
  cbn [Nat.ltb Nat.leb negb]. eexists _, _. reflexivity.
Qed.

Lemma cat_column_cases (a s t : Tensor R) (b n : nat) :
  shape a = [b; S n] ->
  cat a s 1 = Ok t ->
  (shape s = [0] /\ t = a) \/ (exists m, shape s = [b; m] /\ shape t = [b; S n + m]).
Proof.
  unfold cat. intros ->.
  destruct (shape s) as [| x [| y [| z l]]] eqn:Es; [| destruct x | |]; destruct b as [| b'];
    cbn [length Nat.eqb negb Nat.ltb Nat.leb cat_compatible forallb combine andb fst snd];
    try discriminate.
  - intros E. injection E as <-. left. split; reflexivity.
  - intros E. injection E as <-. left. split; reflexivity.
  - destruct x; [| discriminate].
    intros E. injection E as <-. right. exists y. split; reflexivity.
  - destruct x as [| x']; [discriminate |].
    destruct (Nat.eqb_spec b' x') as [<- | Hne]; cbn [andb negb]; [| discriminate].
    intros E. injection E as <-. right. exists y. split; reflexivity.
  - destruct x; discriminate.
  - destruct x; discriminate.
Qed.

(** X4: the forward pass needs the speed as a column.  On a driver made by
    the constructor and a batch of b camera images, it returns an output
    exactly when the speed tensor has the shape (b, 1); any other speed
    tensor makes the concatenation or the third dense layer raise. *)
Theorem forward_needs_speed_column (batch_size : Z) (g g1 g2 : G) (d : Driver R)
    (sample : Tensor R * Tensor R) (b : nat) :
  __init__ batch_size g = (Ok d, g1) ->
  shape (fst sample) = [b; 3; 66; 200] ->
  is_ok (fst (forward sample (d, g2))) = true <-> shape (snd sample) = [b; 1].
Proof.
  intros E Hx. destruct (init_inv _ _ _ _ E) as (Hc & _ & Hl & _). split.
  - rewrite forward_eq.
    destruct (_convs_ok d (fst sample) g2 b 66 200 1 18 Hc Hx eq_refl eq_refl)
      as (flat & g3 & -> & Sf).
    cbn [fst]. unfold linear_features in Hl. injection Hl as H1 H2 H3 H4.
    unfold dense_head. cbn [lin1 lin2 lin3 lin4 set_flattened_size].
    destruct (lin1 d) as [l1 |]; [| discriminate].
    assert (F1 : features l1 = (1152, 100)) by (simpl in H1; congruence); clear H1.
    destruct (lin2 d) as [l2 |]; [| discriminate].
    assert (F2 : features l2 = (100, 50)) by (simpl in H2; congruence); clear H2.
    destruct (lin3 d) as [l3 |]; [| discriminate].
    assert (F3 : features l3 = (51, 10)) by (simpl in H3; congruence); clear H3.
    unfold need_attr, res_bind.
    rewrite (linear_step l1 flat b 1152 100 F1 Sf).
    set (a1 := elu (mkTensor [b; 100] (linear_data l1 flat)) 0.3).
    rewrite (linear_step l2 a1 b 100 50 F2 eq_refl).
    set (a2 := elu (mkTensor [b; 50] (linear_data l2 a1)) 0.3).
    destruct (cat a2 (snd sample) 1) as [fa | e] eqn:Ecat; [| discriminate].
    assert (I3 : in_features l3 = 51) by (unfold features in F3; congruence).
    destruct (cat_column_cases a2 (snd sample) fa b 49 eq_refl Ecat)
      as [[_ ->] | (m & Ss & St)].
    + rewrite (linear_mismatch l3 a2 b 50 eq_refl) by (rewrite I3; discriminate).
      discriminate.
    + destruct (Nat.eq_dec m 1) as [-> | Hm]; [intros _; exact Ss |].
      rewrite (linear_mismatch l3 fa b (50 + m) St) by (rewrite I3; lia).
      discriminate.
  - intros Hs.
    destruct (forward_ok d sample g2 b 66 200 1 18 Hc Hl Hx Hs eq_refl eq_refl)
      as (l4 & x & g3 & _ & ->).
    reflexivity.
Qed.

(** *** The assignment of [flattened_size] *)

(** A forward pass on an image that the convolutions accept and whose
    flattened width is not the input width of [lin1]: the width is assigned,
    and [lin1] raises. *)
Lemma forward_width_mismatch (d : Driver R) (sample : Tensor R * Tensor R) (g : G)
    (b h w h5 w5 : nat) :
  conv_hypers d = constructor_hypers ->
  linear_features d = [Some (1152, 100); Some (100, 50); Some (51, 10); Some (10, 3)] ->
  shape (fst sample) = [b; 3; h; w] ->
  extent_after conv_chain h = Some h5 ->
  extent_after conv_chain w = Some w5 ->
  64 * h5 * w5 <> 1152 ->
  exists msg g',
    forward sample (d, g) = (Raise (RuntimeError msg), (set_flattened_size (64 * h5 * w5) d, g')).
Proof.
  intros Hc Hl Hx Hh Hw Hne. rewrite forward_eq.
  destruct (_convs_ok d (fst sample) g b h w h5 w5 Hc Hx Hh Hw) as (flat & g' & -> & Sf).
  unfold linear_features in Hl. injection Hl as Hl1 _.
  unfold dense_head. cbn [lin1 set_flattened_size].
  destruct (lin1 d) as [l1 |]; [| discriminate].
  assert (F1 : in_features l1 = 1152) by (simpl in Hl1; unfold features in Hl1; congruence).
  cbn [need_attr res_bind].
  rewrite (linear_mismatch l1 flat b (64 * h5 * w5) Sf) by (rewrite F1; exact Hne).
  eexists _, g'. reflexivity.
Qed.

(** C10 (amended): a forward call assigns [flattened_size] exactly when its
    [_convs] gets as far as the assignment.  On a driver made by the
    constructor, after any earlier forward calls: a call on a batch of
    3-channel images that the kernels fit assigns the flattened width of
    that image, for 66 by 200 pixels the value of the construction again,
    and for 70 by 200 pixels, which the convolutions accept and the first
    dense layer then refuses, the other value 2304; a call whose image is
    not a four-dimensional batch, has another number of channels, or has
    fewer than 61 rows or columns raises before the assignment and leaves
    the object as it was; and whatever the sample, the object after the call
    differs from the object before it in [flattened_size] at most. *)
Theorem forward_rewrites_flattened_size (batch_size : Z) (g g1 g2 : G) (d0 : Driver R)
    (earlier : list (Tensor R * Tensor R)) :
  __init__ batch_size g = (Ok d0, g1) ->
  let s := forward_calls earlier (d0, g2) in
  (forall sample b h w h5 w5,
      shape (fst sample) = [b; 3; h; w] ->
      extent_after conv_chain h = Some h5 ->
      extent_after conv_chain w = Some w5 ->
      flattened_size (fst (snd (forward sample s))) = Some (64 * h5 * w5)) /\
  (forall sample b,
      shape (fst sample) = [b; 3; 66; 200] ->
      flattened_size (fst (snd (forward sample s))) = flattened_size d0) /\
  (exists sample,
      shape (fst sample) = [1; 3; 70; 200] /\ shape (snd sample) = [1; 1] /\
      flattened_size (fst (snd (forward sample s))) = Some 2304 /\
      flattened_size (fst (snd (forward sample s))) <> flattened_size d0 /\
      is_ok (fst (forward sample s)) = false) /\
  (forall sample,
      length (shape (fst sample)) <> 4 ->
      is_ok (fst (forward sample s)) = false /\ fst (snd (forward sample s)) = fst s) /\
  (forall sample b c h w,
      shape (fst sample) = [b; c; h; w] -> c <> 3 ->
      is_ok (fst (forward sample s)) = false /\ snd (forward sample s) = s) /\
  (forall sample b h w,
      shape (fst sample) = [b; 3; h; w] -> h < 61 \/ w < 61 ->
      is_ok (fst (forward sample s)) = false /\ snd (forward sample s) = s) /\
  (forall sample b h w,
      shape (fst sample) = [b; 3; h; w] -> 61 <= h -> 61 <= w ->
      flattened_size (fst (snd (forward sample s))) =
      Some (64 * ((h - 61) / 8 + 1) * ((w - 61) / 8 + 1))) /\
  (forall sample,
      fst (snd (forward sample s)) =
      with_flattened_size (flattened_size (fst (snd (forward sample s)))) (fst s)).
Proof.
  intros E s. destruct (init_inv _ _ _ _ E) as (Hc & Hf & Hl & _).
  destruct (forward_calls_keep_architecture earlier (d0, g2)) as [Hc' Hl'].
  fold s in Hc', Hl'. simpl in Hc', Hl'. rewrite Hc in Hc'. rewrite Hl in Hl'.
  assert (General : forall sample b h w h5 w5,
             shape (fst sample) = [b; 3; h; w] ->
             extent_after conv_chain h = Some h5 ->
             extent_after conv_chain w = Some w5 ->
             flattened_size (fst (snd (forward sample s))) = Some (64 * h5 * w5)).
  { intros sample b h w h5 w5 Hx Hh Hw. destruct s as [d gs].
    destruct (forward_state d sample gs b h w h5 w5 Hc' Hx Hh Hw) as [g' ->].
    reflexivity. }
  split; [exact General |]. split; [| split; [| split; [| split; [| split; [| split]]]]].
  - intros sample b Hx. rewrite Hf.
    exact (General sample b 66 200 1 18 Hx eq_refl eq_refl).
  - exists (demo_image 1 70 200, demo_speed 1).
    split; [reflexivity |]. split; [reflexivity |].
    rewrite (General (demo_image 1 70 200, demo_speed 1) 1 70 200 2 18 eq_refl eq_refl eq_refl).
    rewrite Hf. split; [reflexivity |]. split; [discriminate |].
    destruct s as [d gs].
    destruct (forward_width_mismatch d (demo_image 1 70 200, demo_speed 1) gs 1 70 200 2 18
                Hc' Hl' eq_refl eq_refl eq_refl) as (msg & g' & ->); [discriminate |].
    reflexivity.
  - intros sample Hr. destruct s as [d gs]. cbn [fst]. rewrite forward_eq, _convs_eq.
    destruct (conv_stack d (fst sample)) as [conv5 | e] eqn:Ec; [| split; reflexivity].
    destruct (conv_stack_rank _ _ _ Ec) as [Hlen [H3 | H4]]; [| contradiction].
    destruct (dropout_call_shape (drop d) conv5 gs) as (x' & g' & -> & Sx).
    unfold flatten. rewrite Sx.
    replace (length (shape conv5)) with 3 by congruence.
    cbn [Nat.ltb Nat.leb negb]. split; reflexivity.
  - intros sample b c h w Hx Hne. destruct s as [d gs].
    unfold conv_hypers, constructor_hypers in Hc'.
    pose proof (f_equal (fun l => fst (fst (fst (nth 0 l (0, 0, (0, 0), (0, 0)))))) Hc') as H1.
    cbn [nth fst] in H1. unfold hyper in H1. cbn [fst] in H1.
    destruct (conv_wrong_channels (conv_1 d) (sub_scalar (div_scalar (fst sample) 127.5) 1)
                b c h w Hx) as [msg Er]; [congruence |].
    rewrite forward_eq, _convs_eq. unfold conv_stack. rewrite Er. split; reflexivity.
  - intros sample b h w Hx Hs. destruct s as [d gs].
    assert (Hb : (h <? 61) || (w <? 61) = true).
    { apply orb_true_iff. destruct Hs as [Hs | Hs]; [left | right]; apply Nat.ltb_lt; exact Hs. }
    destruct (conv_stack_small d (fst sample) b h w Hc' Hx Hb) as [msg Er].
    rewrite forward_eq, _convs_eq, Er. split; reflexivity.
  - intros sample b h w Hx Hh Hw.
    exact (General sample b h w _ _ Hx (extent_from_61 h Hh) (extent_from_61 w Hw)).
  - intros sample. destruct s as [d gs]. apply forward_frame.
Qed.

End DriverFacts.

(** ** The training loop *)

Section TrainingFacts.
Context {R : Type} `{Scalar R} {G Net Opt : Type}.
Context `{Module R G Net} `{Optimizer R G Net Opt}.
Variable device_available : string -> bool.
Variable tensor_format : R -> string.

#[local] Abbreviation World := (@World R G Net).
#[local] Abbreviation Locals := (@Locals R Opt).
#[local] Abbreviation silent := (@silent R G Net).
#[local] Abbreviation quiet := (@quiet R G Net).
#[local] Abbreviation Batch := (@Batch R).

(** *** Steps that write no file *)

Lemma silent_ret {A : Type} (a : A) : silent (ret a).
Proof. intros w. split; reflexivity. Qed.

Lemma silent_lift {A : Type} (r : res A) : silent (lift r).
Proof. intros w. split; reflexivity. Qed.

Lemma silent_get : silent get.
Proof. intros w. split; reflexivity. Qed.

Lemma silent_bind {A B : Type} (m : M World A) (f : A -> M World B) :
  silent m -> (forall a, silent (f a)) -> silent (bind m f).
Proof.
  intros Hm Hf w. unfold bind. destruct (Hm w) as [Dm Em].
  destruct (m w) as [[a | e] w1]; simpl in *.
  - destruct (Hf a w1) as [Df Ef]. split; congruence.
  - split; assumption.
Qed.

Lemma silent_model_train (mode : bool) : silent (model_train mode).
Proof. intros w. split; reflexivity. Qed.

Lemma silent_call_model (sample : Tensor R * Tensor R) : silent (call_model sample).
Proof.
  intros w. unfold call_model.
  destruct (module_call sample (net w, generator w)) as [r [n g]]. split; reflexivity.
Qed.

Lemma silent_net_to (device : string) : silent (net_to device_available device).
Proof. intros w. unfold net_to. destruct (device_available device); split; reflexivity. Qed.

Lemma silent_for_each {A B : Type} (xs : list A) (body : A -> B -> M World B) (b : B) :
  (forall x b, silent (body x b)) -> silent (for_each xs body b).
Proof.
  intros Hb. revert b. induction xs as [| x xs IH]; intros b; simpl.
  - apply silent_ret.
  - apply silent_bind; [apply Hb | exact IH].
Qed.

Lemma silent_train_batch (b : Batch) (st : Locals) : silent (train_batch b st).
Proof.
  destruct b as [[img speed] labels]. unfold train_batch.
  apply silent_bind; [apply silent_lift | intros img'].
  apply silent_bind; [apply silent_get | intros before].
  apply silent_bind; [apply silent_call_model | intros outputs].
  apply silent_bind; [apply silent_lift | intros loss].
  apply silent_bind; [apply silent_lift | intros losses].
  apply silent_bind; [apply silent_get | intros now].
  intros w. destruct (backward_step _ _ _ _ _) as [[n o] | e]; split; reflexivity.
Qed.

Lemma silent_validate_batch (b : Batch) (st : Locals) : silent (validate_batch b st).
Proof.
  destruct b as [[img speed] labels]. unfold validate_batch.
  apply silent_bind; [apply silent_lift | intros img'].
  apply silent_bind; [apply silent_call_model | intros outputs].
  apply silent_bind; [apply silent_lift | intros loss].
  apply silent_bind; [apply silent_lift | intros losses].
  apply silent_ret.
Qed.

Lemma silent_quiet {A : Type} (m : M World A) : silent m -> quiet m.
Proof.
  intros Hm w. destruct (Hm w) as [D E]. split; [exact D |].
  exists []. rewrite E. simpl. now rewrite app_nil_r.
Qed.

Lemma quiet_bind {A B : Type} (m : M World A) (f : A -> M World B) :
  quiet m -> (forall a, quiet (f a)) -> quiet (bind m f).
Proof.
  intros Hm Hf w. unfold bind. destruct (Hm w) as [Dm [out Em]].
  destruct (m w) as [[a | e] w1]; simpl in *.
  - destruct (Hf a w1) as [Df [out' Ef]]. split; [congruence |].
    exists (out ++ out'). rewrite Ef, Em, map_app, app_assoc. reflexivity.
  - split; [assumption |]. exists out. assumption.
Qed.

Lemma quiet_print (line : string) : quiet (print line).
Proof. intros w. split; [reflexivity |]. exists [line]. reflexivity. Qed.

Lemma quiet_optimize_phase (loader : list Batch) (st : Locals) :
  quiet (optimize_phase tensor_format loader st).
Proof.
  unfold optimize_phase.
  apply quiet_bind; [apply silent_quiet, silent_model_train | intros _].
  apply quiet_bind;
    [apply silent_quiet, silent_for_each; apply silent_train_batch | intros st'].
  apply quiet_bind; [apply quiet_print | intros _]. apply silent_quiet, silent_ret.
Qed.

Lemma quiet_validate_phase (loader : list Batch) (st : Locals) :
  quiet (validate_phase tensor_format loader st).
Proof.
  unfold validate_phase.
  apply quiet_bind; [apply silent_quiet, silent_model_train | intros _].
  apply quiet_bind;
    [apply silent_quiet, silent_for_each; apply silent_validate_batch | intros st'].
  apply quiet_bind; [apply quiet_print | intros _]. apply silent_quiet, silent_ret.
Qed.

Lemma quiet_saves {A : Type} (m : M World A) (w : World) :
  quiet m ->
  List.filter is_saved (events (snd (m w))) = List.filter is_saved (events w) /\
  List.filter is_vis_train (events (snd (m w))) = List.filter is_vis_train (events w).
Proof.
  intros Hm. destruct (Hm w) as [_ [out ->]].
  rewrite !List.filter_app.
  assert (E : forall f : @event R Net -> bool, (forall l, f (Stdout l) = false) ->
                List.filter f (map Stdout out) = []).
  { intros f Hf. induction out as [| l out IH]; simpl; [reflexivity |].
    rewrite Hf. exact IH. }
  rewrite !E by reflexivity. rewrite !app_nil_r. split; reflexivity.
Qed.

(** *** The loss accumulators *)

Lemma rsum_fold (n : nat) (f : nat -> R) :
  rsum n f = fold_left radd (map f (seq 0 n)) (of_Q 0).
Proof.
  induction n as [| n IH]; [reflexivity |].
  rewrite seq_S, map_app, fold_left_app. simpl. rewrite <- IH. reflexivity.
Qed.

(** The mean of a tensor is the sum of its elements over their number. *)
Lemma mean_arith_mean (t : Tensor R) : mean t = arith_mean (to_list t).
Proof.
  unfold mean, arith_mean, to_list. rewrite rsum_fold, length_map, length_seq. reflexivity.
Qed.

Lemma holds_empty : holds (@empty_tensor R _) [].
Proof. split; reflexivity. Qed.

Lemma holds_numel (t : Tensor R) (l : list R) : holds t l -> numel t = length l.
Proof. intros [Hs _]. unfold numel. rewrite Hs. simpl. lia. Qed.

(** Concatenating a one-element tensor in front of a one-dimensional tensor
    puts the element in front of its elements. *)
Lemma cat_prepend (x : R) (t : Tensor R) (l : list R) :
  holds t l ->
  exists t', cat (unsqueeze_scalar x) t 0 = Ok t' /\ holds t' (x :: l).
Proof.
  intros [Hs L]. unfold cat. rewrite Hs.
  destruct l as [| y l]; cbn -[Nat.div Nat.modulo Nat.ltb].
  - exists (unsqueeze_scalar x). split; [reflexivity |]. split; reflexivity.
  - eexists. split; [reflexivity |]. split; [reflexivity |].
    unfold to_list, numel in *. rewrite Hs in L. cbn [shape]. cbn [product fold_right] in *.
    rewrite Nat.mul_1_r in *. cbn [length] in *.
    change (seq 0 (S (S (length l)))) with (0 :: seq 1 (S (length l))).
    rewrite <- seq_shift, map_cons, map_map. f_equal.
    rewrite <- L. apply map_ext. intros k.
    unfold at_index. cbn -[Nat.div Nat.modulo Nat.ltb].
    rewrite Nat.div_1_r. cbn -[Nat.div Nat.modulo Nat.ltb].
    rewrite Hs. cbn -[Nat.div Nat.modulo Nat.ltb]. f_equal. lia.
Qed.

(** *** One batch *)

Lemma validate_batch_ok (b : Batch) (st st1 : Locals) (w w1 : World) :
  validate_batch b st w = (Ok st1, w1) ->
  exists loss,
    forward_loss b w = (Ok loss, w1) /\
    cat (unsqueeze_scalar loss) (validation_epoch_losses st) 0 =
      Ok (validation_epoch_losses st1) /\
    optimizer st1 = optimizer st /\
    training_losses st1 = training_losses st /\
    validation_losses st1 = validation_losses st /\
    training_epoch_losses st1 = training_epoch_losses st /\
    min_lost st1 = min_lost st.
Proof.
  destruct b as [[img speed] labels].
  unfold validate_batch, forward_loss, bind, lift, ret.
  destruct (permute img [0; 3; 1; 2]) as [img' | e]; [| discriminate].
  destruct (call_model _ w) as [[outputs | e] w2]; [| discriminate].
  destruct (lossFunc outputs labels) as [loss | e]; [| discriminate].
  destruct (cat _ _ 0) as [losses | e] eqn:C; [| discriminate].
  intros E. injection E as <- <-. exists loss. repeat split. exact C.
Qed.

Lemma train_batch_ok (b : Batch) (st st1 : Locals) (w w1 : World) :
  train_batch b st w = (Ok st1, w1) ->
  exists loss w2,
    forward_loss b w = (Ok loss, w2) /\
    cat (unsqueeze_scalar loss) (training_epoch_losses st) 0 =
      Ok (training_epoch_losses st1) /\
    training_losses st1 = training_losses st /\
    validation_losses st1 = validation_losses st /\
    validation_epoch_losses st1 = validation_epoch_losses st /\
    min_lost st1 = min_lost st.
Proof.
  destruct b as [[img speed] labels].
  unfold train_batch, forward_loss, bind, lift, ret, get.
  destruct (permute img [0; 3; 1; 2]) as [img' | e]; [| discriminate].
  destruct (call_model _ w) as [[outputs | e] w2]; [| discriminate].
  destruct (lossFunc outputs labels) as [loss | e]; [| discriminate].
  destruct (cat _ _ 0) as [losses | e] eqn:C; [| discriminate].
  destruct (backward_step _ _ _ _ _) as [[n o] | e]; [| discriminate].
  intros E. injection E as <- <-. exists loss, w2. repeat split. exact C.
Qed.

Lemma accumulates_validate :
  accumulates (Opt:=Opt) validate_batch validation_epoch_losses.
Proof.
  intros b st w st1 w1 E. destruct (validate_batch_ok _ _ _ _ _ E) as (loss & F & C & _).
  exists loss, w1. split; assumption.
Qed.

Lemma accumulates_train :
  accumulates (Opt:=Opt) train_batch training_epoch_losses.
Proof.
  intros b st w st1 w1 E. destruct (train_batch_ok _ _ _ _ _ E) as (loss & w2 & F & C & _).
  exists loss, w2. split; assumption.
Qed.

(** *** A loop over the batches *)

Lemma for_each_cons_ok {A B S : Type} (x : A) (xs : list A) (body : A -> B -> M S B)
    (b b' : B) (s s' : S) :
  for_each (x :: xs) body b s = (Ok b', s') ->
  exists b1 s1, body x b s = (Ok b1, s1) /\ for_each xs body b1 s1 = (Ok b', s').
Proof.
  simpl. unfold bind. destruct (body x b s) as [[b1 | e] s1]; [| discriminate].
  intros E. exists b1, s1. split; [reflexivity | exact E].
Qed.

(** After a loop, the accumulator holds the losses of all its batches, the
    last batch first, in front of what it held before. *)
Lemma loop_losses (body : Batch -> Locals -> M World Locals) (acc : Locals -> Tensor R) :
  accumulates body acc ->
  forall loader st w st' w' l,
    holds (acc st) l ->
    for_each loader body st w = (Ok st', w') ->
    holds (acc st') (rev (batch_losses body loader st w) ++ l) /\
    length (batch_losses body loader st w) = length loader.
Proof.
  intros Hb. induction loader as [| b bs IH]; intros st w st' w' l Hl E.
  - simpl in E. injection E as <- <-. split; [exact Hl | reflexivity].
  - destruct (for_each_cons_ok _ _ _ _ _ _ _ E) as (st1 & w1 & E1 & E2).
    destruct (Hb _ _ _ _ _ E1) as (loss & w2 & F & C).
    destruct (cat_prepend loss (acc st) l Hl) as (t' & C' & Hl').
    rewrite C in C'. injection C' as <-.
    destruct (IH st1 w1 st' w' (loss :: l) Hl' E2) as [IH1 IH2].
    cbn [batch_losses]. rewrite F, E1. cbn [rev length].
    rewrite <- app_assoc. split; [exact IH1 | now rewrite IH2].
Qed.

Lemma loop_keeps {A : Type} (f : Locals -> A) (body : Batch -> Locals -> M World Locals) :
  (forall b st w st1 w1, body b st w = (Ok st1, w1) -> f st1 = f st) ->
  forall loader st w st' w',
    for_each loader body st w = (Ok st', w') -> f st' = f st.
Proof.
  intros Hb. induction loader as [| b bs IH]; intros st w st' w' E.
  - simpl in E. injection E as <- <-. reflexivity.
  - destruct (for_each_cons_ok _ _ _ _ _ _ _ E) as (st1 & w1 & E1 & E2).
    rewrite (IH _ _ _ _ E2). exact (Hb _ _ _ _ _ E1).
Qed.

(** *** One epoch *)

(** A field of the locals that no step of a loop changes is the same after
    the loop. *)
Ltac field_kept step_ok E :=
  match goal with
  | |- ?f _ = ?f _ =>
      eapply (loop_keeps f); [| exact E];
      let E1 := fresh "E" in
      intros ? ? ? ? ? E1;
      destruct (step_ok _ _ _ _ _ E1) as (? & ? & ? & ? & ? & ? & ? & ?); assumption
  end.

Lemma train_loop_ok (loader : list Batch) (st st' : Locals) (w w' : World) :
  holds (training_epoch_losses st) [] ->
  for_each loader train_batch st w = (Ok st', w') ->
  let losses := batch_losses train_batch loader st w in
  length losses = length loader /\
  mean (training_epoch_losses st') = arith_mean (rev losses) /\
  training_losses st' = training_losses st /\
  validation_losses st' = validation_losses st /\
  validation_epoch_losses st' = validation_epoch_losses st /\
  min_lost st' = min_lost st /\
  disk w' = disk w /\ events w' = events w.
Proof.
  intros Hacc E losses.
  destruct (loop_losses _ _ accumulates_train loader st w st' w' [] Hacc E) as [[_ Hl] Hn].
  rewrite app_nil_r in Hl.
  destruct (silent_for_each loader train_batch st silent_train_batch w) as [D Ev].
  rewrite E in D, Ev.
  split; [exact Hn |]. split; [rewrite mean_arith_mean, Hl; reflexivity |].
  repeat split; try assumption; field_kept train_batch_ok E.
Qed.

Lemma validate_loop_ok (loader : list Batch) (st st' : Locals) (w w' : World) :
  holds (validation_epoch_losses st) [] ->
  for_each loader validate_batch st w = (Ok st', w') ->
  let losses := batch_losses validate_batch loader st w in
  length losses = length loader /\
  mean (validation_epoch_losses st') = arith_mean (rev losses) /\
  training_losses st' = training_losses st /\
  validation_losses st' = validation_losses st /\
  training_epoch_losses st' = training_epoch_losses st /\
  min_lost st' = min_lost st /\
  disk w' = disk w /\ events w' = events w.
Proof.
  intros Hacc E losses.
  destruct (loop_losses _ _ accumulates_validate loader st w st' w' [] Hacc E) as [[_ Hl] Hn].
  rewrite app_nil_r in Hl.
  destruct (silent_for_each loader validate_batch st silent_validate_batch w) as [D Ev].
  rewrite E in D, Ev.
  split; [exact Hn |]. split; [rewrite mean_arith_mean, Hl; reflexivity |].
  repeat split; try assumption; field_kept validate_batch_ok E.
Qed.

(** An epoch as its two loops and the checkpoint step. *)
Lemma epoch_eq (epochs : Z) (tl vl : list Batch) (i : nat) (st : Locals) (w : World) :
  epoch tensor_format epochs tl vl i st w =
  match for_each tl train_batch st (training_start epochs i w) with
  | (Raise e, wa) => (Raise e, wa)
  | (Ok sa, wa) =>
      match for_each vl validate_batch (record_training_loss sa)
              (validation_start tensor_format (mean (training_epoch_losses sa)) wa) with
      | (Raise e, wb) => (Raise e, wb)
      | (Ok sb, wb) =>
          checkpoint (mean (validation_epoch_losses sb)) (record_validation_loss sb)
            (mkWorld (net wb) (generator wb) (disk wb)
               (events wb ++
                [Stdout ("Validation: Loss= "
                         +:+ tensor_format (mean (validation_epoch_losses sb))
                         +:+ " " +:+ newline)]))
      end
  end.
Proof.
  unfold epoch, optimize_phase, validate_phase, bind, print, emit, model_train, ret,
    training_start, validation_start.
  cbn [fst snd net generator disk events].
  destruct (for_each tl train_batch st _) as [[sa | e] wa]; [| reflexivity].
  cbn [fst snd net generator disk events].
  destruct (for_each vl validate_batch _ _) as [[sb | e] wb]; reflexivity.
Qed.

(** What a completed epoch does: it appends the mean of its per-batch
    training losses and the mean of its per-batch validation losses to the
    histories, leaves the accumulators empty, prints its three lines, and
    saves the network exactly when the validation mean is below [min_lost]. *)
Lemma epoch_ok (epochs : Z) (tl vl : list Batch) (i : nat) (st st' : Locals) (w w' : World) :
  holds (training_epoch_losses st) [] ->
  holds (validation_epoch_losses st) [] ->
  epoch tensor_format epochs tl vl i st w = (Ok st', w') ->
  let tls := epoch_training_losses epochs tl i st w in
  let vls := epoch_validation_losses tensor_format epochs tl vl i st w in
  let tm := arith_mean (rev tls) in
  let vm := arith_mean (rev vls) in
  let printed :=
    events w ++
    [Stdout ("Epoch " +:+ str (Z.of_nat i + 1) +:+ "/" +:+ str epochs);
     Stdout ("Training: Loss= " +:+ tensor_format tm +:+ " ");
     Stdout ("Validation: Loss= " +:+ tensor_format vm +:+ " " +:+ newline)] in
  length tls = length tl /\ length vls = length vl /\
  training_losses st' = training_losses st ++ [tm] /\
  validation_losses st' = validation_losses st ++ [vm] /\
  training_epoch_losses st' = empty_tensor /\
  validation_epoch_losses st' = empty_tensor /\
  (if rltb vm (min_lost st)
   then min_lost st' = vm /\
        disk w' = <["driver_best.pt" := net w']> (disk w) /\
        events w' = printed ++ [Saved "driver_best.pt" (net w')]
   else min_lost st' = min_lost st /\ disk w' = disk w /\ events w' = printed).
Proof.
  intros Ht Hv E tls vls tm vm printed. rewrite epoch_eq in E.
  subst printed tm vm vls tls. unfold epoch_validation_losses, epoch_training_losses.
  destruct (for_each tl train_batch st (training_start epochs i w)) as [[sa | e] wa] eqn:EA;
    [| discriminate].
  destruct (train_loop_ok tl st sa _ wa Ht EA) as (Ltl & Mt & Htl & Hvl & Hve & Hm & Da & Ea).
  destruct (for_each vl validate_batch (record_training_loss sa)
              (validation_start tensor_format (mean (training_epoch_losses sa)) wa))
    as [[sb | e] wb] eqn:EB; [| discriminate].
  assert (Hv' : holds (validation_epoch_losses (record_training_loss sa)) []).
  { cbn [record_training_loss validation_epoch_losses]. rewrite Hve. exact Hv. }
  destruct (validate_loop_ok vl _ sb _ wb Hv' EB)
    as (Lvl & Mv & Htl' & Hvl' & Hte' & Hm' & Db & Eb).
  cbn [record_training_loss min_lost training_losses validation_losses
       training_epoch_losses] in Htl', Hvl', Hm', Hte'.
  cbn [validation_start disk events] in Db, Eb. cbn [training_start disk events] in Da, Ea.
  rewrite <- Mt, <- Mv.
  unfold checkpoint in E.
  cbn [record_validation_loss min_lost training_losses validation_losses
       training_epoch_losses validation_epoch_losses optimizer] in E.
  rewrite Hm', Hm in E.
  split; [exact Ltl |]. split; [exact Lvl |].
  destruct (rltb (mean (validation_epoch_losses sb)) (min_lost st)).
  - unfold bind, torch_save_model, ret in E. cbn [fst snd net generator disk events] in E.
    injection E as <- <-. cbn [training_losses validation_losses training_epoch_losses
      validation_epoch_losses min_lost net disk events].
    rewrite Htl', Hvl', Hte', Htl, Hvl, Db, Eb, Da, Ea, <- !app_assoc.
    repeat split.
  - unfold ret in E. injection E as <- <-.
    cbn [record_validation_loss training_losses validation_losses training_epoch_losses
      validation_epoch_losses min_lost net disk events].
    rewrite Htl', Hvl', Hte', Htl, Hvl, Db, Eb, Da, Ea, <- !app_assoc.
    repeat split. congruence.
Qed.

(** *** The loop over the epochs *)

Lemma for_each_app {A B S : Type} (xs ys : list A) (body : A -> B -> M S B) (b : B) (s : S) :
  for_each (xs ++ ys) body b s =
  match for_each xs body b s with
  | (Ok b1, s1) => for_each ys body b1 s1
  | (Raise e, s1) => (Raise e, s1)
  end.
Proof.
  revert b s. induction xs as [| x xs IH]; intros b s; [reflexivity |].
  simpl. unfold bind. destruct (body x b s) as [[b1 | e] s1]; [apply IH | reflexivity].
Qed.

Lemma epochs_loop_S (epochs : Z) (tl vl : list Batch) (n : nat) (st : Locals) (w : World) :
  epochs_loop tensor_format epochs tl vl (S n) st w =
  match epochs_loop tensor_format epochs tl vl n st w with
  | (Ok st1, w1) => epoch tensor_format epochs tl vl n st1 w1
  | (Raise e, w1) => (Raise e, w1)
  end.
Proof.
  unfold epochs_loop. rewrite seq_S, for_each_app. simpl.
  destruct (for_each (seq 0 n) _ st w) as [[st1 | e] w1]; [| reflexivity].
  unfold bind. destruct (epoch _ _ _ _ _ _ _) as [[st2 | e] w2]; reflexivity.
Qed.

Lemma running_best_snoc (sentinel v : R) (l : list R) :
  running_best sentinel (l ++ [v]) =
  if rltb v (running_best sentinel l) then v else running_best sentinel l.
Proof. unfold running_best. rewrite fold_left_app. reflexivity. Qed.

(** After [n] completed epochs: the accumulators are empty, each history has
    [n] entries, and [min_lost] is the running best of the validation
    history from the value it started with. *)
Lemma epochs_loop_inv (epochs : Z) (tl vl : list Batch) (n : nat) (st0 st : Locals)
    (w0 w : World) :
  fresh st0 ->
  epochs_loop tensor_format epochs tl vl n st0 w0 = (Ok st, w) ->
  holds (training_epoch_losses st) [] /\ holds (validation_epoch_losses st) [] /\
  length (training_losses st) = n /\ length (validation_losses st) = n /\
  min_lost st = running_best (min_lost st0) (validation_losses st).
Proof.
  intros (Ht0 & Hv0 & Hta & Hva). revert st w.
  induction n as [| n IH]; intros st w E.
  - unfold epochs_loop in E. simpl in E. injection E as <- <-.
    rewrite Ht0, Hv0. split; [exact Hta |]. split; [exact Hva |]. repeat split.
  - rewrite epochs_loop_S in E.
    destruct (epochs_loop tensor_format epochs tl vl n st0 w0) as [[st1 | e] w1];
      [| discriminate].
    destruct (IH st1 w1 eq_refl) as (Ha & Hb & Lt & Lv & Hm).
    destruct (epoch_ok epochs tl vl n st1 st w1 w Ha Hb E)
      as (_ & _ & Et & Ev & Eta & Eva & Hck).
    rewrite Eta, Eva, Et, Ev, !length_app, Lt, Lv, running_best_snoc, <- Hm.
    split; [apply holds_empty |]. split; [apply holds_empty |].
    split; [simpl; lia |]. split; [simpl; lia |].
    destruct (rltb _ (min_lost st1)); destruct Hck as (Hck & _); exact Hck.
Qed.

(** A run that completes [n] epochs has completed every smaller number of
    them before, with the histories it has at the end cut to that length. *)
Lemma epochs_loop_prefix (epochs : Z) (tl vl : list Batch) (n : nat) (st0 st : Locals)
    (w0 w : World) :
  fresh st0 ->
  epochs_loop tensor_format epochs tl vl n st0 w0 = (Ok st, w) ->
  forall k, k <= n ->
    exists st_k w_k,
      epochs_loop tensor_format epochs tl vl k st0 w0 = (Ok st_k, w_k) /\
      training_losses st_k = firstn k (training_losses st) /\
      validation_losses st_k = firstn k (validation_losses st).
Proof.
  intros Hf. revert st w. induction n as [| n IH]; intros st w E k Hk.
  - assert (k = 0) as -> by lia. exists st, w. split; [exact E |].
    destruct (epochs_loop_inv _ _ _ _ _ _ _ _ Hf E) as (_ & _ & Lt & Lv & _).
    destruct (training_losses st); [| discriminate].
    destruct (validation_losses st); [| discriminate]. split; reflexivity.
  - destruct (epochs_loop_inv _ _ _ _ _ _ _ _ Hf E) as (_ & _ & Lt & Lv & _).
    destruct (Nat.eq_dec k (S n)) as [-> | Hne].
    + exists st, w. split; [exact E |].
      rewrite <- Lt at 1. rewrite <- Lv at 1. rewrite !firstn_all. split; reflexivity.
    + pose proof E as E'. rewrite epochs_loop_S in E'.
      destruct (epochs_loop tensor_format epochs tl vl n st0 w0) as [[st1 | e] w1] eqn:E1;
        [| discriminate].
      destruct (epochs_loop_inv _ _ _ _ _ _ _ _ Hf E1) as (Ha & Hb & Lt1 & Lv1 & _).
      destruct (epoch_ok epochs tl vl n st1 st w1 w Ha Hb E') as (_ & _ & Et & Ev & _).
      destruct (IH st1 w1 eq_refl k) as (st_k & w_k & Ek & Ft & Fv); [lia |].
      exists st_k, w_k. split; [exact Ek |].
      rewrite Et, Ev, !firstn_app, Lt1, Lv1.
      replace (k - n) with 0 by lia. simpl. rewrite !app_nil_r. split; assumption.
Qed.

Lemma fresh_initial (model : Net) (lr : Q) : fresh (initial_locals model lr).
Proof. repeat split. Qed.

(** The run as the device check, the loop and the call of [vis_train]. *)
Lemma train_eq (device : string) (epochs : Z) (lr : Q) (tl vl : list Batch) (w0 : World) :
  train device_available tensor_format device epochs lr tl vl w0 =
  if device_available device then
    match epochs_loop tensor_format epochs tl vl (Z.to_nat epochs)
            (initial_locals (net w0) lr) w0 with
    | (Ok st, w) =>
        (Ok tt, mkWorld (net w) (generator w) (disk w)
                  (events w ++ [VisTrain (training_losses st) (validation_losses st)
                                         epochs "Losses"]))
    | (Raise e, w) => (Raise e, w)
    end
  else (Raise (RuntimeError "device is not available"), w0).
Proof.
  unfold train, bind, net_to, get, vis_train, emit.
  destruct (device_available device); [| reflexivity].
  destruct (epochs_loop _ _ _ _ _ _ w0) as [[st | e] w]; reflexivity.
Qed.

(** An epoch that raises has written no file and called no [vis_train]. *)
Lemma epoch_raise (epochs : Z) (tl vl : list Batch) (i : nat) (st : Locals) (w w' : World)
    (e : exn) :
  epoch tensor_format epochs tl vl i st w = (Raise e, w') ->
  disk w' = disk w /\
  List.filter is_saved (events w') = List.filter is_saved (events w) /\
  List.filter is_vis_train (events w') = List.filter is_vis_train (events w).
Proof.
  rewrite epoch_eq.
  destruct (silent_for_each tl train_batch st silent_train_batch (training_start epochs i w))
    as [Da Ea].
  destruct (for_each tl train_batch st _) as [[sa | ea] wa]; simpl in Da, Ea.
  - destruct (silent_for_each vl validate_batch (record_training_loss sa) silent_validate_batch
                (validation_start tensor_format (mean (training_epoch_losses sa)) wa))
      as [Db Eb].
    destruct (for_each vl validate_batch _ _) as [[sb | eb] wb]; simpl in Db, Eb.
    + unfold checkpoint, bind, torch_save_model, ret. destruct (rltb _ _); discriminate.
    + intros E. injection E as <- <-. rewrite Db, Da, Eb, Ea, !List.filter_app.
      simpl. rewrite !app_nil_r. repeat split.
  - intros E. injection E as <- <-. rewrite Da, Ea, !List.filter_app.
    simpl. rewrite !app_nil_r. repeat split.
Qed.

Lemma epoch_plotless (epochs : Z) (tl vl : list Batch) (i : nat) (st : Locals) :
  plotless (epoch tensor_format epochs tl vl i st).
Proof.
  intros w. destruct (epoch tensor_format epochs tl vl i st w) as [[st' | e] w'] eqn:E.
  - rewrite epoch_eq in E.
    destruct (silent_for_each tl train_batch st silent_train_batch (training_start epochs i w))
      as [_ Ea].
    destruct (for_each tl train_batch st _) as [[sa | ea] wa]; [| discriminate].
    destruct (silent_for_each vl validate_batch (record_training_loss sa) silent_validate_batch
                (validation_start tensor_format (mean (training_epoch_losses sa)) wa))
      as [_ Eb].
    destruct (for_each vl validate_batch _ _) as [[sb | eb] wb]; [| discriminate].
    simpl in Ea, Eb.
    unfold checkpoint, bind, torch_save_model, ret in E.
    destruct (rltb _ _); injection E as <- <-; simpl;
      rewrite Eb, Ea, !List.filter_app; simpl; rewrite !app_nil_r; reflexivity.
  - simpl. apply (epoch_raise _ _ _ _ _ _ _ _ E).
Qed.

Lemma epochs_loop_plotless (epochs : Z) (tl vl : list Batch) (n : nat) (st : Locals) :
  plotless (epochs_loop tensor_format epochs tl vl n st).
Proof.
  induction n as [| n IH]; intros w; [reflexivity |].
  rewrite epochs_loop_S. specialize (IH w).
  destruct (epochs_loop tensor_format epochs tl vl n st w) as [[st1 | e] w1]; simpl in IH.
  - rewrite <- IH. apply epoch_plotless.
  - exact IH.
Qed.

(** A loop over the epochs that raises does so in an epoch reached after
    completed ones. *)
Lemma epochs_loop_raise (epochs : Z) (tl vl : list Batch) (n : nat) (st0 : Locals)
    (w0 w : World) (e : exn) :
  epochs_loop tensor_format epochs tl vl n st0 w0 = (Raise e, w) ->
  exists k st_k w_k,
    k < n /\
    epochs_loop tensor_format epochs tl vl k st0 w0 = (Ok st_k, w_k) /\
    epoch tensor_format epochs tl vl k st_k w_k = (Raise e, w).
Proof.
  induction n as [| n IH]; intros E; [discriminate |].
  rewrite epochs_loop_S in E.
  destruct (epochs_loop tensor_format epochs tl vl n st0 w0) as [[st1 | e1] w1] eqn:E1.
  - exists n, st1, w1. split; [lia |]. split; [exact E1 | exact E].
  - injection E as -> ->. destruct (IH eq_refl) as (k & st_k & w_k & Hk & Ek & Er).
    exists k, st_k, w_k. split; [lia |]. split; [exact Ek | exact Er].
Qed.

(** *** The claims about a run *)

(** C4: in every epoch of a run that completes it, the network is saved to
    [driver_best.pt] and [min_lost] becomes the epoch's mean validation loss
    exactly when that mean is strictly below [min_lost], which is the
    running best of the sentinel 1000000 and the means of the epochs before;
    otherwise nothing is saved and [min_lost] stays. *)
Theorem checkpoint_on_strict_improvement (epochs : Z) (lr : Q) (tl vl : list Batch)
    (w0 : World) (k : nat) (st' : Locals) (w' : World) :
  k < Z.to_nat epochs ->
  epochs_loop tensor_format epochs tl vl (S k) (initial_locals (net w0) lr) w0 = (Ok st', w') ->
  exists st w,
    epochs_loop tensor_format epochs tl vl k (initial_locals (net w0) lr) w0 = (Ok st, w) /\
    epoch tensor_format epochs tl vl k st w = (Ok st', w') /\
    let v := arith_mean (rev (epoch_validation_losses tensor_format epochs tl vl k st w)) in
    let best := running_best (of_Q 1000000) (validation_losses st) in
    validation_losses st' = validation_losses st ++ [v] /\
    min_lost st = best /\
    (rltb v best = true ->
       disk w' = <["driver_best.pt" := net w']> (disk w) /\
       List.filter is_saved (events w') =
         List.filter is_saved (events w) ++ [Saved "driver_best.pt" (net w')] /\
       min_lost st' = v) /\
    (rltb v best = false ->
       disk w' = disk w /\
       List.filter is_saved (events w') = List.filter is_saved (events w) /\
       min_lost st' = best).
Proof.
  intros _ E. rewrite epochs_loop_S in E.
  destruct (epochs_loop tensor_format epochs tl vl k (initial_locals (net w0) lr) w0)
    as [[st | e] w] eqn:Ek; [| discriminate].
  exists st, w. split; [reflexivity |]. split; [exact E |].
  destruct (epochs_loop_inv _ _ _ _ _ _ _ _ (fresh_initial (net w0) lr) Ek)
    as (Ha & Hb & _ & _ & Hm).
  destruct (epoch_ok epochs tl vl k st st' w w' Ha Hb E) as (_ & _ & _ & Ev & _ & _ & Hck).
  cbv zeta. change (min_lost (initial_locals (net w0) lr)) with (of_Q 1000000) in Hm.
  rewrite <- Hm. split; [exact Ev |]. split; [reflexivity |].
  destruct (rltb _ (min_lost st)); destruct Hck as (Hmin & Hd & He).
  - split; [intros _ | discriminate]. rewrite He, !List.filter_app. simpl.
    rewrite app_nil_r. repeat split; assumption.
  - split; [discriminate | intros _]. rewrite He, !List.filter_app. simpl.
    rewrite app_nil_r. repeat split; assumption.
Qed.

(** C5 (amended): in a run of at least one epoch that completes its first
    epoch, the network is saved at the end of that epoch exactly when the
    epoch's mean validation loss is strictly below the sentinel 1000000. *)
Theorem first_epoch_checkpoint (epochs : Z) (lr : Q) (tl vl : list Batch)
    (w0 : World) (st' : Locals) (w' : World) :
  0 < Z.to_nat epochs ->
  epochs_loop tensor_format epochs tl vl 1 (initial_locals (net w0) lr) w0 = (Ok st', w') ->
  let v := arith_mean (rev (epoch_validation_losses tensor_format epochs tl vl 0
                              (initial_locals (net w0) lr) w0)) in
  validation_losses st' = [v] /\
  (rltb v (of_Q 1000000) = true ->
     disk w' = <["driver_best.pt" := net w']> (disk w0) /\
     List.filter is_saved (events w') =
       List.filter is_saved (events w0) ++ [Saved "driver_best.pt" (net w')]) /\
  (rltb v (of_Q 1000000) = false ->
     disk w' = disk w0 /\
     List.filter is_saved (events w') = List.filter is_saved (events w0)).
Proof.
  intros _ E. rewrite epochs_loop_S in E. unfold epochs_loop in E. simpl in E.
  destruct (fresh_initial (net w0) lr) as (_ & _ & Ha & Hb).
  destruct (epoch_ok epochs tl vl 0 _ st' w0 w' Ha Hb E) as (_ & _ & _ & Ev & _ & _ & Hck).
  cbv zeta. split; [exact Ev |].
  change (min_lost (initial_locals (net w0) lr)) with (of_Q 1000000) in Hck.
  destruct (rltb _ (of_Q 1000000)); destruct Hck as (_ & Hd & He).
  - split; [intros _ | discriminate]. rewrite He, !List.filter_app. simpl.
    rewrite app_nil_r. split; [exact Hd | reflexivity].
  - split; [discriminate | intros _]. rewrite He, !List.filter_app. simpl.
    rewrite app_nil_r. split; [exact Hd | reflexivity].
Qed.

(** C8: in a run of N epochs that returns, entry k of the training history
    is the arithmetic mean of the per-batch training losses of epoch k (one
    per batch of the loader), entry k of the validation history that of its
    per-batch validation losses; each history has N entries; and the two
    histories are passed to [vis_train] once, as the last event of the run. *)
Theorem loss_histories (device : string) (N : nat) (lr : Q) (tl vl : list Batch)
    (w0 w : World) :
  train device_available tensor_format device (Z.of_nat N) lr tl vl w0 = (Ok tt, w) ->
  exists st wn,
    epochs_loop tensor_format (Z.of_nat N) tl vl N (initial_locals (net w0) lr) w0
      = (Ok st, wn) /\
    length (training_losses st) = N /\ length (validation_losses st) = N /\
    events w = events wn ++
               [VisTrain (training_losses st) (validation_losses st) (Z.of_nat N) "Losses"] /\
    List.filter is_vis_train (events w) =
      List.filter is_vis_train (events w0) ++
      [VisTrain (training_losses st) (validation_losses st) (Z.of_nat N) "Losses"] /\
    forall k, k < N ->
      exists st_k w_k,
        epochs_loop tensor_format (Z.of_nat N) tl vl k (initial_locals (net w0) lr) w0
          = (Ok st_k, w_k) /\
        let tls := epoch_training_losses (Z.of_nat N) tl k st_k w_k in
        let vls := epoch_validation_losses tensor_format (Z.of_nat N) tl vl k st_k w_k in
        length tls = length tl /\ length vls = length vl /\
        nth_error (training_losses st) k = Some (arith_mean (rev tls)) /\
        nth_error (validation_losses st) k = Some (arith_mean (rev vls)).
Proof.
  rewrite train_eq, Nat2Z.id.
  destruct (device_available device); [| discriminate].
  pose proof (epochs_loop_plotless (Z.of_nat N) tl vl N (initial_locals (net w0) lr) w0) as Hp.
  destruct (epochs_loop tensor_format (Z.of_nat N) tl vl N (initial_locals (net w0) lr) w0)
    as [[st | e] wn] eqn:En; [| discriminate].
  intros E. injection E as <-. simpl in Hp. exists st, wn.
  pose proof (fresh_initial (net w0) lr) as Hf.
  destruct (epochs_loop_inv _ _ _ _ _ _ _ _ Hf En) as (_ & _ & Lt & Lv & _).
  split; [reflexivity |]. split; [exact Lt |]. split; [exact Lv |].
  split; [reflexivity |]. split.
  { simpl. rewrite List.filter_app, Hp. reflexivity. }
  intros k Hk.
  destruct (epochs_loop_prefix _ _ _ _ _ _ _ _ Hf En k) as (st_k & w_k & Ek & _ & _); [lia |].
  destruct (epochs_loop_prefix _ _ _ _ _ _ _ _ Hf En (S k)) as (st1 & w1 & E1 & Ft & Fv);
    [lia |].
  exists st_k, w_k. split; [exact Ek |].
  rewrite epochs_loop_S, Ek in E1.
  destruct (epochs_loop_inv _ _ _ _ _ _ _ _ Hf Ek) as (Ha & Hb & Ltk & Lvk & _).
  destruct (epoch_ok _ tl vl k st_k st1 w_k w1 Ha Hb E1) as (Ll & Lr & Et & Ev & _).
  cbv zeta. split; [exact Ll |]. split; [exact Lr |].
  assert (Nt : nth_error (firstn (S k) (training_losses st)) k = nth_error (training_losses st) k).
  { rewrite nth_error_firstn. destruct (Nat.ltb_spec k (S k)); [reflexivity | lia]. }
  assert (Nv : nth_error (firstn (S k) (validation_losses st)) k
               = nth_error (validation_losses st) k).
  { rewrite nth_error_firstn. destruct (Nat.ltb_spec k (S k)); [reflexivity | lia]. }
  rewrite <- Nt, <- Nv, <- Ft, <- Fv, Et, Ev.
  rewrite !nth_error_app2 by lia. rewrite Ltk, Lvk, Nat.sub_diag. split; reflexivity.
Qed.

(** C9: the two loops over the batches leave the files and the events as
    they are, whether they return or raise; an epoch adds a save to the
    events only when it completes with a validation mean below [min_lost];
    and a run that raises has passed nothing to [vis_train], while its files
    and saves are those of the epochs it completed before the one that
    raised. *)
Theorem failed_run_keeps_checkpoints (device : string) (epochs : Z) (lr : Q)
    (tl vl : list Batch) (w0 w : World) (e : exn) :
  train device_available tensor_format device epochs lr tl vl w0 = (Raise e, w) ->
  (forall loader st w1,
      disk (snd (for_each loader train_batch st w1)) = disk w1 /\
      events (snd (for_each loader train_batch st w1)) = events w1 /\
      disk (snd (for_each loader validate_batch st w1)) = disk w1 /\
      events (snd (for_each loader validate_batch st w1)) = events w1) /\
  (forall i st w1 r w2,
      holds (training_epoch_losses st) [] -> holds (validation_epoch_losses st) [] ->
      epoch tensor_format epochs tl vl i st w1 = (r, w2) ->
      List.filter is_saved (events w2) <> List.filter is_saved (events w1) ->
      exists st', r = Ok st' /\
        rltb (arith_mean (rev (epoch_validation_losses tensor_format epochs tl vl i st w1)))
             (min_lost st) = true) /\
  List.filter is_vis_train (events w) = List.filter is_vis_train (events w0) /\
  exists k st_k w_k,
    k <= Z.to_nat epochs /\
    epochs_loop tensor_format epochs tl vl k (initial_locals (net w0) lr) w0 = (Ok st_k, w_k) /\
    disk w = disk w_k /\
    List.filter is_saved (events w) = List.filter is_saved (events w_k) /\
    (device_available device = true ->
       k < Z.to_nat epochs /\ epoch tensor_format epochs tl vl k st_k w_k = (Raise e, w)).
Proof.
  intros E. split; [| split].
  - intros loader st w1.
    destruct (silent_for_each loader train_batch st silent_train_batch w1) as [D1 E1].
    destruct (silent_for_each loader validate_batch st silent_validate_batch w1) as [D2 E2].
    repeat split; assumption.
  - intros i st w1 r w2 Ha Hb Ep Hne. destruct r as [st' | e'].
    + exists st'. split; [reflexivity |].
      destruct (epoch_ok epochs tl vl i st st' w1 w2 Ha Hb Ep) as (_ & _ & _ & _ & _ & _ & Hck).
      destruct (rltb _ (min_lost st)); [reflexivity |].
      destruct Hck as (_ & _ & He). exfalso. apply Hne.
      rewrite He, List.filter_app. simpl. now rewrite app_nil_r.
    + destruct (epoch_raise _ _ _ _ _ _ _ _ Ep) as (_ & Hs & _). contradiction.
  - rewrite train_eq in E. destruct (device_available device).
    + pose proof (epochs_loop_plotless epochs tl vl (Z.to_nat epochs)
                    (initial_locals (net w0) lr) w0) as Hp.
      destruct (epochs_loop tensor_format epochs tl vl (Z.to_nat epochs)
                  (initial_locals (net w0) lr) w0) as [[st | e1] w1] eqn:En; [discriminate |].
      injection E as -> ->. simpl in Hp. split; [exact Hp |].
      destruct (epochs_loop_raise _ _ _ _ _ _ _ _ En) as (k & st_k & w_k & Hk & Ek & Er).
      destruct (epoch_raise _ _ _ _ _ _ _ _ Er) as (Hd & Hs & _).
      exists k, st_k, w_k. split; [lia |]. split; [exact Ek |]. split; [exact Hd |].
      split; [exact Hs |]. intros _. split; [exact Hk | exact Er].
    + injection E as <- <-. split; [reflexivity |].
      exists 0, (initial_locals (net w0) lr), w0.
      split; [lia |]. split; [reflexivity |]. split; [reflexivity |].
      split; [reflexivity | discriminate].
Qed.

(** *** More on a run *)

Lemma printed_app (a b : list (@event R Net)) : printed (a ++ b) = printed a ++ printed b.
Proof. unfold printed. apply flat_map_app. Qed.

Lemma progress_lines_snoc (epochs : Z) (ts vs : list R) (t v : R) :
  length ts = length vs ->
  forall i,
    progress_lines tensor_format epochs i (ts ++ [t]) (vs ++ [v]) =
    progress_lines tensor_format epochs i ts vs
    ++ epoch_lines tensor_format epochs (i + length ts) t v.
Proof.
  revert vs. induction ts as [| t0 ts IH]; intros [| v0 vs] L i; try discriminate.
  - cbn [app progress_lines length]. rewrite Nat.add_0_r, app_nil_r. reflexivity.
  - injection L as L. cbn [app progress_lines length].
    rewrite (IH vs L (S i)), <- app_assoc.
    replace (S i + length ts) with (i + S (length ts)) by lia. reflexivity.
Qed.

(** After [n] completed epochs the lines printed are those of the epochs 1
    to [n], with the means that are in the histories. *)
Lemma epochs_loop_printed (epochs : Z) (tl vl : list Batch) (n : nat) (st0 st : Locals)
    (w0 w : World) :
  fresh st0 ->
  epochs_loop tensor_format epochs tl vl n st0 w0 = (Ok st, w) ->
  printed (events w) =
  printed (events w0)
  ++ progress_lines tensor_format epochs 0 (training_losses st) (validation_losses st).
Proof.
  intros Hf. revert st w. induction n as [| n IH]; intros st w E.
  - unfold epochs_loop in E. simpl in E. injection E as <- <-.
    destruct Hf as (-> & -> & _). simpl. now rewrite app_nil_r.
  - rewrite epochs_loop_S in E.
    destruct (epochs_loop tensor_format epochs tl vl n st0 w0) as [[st1 | e] w1] eqn:E1;
      [| discriminate].
    destruct (epochs_loop_inv _ _ _ _ _ _ _ _ Hf E1) as (Ha & Hb & Lt & Lv & _).
    destruct (epoch_ok epochs tl vl n st1 st w1 w Ha Hb E) as (_ & _ & Et & Ev & _ & _ & Hck).
    rewrite Et, Ev, progress_lines_snoc by congruence.
    rewrite Lt, app_assoc, <- (IH st1 w1 eq_refl).
    destruct (rltb _ (min_lost st1)); destruct Hck as (_ & _ & ->);
      rewrite !printed_app; cbn [printed flat_map app]; rewrite ?app_nil_r; reflexivity.
Qed.

(** X9: the progress lines.  A run that returns has printed, for each epoch
    in turn, [Epoch i/N] with i counted from 1, then the training mean and
    the validation mean of that epoch, and nothing else; the means printed
    are the entries of the two histories that [vis_train] receives. *)
Theorem console_progress (device : string) (epochs : Z) (lr : Q) (tl vl : list Batch)
    (w0 w : World) :
  train device_available tensor_format device epochs lr tl vl w0 = (Ok tt, w) ->
  exists evs training validation,
    events w = evs ++ [VisTrain training validation epochs "Losses"] /\
    length training = Z.to_nat epochs /\ length validation = Z.to_nat epochs /\
    printed (events w) =
    printed (events w0) ++ progress_lines tensor_format epochs 0 training validation.
Proof.
  rewrite train_eq. destruct (device_available device); [| discriminate].
  destruct (epochs_loop tensor_format epochs tl vl (Z.to_nat epochs)
              (initial_locals (net w0) lr) w0) as [[st | e] wn] eqn:En; [| discriminate].
  intros E. injection E as <-.
  pose proof (fresh_initial (net w0) lr) as Hf.
  destruct (epochs_loop_inv _ _ _ _ _ _ _ _ Hf En) as (_ & _ & Lt & Lv & _).
  exists (events wn), (training_losses st), (validation_losses st).
  split; [reflexivity |]. split; [exact Lt |]. split; [exact Lv |].
  cbn [events]. rewrite printed_app. cbn [printed flat_map app]. rewrite app_nil_r.
  exact (epochs_loop_printed _ _ _ _ _ _ _ _ Hf En).
Qed.

Lemma last_saved_snoc (evs : list (@event R Net)) (path : string) (m : Net) :
  last_saved (evs ++ [Saved path m]) = Some m.
Proof. unfold last_saved. rewrite fold_left_app. reflexivity. Qed.

(** The files after any number of epochs, completed or cut short by an
    exception: the saves of the loop all go to [driver_best.pt], and the
    file holds the object of the last of them. *)
Lemma epochs_loop_disk (epochs : Z) (tl vl : list Batch) (n : nat) (st0 : Locals) (w0 : World) :
  fresh st0 ->
  exists saves,
    List.filter is_saved (events (snd (epochs_loop tensor_format epochs tl vl n st0 w0))) =
      List.filter is_saved (events w0) ++ saves /\
    Forall (fun e => exists m, e = Saved "driver_best.pt" m) saves /\
    disk (snd (epochs_loop tensor_format epochs tl vl n st0 w0)) =
      match last_saved saves with
      | Some m => <["driver_best.pt" := m]> (disk w0)
      | None => disk w0
      end.
Proof.
  intros Hf. induction n as [| n IH].
  - exists []. cbn. rewrite app_nil_r. repeat split. constructor.
  - rewrite epochs_loop_S. destruct IH as (saves & Hs & Hall & Hd).
    destruct (epochs_loop tensor_format epochs tl vl n st0 w0) as [[st1 | e] w1] eqn:E1;
      cbn [snd] in Hs, Hd; [| exists saves; repeat split; assumption].
    destruct (epochs_loop_inv _ _ _ _ _ _ _ _ Hf E1) as (Ha & Hb & _).
    destruct (epoch tensor_format epochs tl vl n st1 w1) as [[st2 | e] w2] eqn:E2; cbn [snd].
    + destruct (epoch_ok epochs tl vl n st1 st2 w1 w2 Ha Hb E2) as (_ & _ & _ & _ & _ & _ & Hck).
      destruct (rltb _ (min_lost st1)); destruct Hck as (_ & Hd2 & He2).
      * exists (saves ++ [Saved "driver_best.pt" (net w2)]).
        rewrite He2, !List.filter_app, Hs. cbn [List.filter is_saved].
        rewrite app_nil_r, app_assoc. split; [reflexivity |].
        split; [apply Forall_app; split; [exact Hall | repeat constructor; eexists; reflexivity] |].
        rewrite last_saved_snoc, Hd2, Hd.
        destruct (last_saved saves); [apply insert_insert_eq | reflexivity].
      * exists saves. rewrite He2, !List.filter_app, Hs. cbn [List.filter is_saved].
        rewrite app_nil_r. split; [reflexivity |]. split; [exact Hall |]. congruence.
    + destruct (epoch_raise _ _ _ _ _ _ _ _ E2) as (Hd2 & Hs2 & _).
      exists saves. rewrite Hs2, Hd2. repeat split; assumption.
Qed.

(** X15: the only file a run writes is [driver_best.pt], and it holds the
    last object saved.  Whether the run returns or raises, its saves all go
    to that path, the file holds the object of the last of them (when there
    is none, the files are as they were), and every other path reads as it
    did before the run. *)
Theorem checkpoint_file_holds_last_save (device : string) (epochs : Z) (lr : Q)
    (tl vl : list Batch) (w0 : World) :
  let w := snd (train device_available tensor_format device epochs lr tl vl w0) in
  exists saves,
    List.filter is_saved (events w) = List.filter is_saved (events w0) ++ saves /\
    Forall (fun e => exists m, e = Saved "driver_best.pt" m) saves /\
    disk w = match last_saved saves with
             | Some m => <["driver_best.pt" := m]> (disk w0)
             | None => disk w0
             end /\
    forall path, path <> "driver_best.pt" -> disk w !! path = disk w0 !! path.
Proof.
  cbv zeta. rewrite train_eq.
  assert (Hw : exists saves,
             List.filter is_saved
               (events (snd (epochs_loop tensor_format epochs tl vl (Z.to_nat epochs)
                               (initial_locals (net w0) lr) w0))) =
               List.filter is_saved (events w0) ++ saves /\
             Forall (fun e => exists m, e = Saved "driver_best.pt" m) saves /\
             disk (snd (epochs_loop tensor_format epochs tl vl (Z.to_nat epochs)
                          (initial_locals (net w0) lr) w0)) =
               match last_saved saves with
               | Some m => <["driver_best.pt" := m]> (disk w0)
               | None => disk w0
               end)
    by (apply epochs_loop_disk, fresh_initial).
  assert (Hp : forall (saves : list (@event R Net)) (d : gmap string Net),
             d = match last_saved saves with
                 | Some m => <["driver_best.pt" := m]> (disk w0)
                 | None => disk w0
                 end ->
             forall path : string, path <> "driver_best.pt" -> d !! path = disk w0 !! path).
  { intros saves d -> path Hne. destruct (last_saved saves); [| reflexivity].
    apply lookup_insert_ne. congruence. }
  destruct (device_available device).
  - destruct Hw as (saves & Hs & Hall & Hd).
    destruct (epochs_loop tensor_format epochs tl vl (Z.to_nat epochs)
                (initial_locals (net w0) lr) w0) as [[st | e] wn]; cbn [snd] in *.
    + exists saves. cbn [events disk]. rewrite List.filter_app. cbn [List.filter is_saved].
      rewrite app_nil_r. split; [exact Hs |]. split; [exact Hall |].
      split; [exact Hd | exact (Hp saves _ Hd)].
    + exists saves. split; [exact Hs |]. split; [exact Hall |].
      split; [exact Hd | exact (Hp saves _ Hd)].
  - exists []. cbn [snd]. rewrite app_nil_r. split; [reflexivity |].
    split; [constructor |]. split; [reflexivity | reflexivity].
Qed.

(** With no batch to validate on, the validation mean of every epoch is the
    mean of no loss; where that compares below nothing, no epoch saves. *)
Lemma no_validation_no_checkpoint (epochs : Z) (tl : list Batch) (n : nat) (st0 : Locals)
    (w0 : World) :
  (forall x : R, rltb (arith_mean []) x = false) ->
  fresh st0 ->
  disk (snd (epochs_loop tensor_format epochs tl [] n st0 w0)) = disk w0 /\
  List.filter is_saved (events (snd (epochs_loop tensor_format epochs tl [] n st0 w0))) =
    List.filter is_saved (events w0) /\
  forall st,
    fst (epochs_loop tensor_format epochs tl [] n st0 w0) = Ok st ->
    validation_losses st = repeat (arith_mean []) n /\ min_lost st = min_lost st0.
Proof.
  intros Hnan Hf. induction n as [| n IH].
  - cbn. split; [reflexivity |]. split; [reflexivity |].
    intros st E. injection E as <-. destruct Hf as (_ & -> & _). split; reflexivity.
  - rewrite epochs_loop_S. destruct IH as (Hd & Hs & Hv).
    destruct (epochs_loop tensor_format epochs tl [] n st0 w0) as [[st1 | e] w1] eqn:E1;
      cbn [fst snd] in *; [| split; [exact Hd |]; split; [exact Hs | discriminate]].
    destruct (Hv st1 eq_refl) as [Hv1 Hm1].
    destruct (epochs_loop_inv _ _ _ _ _ _ _ _ Hf E1) as (Ha & Hb & _).
    destruct (epoch tensor_format epochs tl [] n st1 w1) as [[st2 | e] w2] eqn:E2;
      cbn [fst snd].
    + destruct (epoch_ok epochs tl [] n st1 st2 w1 w2 Ha Hb E2)
        as (_ & _ & _ & Ev & _ & _ & Hck).
      assert (En : epoch_validation_losses tensor_format epochs tl [] n st1 w1 = []).
      { unfold epoch_validation_losses.
        destruct (for_each tl train_batch st1 _) as [[sa | ea] wa]; reflexivity. }
      rewrite En in Ev, Hck. cbn [rev] in Ev, Hck. rewrite Hnan in Hck.
      destruct Hck as (Hm2 & Hd2 & He2).
      split; [congruence |]. split.
      * rewrite He2, List.filter_app. cbn [List.filter is_saved]. rewrite app_nil_r. exact Hs.
      * intros st E. injection E as <-. rewrite Ev, Hv1. split; [| congruence].
        cbn [repeat]. symmetry. apply repeat_cons.
    + destruct (epoch_raise _ _ _ _ _ _ _ _ E2) as (Hd2 & Hs2 & _).
      split; [congruence |]. split; [congruence | discriminate].
Qed.

End TrainingFacts.

(** ** The construction of the optimizer *)

Section OptimizerArguments.
Context {R : Type} `{Scalar R} {G Net Opt : Type}.
Context `{Module R G Net} `{Optimizer R G Net Opt} `{Parameters R Net}.
Variable device_available : string -> bool.
Variable tensor_format : R -> string.

(** X8: a run with an epoch count of zero or less (an empty [range]) trains
    nothing.  On an available device, and with a learning rate and a network
    that [torch.optim.Adam] accepts (a learning rate that is not negative, at
    least one parameter), it prints nothing, saves nothing, leaves the
    network and the generator as they are, and calls [vis_train] with two
    empty histories. *)
Theorem train_without_epochs (device : string) (epochs : Z) (lr : Q)
    (tl vl : list (Batch (R := R))) (w0 : @World R G Net) :
  device_available device = true ->
  adam_accepts (parameters (net w0)) lr = true ->
  (epochs <= 0)%Z ->
  train device_available tensor_format device epochs lr tl vl w0 =
  (Ok tt, mkWorld (net w0) (generator w0) (disk w0)
            (events w0 ++ [VisTrain [] [] epochs "Losses"])).
Proof.
  intros Hd _ He. rewrite train_eq, Hd.
  replace (Z.to_nat epochs) with 0 by lia. reflexivity.
Qed.

End OptimizerArguments.

(** ** The steps of the optimizer *)

Section OptimizerSteps.
Context {R : Type} `{Scalar R} {G Net : Type} `{Module R G Net}.
Variable tensor_format : R -> string.

#[local] Existing Instance Counting_Optimizer.

#[local] Abbreviation CWorld := (@World R G Net).
#[local] Abbreviation CLocals := (@Locals R nat).

Lemma train_batch_counts (b : Batch) (st st1 : CLocals) (w w1 : CWorld) :
  train_batch b st w = (Ok st1, w1) -> optimizer st1 = S (optimizer st).
Proof.
  destruct b as [[img speed] labels].
  unfold train_batch, bind, lift, ret, get.
  destruct (permute img [0; 3; 1; 2]) as [img' | e]; [| discriminate].
  destruct (call_model _ w) as [[outputs | e] w2]; [| discriminate].
  destruct (lossFunc outputs labels) as [loss | e]; [| discriminate].
  destruct (cat _ _ 0) as [losses | e]; [| discriminate].
  cbn [backward_step Counting_Optimizer].
  intros E. injection E as <- <-. reflexivity.
Qed.

Lemma train_loop_counts (loader : list Batch) (st st' : CLocals) (w w' : CWorld) :
  for_each loader train_batch st w = (Ok st', w') ->
  optimizer st' = optimizer st + length loader.
Proof.
  revert st w. induction loader as [| b bs IH]; intros st w E.
  - simpl in E. injection E as <- <-. simpl. lia.
  - destruct (for_each_cons_ok _ _ _ _ _ _ _ E) as (st1 & w1 & E1 & E2).
    rewrite (IH _ _ E2), (train_batch_counts _ _ _ _ _ E1). simpl. lia.
Qed.

Lemma epoch_counts (epochs : Z) (tl vl : list Batch) (i : nat) (st st' : CLocals)
    (w w' : CWorld) :
  epoch tensor_format epochs tl vl i st w = (Ok st', w') ->
  optimizer st' = optimizer st + length tl.
Proof.
  rewrite epoch_eq.
  destruct (for_each tl train_batch st _) as [[sa | e] wa] eqn:EA; [| discriminate].
  destruct (for_each vl validate_batch _ _) as [[sb | e] wb] eqn:EB; [| discriminate].
  assert (Hb : optimizer sb = optimizer (record_training_loss sa)).
  { eapply (loop_keeps optimizer); [| exact EB].
    intros b s1 w1 s2 w2 E.
    destruct (validate_batch_ok _ _ _ _ _ E) as (? & ? & ? & ? & _). assumption. }
  cbn [record_training_loss optimizer] in Hb.
  unfold checkpoint, bind, torch_save_model, ret.
  destruct (rltb _ _); intros E; injection E as <- <-;
    cbn [optimizer record_validation_loss]; rewrite Hb; exact (train_loop_counts _ _ _ _ _ EA).
Qed.

(** X18: one step of the optimizer for each training batch, none for a
    validation batch.  With an optimizer that counts its steps, the count
    after [n] completed epochs is [n] times the number of batches of the
    training loader, whatever the validation loader holds. *)
Theorem one_step_per_training_batch (epochs : Z) (lr : Q) (tl vl : list Batch) (n : nat)
    (st : CLocals) (w0 w : CWorld) :
  epochs_loop tensor_format epochs tl vl n (initial_locals (G := G) (net w0) lr) w0 = (Ok st, w) ->
  optimizer st = n * length tl.
Proof.
  revert st w. induction n as [| n IH]; intros st w E.
  - unfold epochs_loop in E. simpl in E. injection E as <- <-. reflexivity.
  - rewrite epochs_loop_S in E.
    destruct (epochs_loop tensor_format epochs tl vl n (initial_locals (G := G) (net w0) lr) w0)
      as [[st1 | e] w1]; [| discriminate].
    rewrite (epoch_counts _ _ _ _ _ _ _ _ E), (IH st1 w1 eq_refl). simpl. lia.
Qed.

End OptimizerSteps.

(** ** Training the driver *)

Section DriverTraining.
Context {R : Type} `{Scalar R} {G : Type} `{RandomSource G R}.
Context {Opt : Type} `{Optimizer R G (Driver R) Opt}.
Variable device_available : string -> bool.
Variable tensor_format : R -> string.

#[local] Abbreviation DWorld := (@World R G (Driver R)).
#[local] Abbreviation DLocals := (@Locals R Opt).

Lemma with_flattened_size_twice (o1 o2 : option nat) (d : Driver R) :
  with_flattened_size o1 (with_flattened_size o2 d) = with_flattened_size o1 d.
Proof. reflexivity. Qed.

Lemma with_flattened_size_same (d : Driver R) : with_flattened_size (flattened_size d) d = d.
Proof. destruct d; reflexivity. Qed.

(** A call of the model in evaluation mode: the result is [eval_forward],
    and the world differs in [flattened_size] at most. *)
Lemma call_model_eval (sample : Tensor R * Tensor R) (w : DWorld) :
  drop_training (drop (net w)) = false ->
  exists o,
    call_model sample w =
    (eval_forward (net w) sample,
     mkWorld (with_flattened_size o (net w)) (generator w) (disk w) (events w)).
Proof.
  intros Hd. unfold call_model. cbn [module_call Driver_Module].
  destruct (forward_eval (net w) sample (generator w) Hd) as [o ->].
  exists o. reflexivity.
Qed.

Lemma validate_batch_eval (b : Batch) (st : DLocals) (w : DWorld) :
  drop_training (drop (net w)) = false ->
  exists o,
    net (snd (validate_batch b st w)) = with_flattened_size o (net w) /\
    generator (snd (validate_batch b st w)) = generator w.
Proof.
  intros Hd. destruct b as [[img speed] labels].
  unfold validate_batch, bind, lift, ret.
  destruct (permute img [0; 3; 1; 2]) as [img' | e];
    [| exists (flattened_size (net w)); rewrite with_flattened_size_same; split; reflexivity].
  destruct (call_model_eval (img', transpose (unsqueeze0 speed)) w Hd) as [o ->].
  exists o.
  destruct (eval_forward _ _) as [outputs | e]; [| split; reflexivity].
  destruct (lossFunc outputs labels) as [loss | e]; [| split; reflexivity].
  destruct (cat _ _ 0) as [losses | e]; split; reflexivity.
Qed.

Lemma validate_loop_eval (vl : list Batch) (st : DLocals) (w : DWorld) :
  drop_training (drop (net w)) = false ->
  exists o,
    net (snd (for_each vl validate_batch st w)) = with_flattened_size o (net w) /\
    generator (snd (for_each vl validate_batch st w)) = generator w.
Proof.
  revert st w. induction vl as [| b bs IH]; intros st w Hd.
  - exists (flattened_size (net w)). rewrite with_flattened_size_same. split; reflexivity.
  - cbn [for_each]. unfold bind.
    destruct (validate_batch_eval b st w Hd) as (o1 & N1 & G1).
    destruct (validate_batch b st w) as [[st1 | e] w1]; cbn [snd] in N1, G1.
    + destruct (IH st1 w1) as (o2 & N2 & G2); [rewrite N1; exact Hd |].
      exists o2. rewrite N2, G2, N1, G1. split; reflexivity.
    + exists o1. split; assumption.
Qed.

(** X10: the validation phase changes no parameter and draws no random
    number.  On the driver it leaves every attribute but [flattened_size] as
    [model.eval()] made it, the generator as it was, and the optimizer of the
    run untouched. *)
Theorem validation_changes_no_parameter (vl : list Batch) (st : DLocals) (w : DWorld) :
  let r := validate_phase tensor_format vl st w in
  net (snd r) =
    with_flattened_size (flattened_size (net (snd r))) (set_training false (net w)) /\
  generator (snd r) = generator w /\
  forall v st', fst r = Ok (v, st') -> optimizer st' = optimizer st.
Proof.
  unfold validate_phase, bind, model_train, print, emit, ret.
  cbn [module_train Driver_Module].
  set (w1 := mkWorld (set_training false (net w)) (generator w) (disk w) (events w)).
  destruct (validate_loop_eval vl st w1 eq_refl) as (o & Nb & Gb).
  destruct (for_each vl validate_batch st w1) as [[sb | e] wb] eqn:EB; cbn [fst snd] in *.
  - rewrite Nb. split; [reflexivity |]. split; [exact Gb |].
    intros v st' E. injection E as _ <-. cbn [record_validation_loss optimizer].
    eapply (loop_keeps optimizer); [| exact EB].
    intros b s1 w2 s2 w3 E2.
    destruct (validate_batch_ok _ _ _ _ _ E2) as (? & ? & ? & ? & _). assumption.
  - rewrite Nb. split; [reflexivity |]. split; [exact Gb | discriminate].
Qed.

(** A completed epoch leaves the driver in evaluation mode. *)
Lemma epoch_leaves_eval_mode (epochs : Z) (tl vl : list Batch) (i : nat) (st st' : DLocals)
    (w w' : DWorld) :
  epoch tensor_format epochs tl vl i st w = (Ok st', w') ->
  training (net w') = false /\ drop_training (drop (net w')) = false.
Proof.
  rewrite epoch_eq.
  destruct (for_each tl train_batch st _) as [[sa | e] wa]; [| discriminate].
  set (wv := validation_start tensor_format (mean (training_epoch_losses sa)) wa).
  destruct (validate_loop_eval vl (record_training_loss sa) wv eq_refl) as (o & Nb & _).
  destruct (for_each vl validate_batch _ wv) as [[sb | e] wb]; [| discriminate].
  cbn [snd] in Nb.
  unfold checkpoint, bind, torch_save_model, ret.
  destruct (rltb _ _); intros E; injection E as <- <-; cbn [net]; rewrite Nb; split; reflexivity.
Qed.

Lemma epochs_loop_eval_mode (epochs : Z) (tl vl : list Batch) (n : nat) (st0 st : DLocals)
    (w0 w : DWorld) :
  fresh st0 ->
  epochs_loop tensor_format epochs tl vl n st0 w0 = (Ok st, w) ->
  (0 < n -> eval_mode (net w)) /\
  (forall path m, In (Saved path m) (events w) ->
                  In (Saved path m) (events w0) \/ (path = "driver_best.pt" /\ eval_mode m)) /\
  (forall m, disk w !! "driver_best.pt" = Some m ->
             disk w0 !! "driver_best.pt" = Some m \/ eval_mode m).
Proof.
  intros Hf. revert st w. induction n as [| n IH]; intros st w E.
  - unfold epochs_loop in E. simpl in E. injection E as <- <-.
    split; [lia |]. split; [intros path m Hin; left; exact Hin | intros m Hm; left; exact Hm].
  - rewrite epochs_loop_S in E.
    destruct (epochs_loop tensor_format epochs tl vl n st0 w0) as [[st1 | e] w1] eqn:E1;
      [| discriminate].
    destruct (IH st1 w1 eq_refl) as (_ & IHe & IHd).
    destruct (epochs_loop_inv _ _ _ _ _ _ _ _ _ Hf E1) as (Ha & Hb & _).
    pose proof (epoch_leaves_eval_mode _ _ _ _ _ _ _ _ E) as Hev.
    destruct (epoch_ok tensor_format epochs tl vl n st1 st w1 w Ha Hb E)
      as (_ & _ & _ & _ & _ & _ & Hck).
    split; [intros _; exact Hev |].
    destruct (rltb _ (min_lost st1)); destruct Hck as (_ & Hd & He).
    + split.
      * intros path m Hin. rewrite He in Hin.
        apply in_app_or in Hin as [Hin | [Hin | []]].
        -- apply in_app_or in Hin as [Hin | Hin]; [apply IHe; exact Hin |].
           cbn in Hin. repeat (destruct Hin as [Hin | Hin]; [discriminate |]). contradiction.
        -- injection Hin as <- <-. right. split; [reflexivity | exact Hev].
      * intros m Hm. rewrite Hd, lookup_insert_eq in Hm.
        injection Hm as <-. right. exact Hev.
    + split.
      * intros path m Hin. rewrite He in Hin.
        apply in_app_or in Hin as [Hin | Hin]; [apply IHe; exact Hin |].
        cbn in Hin. repeat (destruct Hin as [Hin | Hin]; [discriminate |]). contradiction.
      * intros m Hm. rewrite Hd in Hm. apply IHd. exact Hm.
Qed.

(** X11: a run of at least one epoch that returns leaves the driver in
    evaluation mode, and every checkpoint it has written holds the driver in
    evaluation mode: the save comes after [model.eval()], and the validation
    loop does not switch back. *)
Theorem run_leaves_eval_mode (device : string) (epochs : Z) (lr : Q) (tl vl : list Batch)
    (w0 w : DWorld) :
  (0 < epochs)%Z ->
  train device_available tensor_format device epochs lr tl vl w0 = (Ok tt, w) ->
  eval_mode (net w) /\
  (forall path m, In (Saved path m) (events w) ->
                  In (Saved path m) (events w0) \/ (path = "driver_best.pt" /\ eval_mode m)) /\
  (forall m, disk w !! "driver_best.pt" = Some m ->
             disk w0 !! "driver_best.pt" = Some m \/ eval_mode m).
Proof.
  intros He. rewrite train_eq. destruct (device_available device); [| discriminate].
  destruct (epochs_loop tensor_format epochs tl vl (Z.to_nat epochs)
              (initial_locals (G := G) (net w0) lr) w0) as [[st | e] wn] eqn:En; [| discriminate].
  intros E. injection E as <-.
  destruct (epochs_loop_eval_mode _ _ _ _ _ _ _ _ (fresh_initial (G := G) (net w0) lr) En)
    as (Hm & Hs & Hd).
  cbn [net events disk]. split; [apply Hm; lia |]. split; [| exact Hd].
  intros path m Hin. apply in_app_or in Hin as [Hin | [Hin | []]]; [| discriminate].
  apply Hs. exact Hin.
Qed.

Lemma permute_camera (img : Tensor R) (b h w c : nat) :
  shape img = [b; h; w; c] ->
  exists img', permute img [0; 3; 1; 2] = Ok img' /\ shape img' = [b; c; h; w].
Proof.
  unfold permute. intros ->. eexists. split; reflexivity.
Qed.

Lemma loss_of_three_columns (outputs labels : Tensor R) (b : nat) :
  shape outputs = [b; 3] -> shape labels = [b] -> b <> 1 -> b <> 3 ->
  exists msg, lossFunc outputs labels = Raise (RuntimeError msg).
Proof.
  intros Ho Hl Hb1 Hb3. unfold lossFunc, broadcast_shapes. rewrite Ho, Hl.
  cbn [rev app broadcast_rev].
  destruct (Nat.eqb_spec 3 b); [congruence |].
  destruct (Nat.eqb_spec b 1); [congruence |].
  cbn. eexists. reflexivity.
Qed.

(** A training step of the driver on a batch whose labels are one number
    per sample. *)
Lemma train_batch_flat_labels (img speed labels : Tensor R) (st : DLocals) (w : DWorld)
    (b : nat) :
  conv_hypers (net w) = constructor_hypers ->
  linear_features (net w) = [Some (1152, 100); Some (100, 50); Some (51, 10); Some (10, 3)] ->
  shape img = [b; 66; 200; 3] -> shape speed = [b] -> shape labels = [b] ->
  b <> 1 -> b <> 3 ->
  exists msg w', train_batch (img, speed, labels) st w = (Raise (RuntimeError msg), w').
Proof.
  intros Hc Hl Hi Hs Hlab Hb1 Hb3.
  unfold train_batch, bind, lift, get.
  destruct (permute_camera img b 66 200 3 Hi) as (img' & -> & Hi').
  assert (Hs' : shape (transpose (unsqueeze0 speed)) = [b; 1]).
  { cbn [transpose unsqueeze0 shape]. rewrite Hs. reflexivity. }
  unfold call_model. cbn [module_call Driver_Module].
  destruct (forward_ok (net w) (img', transpose (unsqueeze0 speed)) (generator w)
              b 66 200 1 18 Hc Hl Hi' Hs' eq_refl eq_refl) as (l4 & x & g' & _ & ->).
  assert (Ho : shape (squeeze (mkTensor [b; 3] (linear_data l4 x))) = [b; 3]).
  { unfold squeeze. cbn [shape List.filter].
    destruct (Nat.eqb_spec b 1); [contradiction | reflexivity]. }
  destruct (loss_of_three_columns _ labels b Ho Hlab Hb1 Hb3) as [msg ->].
  eexists _, _. reflexivity.
Qed.

(** X13: the three output columns against labels of one number per sample.
    With a driver made by the constructor as the network and a learning rate
    that is not negative, [torch.optim.Adam] accepts its arguments, and a
    run whose first training batch holds b camera images, b speeds and b
    labels, each of the two as a tensor of shape (b), raises in the loss of
    that batch for every b other than 1 and 3: the output has the shape
    (b, 3), which does not broadcast against (b).  The run has printed the
    first epoch line and written no file. *)
Theorem flat_labels_stop_training (batch_size : Z) (g g1 : G) (device : string) (epochs : Z)
    (lr : Q) (img speed labels : Tensor R) (tl vl : list Batch) (w0 : DWorld) (b : nat) :
  __init__ batch_size g = (Ok (net w0), g1) ->
  device_available device = true ->
  (0 <= lr)%Q ->
  (0 < epochs)%Z ->
  shape img = [b; 66; 200; 3] -> shape speed = [b] -> shape labels = [b] ->
  b <> 1 -> b <> 3 ->
  adam_accepts (parameters (net w0)) lr = true /\
  exists msg w,
    train device_available tensor_format device epochs lr ((img, speed, labels) :: tl) vl w0
      = (Raise (RuntimeError msg), w) /\
    disk w = disk w0 /\
    events w = events w0 ++ [Stdout ("Epoch " +:+ str 1 +:+ "/" +:+ str epochs)].
Proof.
  intros E Hd Hlr He Hi Hs Hlab Hb1 Hb3.
  split.
  { unfold adam_accepts. apply andb_true_intro. split.
    - apply Qle_bool_iff. exact Hlr.
    - reflexivity. }
  destruct (init_inv _ _ _ _ E) as (Hc & _ & Hl & _).
  rewrite train_eq, Hd.
  destruct (Z.to_nat epochs) as [| n] eqn:En; [lia |].
  unfold epochs_loop. cbn [seq for_each]. unfold bind at 1. rewrite epoch_eq.
  cbn [for_each]. unfold bind at 1.
  set (ws := training_start epochs 0 w0).
  destruct (train_batch_flat_labels img speed labels
              (initial_locals (G := G) (net w0) lr) ws b Hc Hl Hi Hs Hlab Hb1 Hb3)
    as (msg & w' & Et).
  destruct (silent_train_batch (img, speed, labels)
              (initial_locals (G := G) (net w0) lr) ws) as [Dw Ew].
  rewrite Et in Dw, Ew |- *. cbn [snd] in Dw, Ew.
  exists msg, w'. split; [reflexivity |]. split; [exact Dw | exact Ew].
Qed.

End DriverTraining.


(** ** The layout of a batch *)

Section BatchLayout.
Context {R : Type} `{Scalar R}.

Lemma ravel_lt (sh idx : list nat) : Forall2 lt idx sh -> ravel sh idx < product sh.
Proof.
  induction 1 as [| i d js ds Hi _ IH]; [cbn; lia |].
  cbn [ravel product fold_right]. fold (product ds). nia.
Qed.

(** An index within a shape is recovered from its row-major offset. *)
Lemma unravel_ravel (sh idx : list nat) :
  Forall2 lt idx sh -> unravel sh (ravel sh idx) = idx.
Proof.
  induction 1 as [| i d js ds Hi Hjs IH]; [reflexivity |].
  pose proof (ravel_lt ds js Hjs) as Hlt.
  cbn [ravel unravel]. f_equal.
  - rewrite Nat.div_add_l by lia. rewrite Nat.div_small by exact Hlt. lia.
  - rewrite Nat.add_comm, Nat.Div0.mod_add, Nat.mod_small by exact Hlt. exact IH.
Qed.

(** X17: the layout a batch is given before the model is called (lines 92
    and 93, and 112 and 114).  [permute(0, 3, 1, 2)] turns a batch of images
    (b, h, w, c) into (b, c, h, w) with the pixel of sample n, channel k, row
    i and column j the one the loader had at n, i, j, k; and
    [speed.unsqueeze(0).T] turns b speeds into a (b, 1) column with the
    speed of sample n in row n. *)
Theorem batch_layout (img speed : Tensor R) (b h w c : nat) :
  shape img = [b; h; w; c] ->
  shape speed = [b] ->
  exists img',
    permute img [0; 3; 1; 2] = Ok img' /\
    shape img' = [b; c; h; w] /\
    (forall n k i j, n < b -> k < c -> i < h -> j < w ->
       at_index img' [n; k; i; j] = at_index img [n; i; j; k]) /\
    shape (transpose (unsqueeze0 speed)) = [b; 1] /\
    (forall n, n < b ->
       at_index (transpose (unsqueeze0 speed)) [n; 0] = at_index speed [n]).
Proof.
  intros Hi Hs. unfold permute. rewrite Hi.
  eexists. split; [reflexivity |]. split; [reflexivity |]. split; [| split].
  - intros n k i j Hn Hk Hi' Hj. unfold at_index at 1. cbn [data shape map nth length seq].
    rewrite unravel_ravel by (repeat constructor; assumption).
    cbn [index_of Nat.eqb nth]. reflexivity.
  - cbn [transpose unsqueeze0 shape]. rewrite Hs. reflexivity.
  - intros n Hn. unfold at_index at 1. cbn [transpose unsqueeze0 shape data]. rewrite Hs.
    cbn [rev app]. rewrite unravel_ravel by (repeat constructor; lia).
    unfold at_index. cbn [unsqueeze0 shape data rev app]. rewrite Hs. f_equal.
Qed.

End BatchLayout.

(** ** One sample among a batch *)

Section PerSample.
Context {R : Type} `{Scalar R} {G : Type} `{RandomSource G R}.

Lemma rsum_ext (n : nat) (f f' : nat -> R) :
  (forall k, k < n -> f k = f' k) -> rsum n f = rsum n f'.
Proof.
  intros Hf. induction n as [| n IH]; [reflexivity |].
  cbn [rsum]. rewrite IH by (intros k Hk; apply Hf; lia). rewrite Hf by lia. reflexivity.
Qed.

Lemma div_mod_block (n P off : nat) :
  off < P -> (n * P + off) / P = n /\ (n * P + off) mod P = off.
Proof.
  intros Hlt. split.
  - rewrite Nat.div_add_l by lia. rewrite Nat.div_small by lia. lia.
  - rewrite Nat.add_comm, Nat.Div0.mod_add. apply Nat.mod_small. lia.
Qed.

(** A kernel position within an output position lies within the input. *)
Lemma window_lt (h k s i a : nat) :
  (h <? k) = false -> i < conv_out_size h k s -> a < k -> i * s + a < h.
Proof.
  unfold conv_out_size. intros Hh Hi Ha. apply Nat.ltb_ge in Hh.
  destruct s as [| s].
  - rewrite Nat.mul_0_r. lia.
  - pose proof (div_bounds (h - k) (S s) ltac:(lia)) as [Hq _].
    set (q := (h - k) / S s) in *. nia.
Qed.

Lemma offset3_lt (a b c A B C : nat) :
  a < A -> b < B -> c < C -> a * (B * C) + (b * C + c) < A * (B * C).
Proof.
  intros Ha Hb Hc.
  pose proof (Nat.mul_le_mono_r (S b) B C Hb) as H1.
  pose proof (Nat.mul_le_mono_r (S a) A (B * C) Ha) as H2.
  cbn [Nat.mul] in H1, H2. lia.
Qed.

Lemma same_sample_map (f : R -> R) (n n' : nat) (x y : Tensor R) :
  same_sample n n' x y ->
  same_sample n n' (mkTensor (shape x) (fun i => f (data x i)))
                   (mkTensor (shape y) (fun i => f (data y i))).
Proof.
  intros [Sxy Dxy]. split; [exact Sxy |].
  cbn [shape data]. intros off Hoff. f_equal. apply Dxy. exact Hoff.
Qed.

Lemma same_sample_elu (n n' : nat) (x y : Tensor R) (alpha : Q) :
  same_sample n n' x y -> same_sample n n' (elu x alpha) (elu y alpha).
Proof. apply (same_sample_map (elu_scalar alpha)). Qed.

Lemma same_sample_normalize (n n' : nat) (x y : Tensor R) :
  same_sample n n' x y ->
  same_sample n n' (sub_scalar (div_scalar x 127.5) 1) (sub_scalar (div_scalar y 127.5) 1).
Proof.
  intros Hs.
  apply (same_sample_map (fun v => rsub v (of_Q 1)) n n'
           (div_scalar x 127.5) (div_scalar y 127.5)).
  apply (same_sample_map (fun v => rdiv v (of_Q 127.5))). exact Hs.
Qed.

(** A convolution computes the maps of a sample from that sample alone. *)
Lemma conv_same_sample (c : Conv2d R) (x y : Tensor R)
    (b b' ci co kh kw sh sw h w n n' : nat) :
  hyper c = (ci, co, (kh, kw), (sh, sw)) ->
  shape x = [b; ci; h; w] -> shape y = [b'; ci; h; w] ->
  (h <? kh) = false -> (w <? kw) = false ->
  same_sample n n' x y ->
  exists tx ty,
    conv2d_call c x = Ok tx /\ conv2d_call c y = Ok ty /\
    shape tx = [b; co; conv_out_size h kh sh; conv_out_size w kw sw] /\
    shape ty = [b'; co; conv_out_size h kh sh; conv_out_size w kw sw] /\
    same_sample n n' tx ty.
Proof.
  unfold hyper. intros Hc Hx Hy Hh Hw [_ Dxy].
  destruct c as [ci' co' [kh' kw'] [sh' sw'] wt bs]; simpl in Hc.
  injection Hc as -> -> -> -> -> ->.
  rewrite Hx in Dxy. cbn [tl] in Dxy.
  unfold conv2d_call, conv2d_shape. rewrite Hx, Hy.
  cbn [in_channels kernel_size stride out_channels fst snd].
  rewrite Nat.eqb_refl, Hh, Hw. cbn [negb orb app].
  eexists _, _. split; [reflexivity |]. split; [reflexivity |]. split; [reflexivity |].
  split; [reflexivity |]. split; [reflexivity |].
  cbn [shape tl data]. intros off Hoff.
  unfold conv2d_data. cbn [in_channels kernel_size stride conv_weight conv_bias fst snd].
  set (h' := conv_out_size h kh sh) in *. set (w' := conv_out_size w kw sw) in *.
  assert (Hw' : 0 < w') by (unfold w', conv_out_size; lia).
  cbn [unravel].
  destruct (div_mod_block n (product [co; h'; w']) off Hoff) as [-> ->].
  destruct (div_mod_block n' (product [co; h'; w']) off Hoff) as [-> ->].
  cbn [length firstn nth Nat.sub app].
  assert (Pw : product [w'] = w') by (cbn; lia).
  assert (Phw : product [h'; w'] = h' * w') by (cbn; lia).
  assert (Pchw : product [co; h'; w'] = co * (h' * w')) by (cbn; lia).
  rewrite Pw, Phw in *. rewrite Pchw in Hoff.
  set (i := off mod (h' * w') / w').
  set (j := (off mod (h' * w')) mod w' / product []).
  assert (Hi : i < h').
  { unfold i. apply Nat.Div0.div_lt_upper_bound. rewrite Nat.mul_comm.
    apply Nat.mod_upper_bound. nia. }
  assert (Hj : j < w').
  { unfold j. cbn [product fold_right]. rewrite Nat.div_1_r. apply Nat.mod_upper_bound. lia. }
  f_equal.
  apply rsum_ext. intros ci0 Hci. apply rsum_ext. intros a Ha. apply rsum_ext. intros b0 Hb0.
  f_equal. unfold at_index. rewrite Hx, Hy. cbn [ravel].
  replace (product [ci; h; w]) with (ci * (h * w)) in * by (cbn; lia).
  replace (product [h; w]) with (h * w) by (cbn; lia).
  replace (product [w]) with w by (cbn; lia).
  replace (product []) with 1 by reflexivity.
  rewrite Nat.mul_1_r, Nat.add_0_r.
  apply Dxy. apply offset3_lt; [exact Hci | |].
  - exact (window_lt h kh sh i a Hh Hi Ha).
  - exact (window_lt w kw sw j b0 Hw Hj Hb0).
Qed.

(** So does the stack of the five convolutions. *)
Lemma conv_stack_same_sample (d : Driver R) (x y : Tensor R) (b b' h w h5 w5 n n' : nat) :
  conv_hypers d = constructor_hypers ->
  shape x = [b; 3; h; w] -> shape y = [b'; 3; h; w] ->
  extent_after conv_chain h = Some h5 ->
  extent_after conv_chain w = Some w5 ->
  same_sample n n' x y ->
  exists tx ty,
    conv_stack d x = Ok tx /\ conv_stack d y = Ok ty /\
    shape tx = [b; 64; h5; w5] /\ shape ty = [b'; 64; h5; w5] /\
    same_sample n n' tx ty.
Proof.
  unfold conv_hypers, constructor_hypers, conv_chain.
  intros Hd Hx Hy Hh Hw Hs.
  pose (dflt := (0, 0, (0, 0), (0, 0))).
  pose proof (f_equal (fun l => nth 0 l dflt) Hd) as H1.
  pose proof (f_equal (fun l => nth 1 l dflt) Hd) as H2.
  pose proof (f_equal (fun l => nth 2 l dflt) Hd) as H3.
  pose proof (f_equal (fun l => nth 3 l dflt) Hd) as H4.
  pose proof (f_equal (fun l => nth 4 l dflt) Hd) as H5.
  cbn [nth] in H1, H2, H3, H4, H5.
  apply extent_after_cons in Hh as [Hh1 Hh]. apply extent_after_cons in Hw as [Hw1 Hw].
  apply extent_after_cons in Hh as [Hh2 Hh]. apply extent_after_cons in Hw as [Hw2 Hw].
  apply extent_after_cons in Hh as [Hh3 Hh]. apply extent_after_cons in Hw as [Hw3 Hw].
  apply extent_after_cons in Hh as [Hh4 Hh]. apply extent_after_cons in Hw as [Hw4 Hw].
  apply extent_after_cons in Hh as [Hh5 Hh]. apply extent_after_cons in Hw as [Hw5 Hw].
  simpl in Hh, Hw. injection Hh as <-. injection Hw as <-.
  unfold conv_stack.
  destruct (conv_same_sample _ (sub_scalar (div_scalar x 127.5) 1) (sub_scalar (div_scalar y 127.5) 1)
              _ _ _ _ _ _ _ _ _ _ n n' H1 Hx Hy Hh1 Hw1
              (same_sample_normalize n n' x y Hs))
    as (a1 & c1 & -> & -> & S1 & T1 & N1); cbn [res_bind].
  destruct (conv_same_sample _ (elu a1 0.3) (elu c1 0.3) _ _ _ _ _ _ _ _ _ _ n n' H2 S1 T1 Hh2 Hw2
              (same_sample_elu n n' a1 c1 0.3 N1))
    as (a2 & c2 & -> & -> & S2 & T2 & N2); cbn [res_bind].
  destruct (conv_same_sample _ (elu a2 0.3) (elu c2 0.3) _ _ _ _ _ _ _ _ _ _ n n' H3 S2 T2 Hh3 Hw3
              (same_sample_elu n n' a2 c2 0.3 N2))
    as (a3 & c3 & -> & -> & S3 & T3 & N3); cbn [res_bind].
  destruct (conv_same_sample _ (elu a3 0.3) (elu c3 0.3) _ _ _ _ _ _ _ _ _ _ n n' H4 S3 T3 Hh4 Hw4
              (same_sample_elu n n' a3 c3 0.3 N3))
    as (a4 & c4 & -> & -> & S4 & T4 & N4); cbn [res_bind].
  destruct (conv_same_sample _ (elu a4 0.3) (elu c4 0.3) _ _ _ _ _ _ _ _ _ _ n n' H5 S4 T4 Hh5 Hw5
              (same_sample_elu n n' a4 c4 0.3 N4))
    as (a5 & c5 & -> & -> & S5 & T5 & N5); cbn [res_bind].
  eexists _, _. split; [reflexivity |]. split; [reflexivity |].
  split; [exact S5 |]. split; [exact T5 |]. exact (same_sample_elu n n' a5 c5 0.3 N5).
Qed.

Lemma flatten_same_sample (x y : Tensor R) (b b' c h w n n' : nat) :
  shape x = [b; c; h; w] -> shape y = [b'; c; h; w] ->
  same_sample n n' x y ->
  same_sample n n' (mkTensor [b; c * h * w] (data x)) (mkTensor [b'; c * h * w] (data y)).
Proof.
  intros Hx Hy [_ Dxy]. rewrite Hx in Dxy. cbn [tl] in Dxy.
  split; [reflexivity |]. cbn [shape tl data].
  replace (product [c * h * w]) with (product [c; h; w]) by (cbn; lia).
  exact Dxy.
Qed.

(** A dense layer computes a row of its output from that row of its input. *)
Lemma linear_same_sample (l : Linear R) (x y : Tensor R) (b b' fi fo n n' : nat) :
  features l = (fi, fo) ->
  shape x = [b; fi] ->
  same_sample n n' x y ->
  same_sample n n' (mkTensor [b; fo] (linear_data l x)) (mkTensor [b'; fo] (linear_data l y)).
Proof.
  unfold features. intros Hl Hx [_ Dxy]. injection Hl as <- <-.
  rewrite Hx in Dxy. cbn [tl] in Dxy.
  replace (product [in_features l]) with (in_features l) in Dxy by (cbn; lia).
  split; [reflexivity |]. cbn [shape tl data].
  replace (product [out_features l]) with (out_features l) by (cbn; lia).
  intros off Hoff. unfold linear_data.
  destruct (div_mod_block n (out_features l) off Hoff) as [-> ->].
  destruct (div_mod_block n' (out_features l) off Hoff) as [-> ->].
  f_equal. apply rsum_ext. intros i Hi. f_equal. apply Dxy. exact Hi.
Qed.

(** The concatenation with the speed column keeps the rows apart. *)
Lemma cat_same_sample (a a' s s' : Tensor R) (b b' m n n' : nat) :
  shape a = [b; S m] -> shape a' = [b'; S m] ->
  shape s = [b; 1] -> shape s' = [b'; 1] ->
  n < b -> n' < b' ->
  same_sample n n' a a' -> same_sample n n' s s' ->
  exists t t',
    cat a s 1 = Ok t /\ cat a' s' 1 = Ok t' /\
    shape t = [b; S m + 1] /\ shape t' = [b'; S m + 1] /\
    same_sample n n' t t'.
Proof.
  intros Ha Ha' Hs Hs' Hn Hn' [_ Da] [_ Ds].
  rewrite Ha in Da. rewrite Hs in Ds. cbn [tl] in Da, Ds.
  destruct b as [| b0]; [lia |]. destruct b' as [| b0']; [lia |].
  unfold cat. rewrite Ha, Ha', Hs, Hs'.
  cbn [length Nat.eqb negb Nat.ltb Nat.leb cat_compatible forallb combine andb fst snd
       nth set_nth].
  rewrite !Nat.eqb_refl. cbn [andb negb].
  eexists _, _. split; [reflexivity |]. split; [reflexivity |]. split; [reflexivity |].
  split; [reflexivity |]. split; [reflexivity |].
  cbn [shape tl data]. intros off Hoff.
  cbn [unravel].
  destruct (div_mod_block n (product [S m + 1]) off Hoff) as [-> ->].
  destruct (div_mod_block n' (product [S m + 1]) off Hoff) as [-> ->].
  replace (product []) with 1 by reflexivity. rewrite Nat.div_1_r. cbn [nth].
  assert (Hoff' : off < S m + 1) by (cbn in Hoff; lia).
  destruct (Nat.leb_spec off m).
  - unfold at_index. rewrite Ha, Ha'. cbn [ravel].
    replace (off * product [] + 0) with off by (cbn; lia).
    apply Da. cbn. lia.
  - unfold at_index. rewrite Hs, Hs'. cbn [ravel].
    replace (off - S m) with 0 by lia.
    replace (0 * product [] + 0) with 0 by reflexivity.
    apply Ds. cbn. lia.
Qed.

(** The dense layers compute the output of a sample from its features and
    its speed alone. *)
Lemma dense_head_same_sample (d : Driver R) (flat flat' speed speed' : Tensor R)
    (b b' fw n n' : nat) :
  linear_features d = [Some (fw, 100); Some (100, 50); Some (51, 10); Some (10, 3)] ->
  shape flat = [b; fw] -> shape flat' = [b'; fw] ->
  shape speed = [b; 1] -> shape speed' = [b'; 1] ->
  n < b -> n' < b' ->
  same_sample n n' flat flat' -> same_sample n n' speed speed' ->
  exists o o',
    dense_head d flat speed = Ok (squeeze o) /\
    dense_head d flat' speed' = Ok (squeeze o') /\
    shape o = [b; 3] /\ shape o' = [b'; 3] /\ same_sample n n' o o'.
Proof.
  unfold linear_features. intros Hd Hf Hf' Hs Hs' Hn Hn' Nf Ns.
  injection Hd as H1 H2 H3 H4.
  unfold dense_head.
  destruct (lin1 d) as [l1 |]; [| discriminate].
  assert (F1 : features l1 = (fw, 100)) by (simpl in H1; congruence); clear H1.
  destruct (lin2 d) as [l2 |]; [| discriminate].
  assert (F2 : features l2 = (100, 50)) by (simpl in H2; congruence); clear H2.
  destruct (lin3 d) as [l3 |]; [| discriminate].
  assert (F3 : features l3 = (51, 10)) by (simpl in H3; congruence); clear H3.
  destruct (lin4 d) as [l4 |]; [| discriminate].
  assert (F4 : features l4 = (10, 3)) by (simpl in H4; congruence); clear H4.
  unfold need_attr, res_bind.
  rewrite (linear_step l1 flat b fw 100 F1 Hf), (linear_step l1 flat' b' fw 100 F1 Hf').
  pose proof (same_sample_elu n n' _ _ 0.3
                (linear_same_sample l1 flat flat' b b' fw 100 n n' F1 Hf Nf)) as N1.
  set (a1 := elu (mkTensor [b; 100] (linear_data l1 flat)) 0.3) in *.
  set (c1 := elu (mkTensor [b'; 100] (linear_data l1 flat')) 0.3) in *.
  rewrite (linear_step l2 a1 b 100 50 F2 eq_refl), (linear_step l2 c1 b' 100 50 F2 eq_refl).
  pose proof (same_sample_elu n n' _ _ 0.3
                (linear_same_sample l2 a1 c1 b b' 100 50 n n' F2 eq_refl N1)) as N2.
  set (a2 := elu (mkTensor [b; 50] (linear_data l2 a1)) 0.3) in *.
  set (c2 := elu (mkTensor [b'; 50] (linear_data l2 c1)) 0.3) in *.
  destruct (cat_same_sample a2 c2 speed speed' b b' 49 n n' eq_refl eq_refl Hs Hs' Hn Hn' N2 Ns)
    as (fa & fc & -> & -> & Sa & Sc & Nc).
  rewrite (linear_step l3 fa b 51 10 F3 Sa), (linear_step l3 fc b' 51 10 F3 Sc).
  pose proof (same_sample_elu n n' _ _ 0.3
                (linear_same_sample l3 fa fc b b' 51 10 n n' F3 Sa Nc)) as N3.
  set (a3 := elu (mkTensor [b; 10] (linear_data l3 fa)) 0.3) in *.
  set (c3 := elu (mkTensor [b'; 10] (linear_data l3 fc)) 0.3) in *.
  rewrite (linear_step l4 a3 b 10 3 F4 eq_refl), (linear_step l4 c3 b' 10 3 F4 eq_refl).
  eexists _, _. split; [reflexivity |]. split; [reflexivity |].
  split; [reflexivity |]. split; [reflexivity |].
  exact (linear_same_sample l4 a3 c3 b b' 10 3 n n' F4 eq_refl N3).
Qed.

(** X20: in evaluation mode the prediction for a sample depends on that
    sample alone.  On a driver made by the constructor and put in evaluation
    mode, if sample n of one batch of camera images and speeds is sample n'
    of another batch (of any size), then both forward passes return, and the
    three outputs for sample n in the one result are the three outputs for
    sample n' in the other: no other sample of a batch, and not the batch
    size, has any influence. *)
Theorem evaluation_is_per_sample (batch_size : Z) (g g1 g2 g3 : G) (d : Driver R)
    (x y sx sy : Tensor R) (b b' n n' : nat) :
  __init__ batch_size g = (Ok d, g1) ->
  shape x = [b; 3; 66; 200] -> shape y = [b'; 3; 66; 200] ->
  shape sx = [b; 1] -> shape sy = [b'; 1] ->
  n < b -> n' < b' ->
  same_sample n n' x y -> same_sample n n' sx sy ->
  exists ox oy,
    fst (forward (x, sx) (set_training false d, g2)) = Ok ox /\
    fst (forward (y, sy) (set_training false d, g3)) = Ok oy /\
    forall k, k < 3 -> data ox (n * 3 + k) = data oy (n' * 3 + k).
Proof.
  intros E Hx Hy Hsx Hsy Hn Hn' Nx Ns.
  destruct (init_inv _ _ _ _ E) as (Hc & _ & Hl & _).
  destruct (forward_eval (set_training false d) (x, sx) g2 eq_refl) as [o1 ->].
  destruct (forward_eval (set_training false d) (y, sy) g3 eq_refl) as [o2 ->].
  cbn [fst]. unfold eval_forward. cbn [fst snd].
  destruct (conv_stack_same_sample (set_training false d) x y b b' 66 200 1 18 n n'
              Hc Hx Hy eq_refl eq_refl Nx) as (tx & ty & -> & -> & Sx & Sy & Nt).
  cbn [res_bind].
  rewrite (flatten_feature_maps tx _ _ _ _ Sx), (flatten_feature_maps ty _ _ _ _ Sy).
  cbn [res_bind].
  destruct (dense_head_same_sample (set_training false d)
              (mkTensor [b; 64 * 1 * 18] (data tx)) (mkTensor [b'; 64 * 1 * 18] (data ty))
              sx sy b b' (64 * 1 * 18) n n' Hl eq_refl eq_refl Hsx Hsy Hn Hn'
              (flatten_same_sample tx ty b b' 64 1 18 n n' Sx Sy Nt) Ns)
    as (o & o' & -> & -> & So & So' & [_ No]).
  exists (squeeze o), (squeeze o'). split; [reflexivity |]. split; [reflexivity |].
  intros k Hk. rewrite So in No. cbn [tl squeeze data] in No |- *.
  replace (product [3]) with 3 in No by reflexivity.
  apply No. exact Hk.
Qed.


End PerSample.

(** ** Labels that broadcast *)

Section BroadcastLabels.
Context {R : Type} `{Scalar R}.

(** X19: where the three output columns do broadcast against flat labels,
    the loss pairs labels with columns.  For a batch of three samples, an
    output of shape (3, 3) against labels of shape (3), the loss is the sum
    over the nine outputs of the squared difference between the output of
    sample n in column k and the label of sample k (not of sample n); and
    for one sample, an output of shape (3) against a label of shape (1), it
    is the sum over the three outputs of the squared difference from the one
    label. *)
Theorem loss_pairs_labels_with_columns (outputs labels : Tensor R) :
  (shape outputs = [3; 3] -> shape labels = [3] ->
   lossFunc outputs labels =
   Ok (rsum 9 (fun off =>
         let d := rsub (at_index outputs [off / 3; off mod 3])
                       (at_index labels [off mod 3]) in
         rmul d d))) /\
  (shape outputs = [3] -> shape labels = [1] ->
   lossFunc outputs labels =
   Ok (rsum 3 (fun off =>
         let d := rsub (at_index outputs [off]) (at_index labels [0]) in
         rmul d d))).
Proof.
  split; intros Ho Hl; unfold lossFunc, broadcast_shapes, at_index, expand_index;
    rewrite !Ho, !Hl; vm_compute; reflexivity.
Qed.

End BroadcastLabels.

(** ** In exact arithmetic *)

Section ExactLoss.
#[local] Open Scope Q_scope.

Lemma Q_rsum_nonneg (n : nat) (f : nat -> Q) :
  (forall k, 0 <= f k) -> 0 <= rsum n f.
Proof.
  intros Hf. induction n as [| n IH]; cbn [rsum of_Q radd Q_Scalar].
  - rewrite Qred_correct. apply Qle_refl.
  - rewrite Qred_correct. specialize (Hf n). lra.
Qed.

Lemma Q_rsum_zero (n : nat) (f : nat -> Q) :
  (forall k, f k == 0) -> rsum n f == 0.
Proof.
  intros Hf. induction n as [| n IH]; cbn [rsum of_Q radd Q_Scalar].
  - rewrite Qred_correct. reflexivity.
  - rewrite Qred_correct, IH, Hf. reflexivity.
Qed.

Lemma broadcast_rev_same (l : list nat) : broadcast_rev l l = Some l.
Proof.
  induction l as [| x l IH]; [reflexivity |].
  cbn [broadcast_rev]. rewrite IH, Nat.eqb_refl. reflexivity.
Qed.

(** X12: the loss is not negative, and it is zero on a tensor and itself.
    In exact arithmetic the sum-reduced squared error, whenever the two
    shapes broadcast, is at least 0; and for labels equal to the outputs it
    is defined and is 0. *)
Theorem loss_nonnegative (input target : Tensor Q) :
  match lossFunc input target with
  | Ok loss => 0 <= loss
  | Raise _ => broadcast_shapes (shape input) (shape target) = None
  end /\
  exists loss, lossFunc input input = Ok loss /\ loss == 0.
Proof.
  split.
  - unfold lossFunc.
    destruct (broadcast_shapes (shape input) (shape target)) as [sh |]; [| reflexivity].
    apply Q_rsum_nonneg. intros k. cbn [rmul Q_Scalar]. rewrite Qred_correct. nra.
  - unfold lossFunc, broadcast_shapes. rewrite broadcast_rev_same. cbn [option_map].
    eexists. split; [reflexivity |].
    apply Q_rsum_zero. intros k. cbn [rmul rsub Q_Scalar]. rewrite !Qred_correct. ring.
Qed.

End ExactLoss.

Section ExactDropout.
Context {G : Type} `{RandomSource G Q}.

Lemma init_dropout (batch_size : Z) (g g' : G) (d : Driver Q) :
  __init__ batch_size g = (Ok d, g') -> drop d = mkDropout 0.5 false true.
Proof.
  intros E. destruct (Z.lt_ge_cases batch_size 0) as [Hb | Hb].
  - destruct (init_negative batch_size g Hb) as (e & g2 & E2). congruence.
  - revert E. unfold __init__, bind, new_Conv2d.
    repeat (destruct (init_draw _ _ _) as [? ?]).
    unfold randn. cbn [forallb]. rewrite (proj2 (Z.leb_le 0 batch_size) Hb).
    cbn [andb Z.leb Z.compare]. cbv beta iota zeta.
    destruct (normal_draw _ _) as [buf gn].
    match goal with
    | |- context [_convs ?x (?d, ?g)] =>
        destruct (_convs_ok d x g (Z.to_nat batch_size) 66 200 1 18
                    eq_refl eq_refl eq_refl eq_refl) as (flat & gc & -> & _)
    end.
    cbn [flattened_size set_flattened_size]. unfold new_Linear, ret.
    repeat (destruct (init_draw _ _ _) as [? ?]).
    intros E. injection E as <- _. reflexivity.
Qed.

(** X7: the dropout of the training mode.  On a driver made by the
    constructor (which is in training mode), every feature that [_convs]
    returns for a batch of images is either 0 or twice the feature it
    returns for the same batch in evaluation mode: the mask keeps an
    activation with probability 1/2 and the kept ones are scaled by
    1 / (1 - 0.5). *)
Theorem training_dropout_zeroes_or_doubles (batch_size : Z) (g g1 g2 : G) (d : Driver Q)
    (image : Tensor Q) (b h w : nat) :
  __init__ batch_size g = (Ok d, g1) ->
  shape image = [b; 3; h; w] ->
  61 <= h -> 61 <= w ->
  exists flat flat_eval s s',
    _convs image (d, g2) = (Ok flat, s) /\
    _convs image (set_training false d, g2) = (Ok flat_eval, s') /\
    shape flat = shape flat_eval /\
    forall i, (data flat i == 0 \/ data flat i == 2 * data flat_eval i)%Q.
Proof.
  intros E Hx Hh Hw. destruct (init_inv _ _ _ _ E) as (Hc & _).
  pose proof (init_dropout _ _ _ _ E) as Hd.
  destruct (conv_stack_ok d image b h w _ _ Hc Hx (extent_from_61 h Hh) (extent_from_61 w Hw))
    as (conv5 & Ec & Sc).
  rewrite !_convs_eq. change (conv_stack (set_training false d) image) with (conv_stack d image).
  rewrite Ec. cbn [drop set_training]. rewrite Hd.
  unfold dropout_call. cbn [drop_training p].
  destruct (bernoulli_draw g2 (1 - 0.5) (numel conv5)) as [mask g3].
  unfold flatten. cbn [shape]. rewrite Sc. cbn [length Nat.ltb Nat.leb negb].
  eexists _, _, _, _. split; [reflexivity |]. split; [reflexivity |].
  split; [reflexivity |].
  intros i. cbn [data rmul rdiv of_Q Q_Scalar]. rewrite !Qred_correct.
  destruct (mask i); [right | left]; field.
Qed.

End ExactDropout.

Section ExactTraining.
Context {G Net Opt : Type} `{Module Q G Net} `{Optimizer Q G Net Opt}.
Variable tensor_format : Q -> string.
#[local] Open Scope Q_scope.

Lemma Q_rltb_spec (a b : Q) : rltb a b = true <-> a < b.
Proof.
  cbn [rltb Q_Scalar]. rewrite negb_true_iff. split.
  - intros Hn. apply Qnot_le_lt. intros Hle. apply Qle_bool_iff in Hle. congruence.
  - intros Hlt. destruct (Qle_bool b a) eqn:E; [| reflexivity].
    apply Qle_bool_iff in E. apply Qle_not_lt in E. contradiction.
Qed.

(** Over the rationals the running best is the least of the sentinel and the
    losses, and it is one of them. *)
Lemma Q_running_best_least (sentinel : Q) (losses : list Q) :
  running_best sentinel losses <= sentinel /\
  Forall (fun v => running_best sentinel losses <= v) losses /\
  In (running_best sentinel losses) (sentinel :: losses).
Proof.
  induction losses as [| v l IH] using rev_ind.
  - split; [apply Qle_refl |]. split; [constructor | left; reflexivity].
  - rewrite running_best_snoc. destruct IH as (Hs & Hall & Hin).
    destruct (rltb v (running_best sentinel l)) eqn:Ev.
    + apply Q_rltb_spec in Ev. split; [lra |]. split.
      * apply Forall_app. split; [| repeat constructor; apply Qle_refl].
        eapply List.Forall_impl; [| exact Hall]. cbn beta. intros x Hx. lra.
      * right. apply in_or_app. right. left. reflexivity.
    + assert (Hge : running_best sentinel l <= v).
      { apply Qnot_lt_le. intros Hlt. apply Q_rltb_spec in Hlt. congruence. }
      split; [exact Hs |]. split.
      * apply Forall_app. split; [exact Hall | repeat constructor; exact Hge].
      * destruct Hin as [Hin | Hin]; [left; exact Hin |].
        right. apply in_or_app. left. exact Hin.
Qed.

(** X16: the running best is the minimum.  In exact arithmetic and with at
    least one validation batch (so that every validation mean is a sum over
    a count that is not zero), after any number of completed epochs
    [min_lost] is at most 1000000 and at most the validation mean of every
    epoch so far, and it is 1000000 or one of those means. *)
Theorem min_lost_is_least (epochs : Z) (lr : Q) (tl vl : list Batch) (n : nat)
    (st : Locals) (w0 w : World) :
  vl <> [] ->
  epochs_loop tensor_format epochs tl vl n (initial_locals (G := G) (net w0) lr) w0
    = (Ok st, w) ->
  min_lost st <= 1000000 /\
  Forall (fun v => min_lost st <= v) (validation_losses st) /\
  In (min_lost st) (1000000 :: validation_losses st).
Proof.
  intros _ E.
  destruct (epochs_loop_inv _ _ _ _ _ _ _ _ _ (fresh_initial (G := G) (net w0) lr) E)
    as (_ & _ & _ & _ & ->).
  exact (Q_running_best_least _ _).
Qed.

End ExactTraining.

(** ** In binary32 *)

Section Binary32Training.
Context {G Net Opt : Type} `{Module binary32 G Net} `{Optimizer binary32 G Net Opt}.
Variable device_available : string -> bool.
Variable tensor_format : binary32 -> string.

Lemma binary32_mean_of_nothing (x : binary32) :
  rltb (arith_mean (R := binary32) []) x = false.
Proof.
  change (arith_mean (R := binary32) []) with (S754_nan). reflexivity.
Qed.

(** X14: without validation batches no checkpoint is ever written.  In
    binary32 the mean of no loss is not a number, which compares below
    nothing: a run with an empty validation loader, whatever the network,
    the training loader and the number of epochs, and whether it returns or
    raises, leaves the files as they were and saves nothing; when it
    returns, the validation history it passes to [vis_train] holds not a
    number for every epoch. *)
Theorem empty_validation_never_checkpoints (device : string) (epochs : Z) (lr : Q)
    (tl : list Batch) (w0 : World) :
  let r := train device_available tensor_format device epochs lr tl [] w0 in
  disk (snd r) = disk w0 /\
  List.filter is_saved (events (snd r)) = List.filter is_saved (events w0) /\
  (fst r = Ok tt ->
   exists evs training,
     events (snd r) =
     evs ++ [VisTrain training (repeat S754_nan (Z.to_nat epochs)) epochs "Losses"]).
Proof.
  cbv zeta. rewrite train_eq.
  destruct (device_available device);
    [| split; [reflexivity |]; split; [reflexivity | discriminate]].
  destruct (no_validation_no_checkpoint tensor_format epochs tl (Z.to_nat epochs)
              (initial_locals (G := G) (net w0) lr) w0 binary32_mean_of_nothing
              (fresh_initial (G := G) (net w0) lr)) as (Hd & Hs & Hv).
  destruct (epochs_loop tensor_format epochs tl [] (Z.to_nat epochs)
              (initial_locals (G := G) (net w0) lr) w0) as [[st | e] wn];
    cbn [fst snd] in *.
  - cbn [events disk]. split; [exact Hd |]. split.
    + rewrite List.filter_app. cbn [List.filter is_saved]. rewrite app_nil_r. exact Hs.
    + intros _. destruct (Hv st eq_refl) as [-> _].
      exists (events wn), (training_losses st). reflexivity.
  - split; [exact Hd |]. split; [exact Hs | discriminate].
Qed.

End Binary32Training.

(** ** The normalization *)

Section Normalization.
#[local] Open Scope Q_scope.

Lemma Q_normalize_value (x : Q) :
  rsub (rdiv x (of_Q 127.5)) (of_Q 1) == x / 127.5 - 1.
Proof. simpl. rewrite !Qred_correct. reflexivity. Qed.

Lemma binary32_round_trip_all : forallb binary32_round_trip (seq 0 256) = true.
Proof. vm_compute. reflexivity. Qed.

(** C6: the first step of [_convs] maps a pixel x to x / 127.5 - 1.  In
    exact arithmetic every x in [0, 255] lands in [-1, 1], and multiplying
    by 127.5 and adding 127.5 gives x back; in binary32, each operation
    rounded to nearest even and the quotient a correctly rounded division,
    the same holds with no rounding error for each of the pixel values
    0, 1, ..., 255. *)
Theorem normalization_invertible (image : Tensor Q) (image32 : Tensor binary32)
    (i pixel : nat) :
  0 <= data image i <= 255 ->
  (pixel <= 255)%nat ->
  data image32 i = of_nat pixel ->
  let y := data (sub_scalar (div_scalar image 127.5) 1) i in
  let y32 := data (sub_scalar (div_scalar image32 127.5) 1) i in
  (y == data image i / 127.5 - 1 /\ -1 <= y <= 1 /\ denormalize y == data image i) /\
  (SFleb (of_Q (-1)) y32 = true /\ SFleb y32 (of_Q 1) = true /\
   SFeqb (denormalize y32) (data image32 i) = true).
Proof.
  intros [Hlo Hhi] Hp E32 y y32. split.
  - assert (Ey : y == data image i / 127.5 - 1) by apply Q_normalize_value.
    split; [exact Ey |].
    assert (Hy : -1 <= data image i / 127.5 - 1 <= 1).
    { assert (Eq : data image i / 127.5 == data image i * (2 # 255)) by (field; discriminate).
      rewrite Eq. split; lra. }
    split; [rewrite Ey; exact Hy |].
    unfold denormalize. simpl radd. simpl rmul. simpl of_Q.
    rewrite !Qred_correct. fold y. rewrite Ey. field.
  - pose proof binary32_round_trip_all as Hall.
    rewrite forallb_forall in Hall.
    specialize (Hall pixel). unfold binary32_round_trip in Hall.
    subst y32. cbn [sub_scalar div_scalar data]. rewrite E32.
    assert (Hin : In pixel (seq 0 256)) by (apply in_seq; lia).
    apply Hall in Hin. apply andb_prop in Hin as [Hin H3].
    apply andb_prop in Hin as [H1 H2]. repeat split; assumption.
Qed.

End Normalization.

(** ** Runs on concrete inputs *)

(** The layers on small tensors. *)
Example conv2d_three_by_three :
  option_map (fun t => (shape t, to_list t))
    (match conv2d_call
             (mkConv2d 1 1 (2, 2) (1, 1) (tensor_of_list [1; 1; 2; 2] [1; 1; 1; 1]%Q)
                       (tensor_of_list [1] [10%Q]))
             (tensor_of_list [1; 1; 3; 3] [1; 2; 3; 4; 5; 6; 7; 8; 9]%Q) with
     | Ok t => Some t
     | Raise _ => None
     end)
  = Some ([1; 1; 2; 2], [22; 26; 34; 38]%Q).
Proof. vm_compute. reflexivity. Qed.

Example linear_two_rows :
  option_map (fun t => (shape t, to_list t))
    (match linear_call
             (mkLinear 3 2 (tensor_of_list [2; 3] [1; 2; 3; 0; 0; 1]%Q)
                       (tensor_of_list [2] [0; 1]%Q))
             (tensor_of_list [2; 3] [1; 1; 1; 2; 0; 5]%Q) with
     | Ok t => Some t
     | Raise _ => None
     end)
  = Some ([2; 2], [6; 2; 17; 6]%Q).
Proof. vm_compute. reflexivity. Qed.

Example permute_channels_first :
  option_map (fun t => (shape t, to_list t))
    (match permute (tensor_of_list [1; 2; 2; 3]
                      (map (fun n => inject_Z (Z.of_nat n)) (seq 0 12))) [0; 3; 1; 2] with
     | Ok t => Some t
     | Raise _ => None
     end)
  = Some ([1; 3; 2; 2], [0; 3; 6; 9; 1; 4; 7; 10; 2; 5; 8; 11]%Q).
Proof. vm_compute. reflexivity. Qed.

Example loss_broadcasts_labels :
  lossFunc (tensor_of_list [3] [1; 2; 3]%Q) (tensor_of_list [1] [1%Q]) = Ok 5%Q /\
  is_ok (lossFunc (tensor_of_list [4; 3] (repeat 0%Q 12)) (tensor_of_list [4] (repeat 0%Q 4)))
  = false.
Proof. split; vm_compute; reflexivity. Qed.

Example mean_of_no_loss_is_nan :
  mean (R := binary32) empty_tensor = S754_nan /\
  rltb (R := binary32) S754_nan (of_Q 1000000) = false.
Proof. split; vm_compute; reflexivity. Qed.

(** C1 at two inputs: the constructed driver returns a (4, 3) tensor for a
    batch of four samples, and a tensor of shape (3) for one sample. *)
Example forward_returns_three_columns :
  observe demo_construction (fun s =>
    (option_map features (lin4 (fst s)),
     match fst (forward (demo_image 4 66 200, demo_speed 4) s) with
     | Ok out => Some (shape out)
     | Raise _ => None
     end,
     match fst (forward (demo_image 1 66 200, demo_speed 1) s) with
     | Ok out => Some (shape out)
     | Raise _ => None
     end))
  = Some (Some (10, 3), Some [4; 3], Some [3]).
Proof. vm_compute. reflexivity. Qed.

Lemma demo_construction_ok : is_ok (fst demo_construction) = true.
Proof. vm_compute. reflexivity. Qed.

(** C2 at batch size 4. *)
Lemma flattened_width_at_construction_witness :
  (0 < 4)%Z /\
  exists d g',
    __init__ (R := Q) (G := N) 4 0%N = (Ok d, g') /\ flattened_size d = Some 1152.
Proof.
  split; [lia |].
  destruct (flattened_width_at_construction (R := Q) (G := N) 4 0%N) as (d & g' & E & F & _);
    [lia |].
  exists d, g'. split; assumption.
Defined.

(** C3 as stated fails: after the construction [flattened_size] is 1152, and
    after one forward call on an image of 70 by 200 pixels it is 2304. *)
Lemma flattened_size_changes_after_construction :
  observe demo_construction (fun s =>
    (flattened_size (fst s),
     flattened_size (fst (forward_calls [(demo_image 1 70 200, demo_speed 1)] s))))
  = Some (Some 1152, Some 2304).
Proof. vm_compute. reflexivity. Qed.

(** C3 (amended) on two calls with camera images and two other calls. *)
Lemma flattened_size_stable_witness :
  exists d0 g1,
    demo_construction = (Ok d0, g1) /\
    Forall (fun x : Tensor Q * Tensor Q => exists b, shape (fst x) = [b; 3; 66; 200])
           [(demo_image 1 66 200, demo_speed 1); (demo_image 2 66 200, demo_speed 2)] /\
    flattened_size
      (fst (forward_calls [(demo_image 1 66 200, demo_speed 1);
                           (demo_image 2 66 200, demo_speed 2)] (d0, g1)))
    = flattened_size d0.
Proof.
  pose proof demo_construction_ok as Hok.
  destruct demo_construction as [[d0 | e] g1] eqn:E; [| discriminate Hok].
  exists d0, g1. split; [reflexivity |].
  assert (F : Forall (fun x : Tensor Q * Tensor Q => exists b, shape (fst x) = [b; 3; 66; 200])
                     [(demo_image 1 66 200, demo_speed 1); (demo_image 2 66 200, demo_speed 2)]).
  { repeat constructor; eexists; reflexivity. }
  split; [exact F |].
  exact (proj1 (flattened_size_stable_on_camera_images 1 0%N g1 g1 d0 _
                  [(demo_image 1 70 200, demo_speed 1)] E F)).
Defined.

(** C10 as stated fails: after a call on a 70 by 200 image has left 2304
    in [flattened_size], a forward call on an image of 66 by 200 pixels in
    four channels, and one on a single image (3, 66, 200) without the batch
    dimension, leave 2304 there and not the 1152 of the construction; and
    the call on the 70 by 200 image, the one that changes the attribute, is
    a call that raises. *)
Lemma forward_call_without_assignment :
  observe demo_construction (fun s =>
    let s1 := forward_calls [(demo_image 1 70 200, demo_speed 1)] s in
    (flattened_size (fst s),
     flattened_size (fst s1),
     flattened_size
       (fst (snd (forward (mkTensor [1; 4; 66; 200] (fun _ => 0%Q), demo_speed 1) s1))),
     flattened_size
       (fst (snd (forward (mkTensor [3; 66; 200] (fun _ => 0%Q), demo_speed 1) s1))),
     is_ok (fst (forward (demo_image 1 70 200, demo_speed 1) s))))
  = Some (Some 1152, Some 2304, Some 2304, Some 2304, false).
Proof. vm_compute. reflexivity. Qed.

(** C10 (amended) on the constructed driver after a call on a 70 by 200
    image. *)
Lemma forward_rewrites_flattened_size_witness :
  exists d0 g1,
    demo_construction = (Ok d0, g1) /\
    flattened_size
      (fst (snd (forward (demo_image 2 66 200, demo_speed 2)
                   (forward_calls [(demo_image 1 70 200, demo_speed 1)] (d0, g1)))))
    = flattened_size d0.
Proof.
  pose proof demo_construction_ok as Hok.
  destruct demo_construction as [[d0 | e] g1] eqn:E; [| discriminate Hok].
  exists d0, g1. split; [reflexivity |].
  exact (proj1 (proj2 (forward_rewrites_flattened_size 1 0%N g1 g1 d0
                         [(demo_image 1 70 200, demo_speed 1)] E))
               (demo_image 2 66 200, demo_speed 2) 2 eq_refl).
Defined.

(** C6 at the pixel value 128. *)
Lemma normalization_invertible_witness :
  (0 <= 128 <= 255)%Q /\ 128 <= 255 /\
  (denormalize (data (sub_scalar (div_scalar (tensor_of_list [1%nat] [128]) 127.5) 1) 0%nat)
   == 128)%Q.
Proof.
  assert (Hq : (0 <= 128 <= 255)%Q) by (split; discriminate).
  assert (Hn : 128 <= 255) by lia.
  split; [exact Hq |]. split; [exact Hn |].
  exact (proj2 (proj2 (proj1
    (normalization_invertible (tensor_of_list [1] [128%Q])
       (tensor_of_list (R := binary32) [1] [of_nat 128]) 0 128 Hq Hn eq_refl)))).
Defined.

(** Two epochs of the one-weight network: the first validation mean, 2, is
    below the sentinel and the network is saved; the second, 2 again, is
    not below the best, and nothing is saved. *)
Example two_epochs_one_checkpoint :
  (let '(r, w) := demo_epochs 2 demo_validation_loader 2 demo_world in
   (match r with
    | Ok st => Some (training_losses st, validation_losses st, min_lost st)
    | Raise _ => None
    end,
    map_to_list (disk w), List.filter is_saved (events w)))
  = (Some ([994011; 994011]%Q, [2; 2]%Q, 2%Q),
     [("driver_best.pt"%string, 2%Q)], [Saved "driver_best.pt" 2%Q]).
Proof. vm_compute. reflexivity. Qed.

(** C4 at the second of two epochs. *)
Lemma checkpoint_on_strict_improvement_witness :
  exists st' w',
    1 < Z.to_nat 2 /\
    demo_epochs 2 demo_validation_loader 2 demo_world = (Ok st', w') /\
    exists st w,
      demo_epochs 2 demo_validation_loader 1 demo_world = (Ok st, w) /\
      min_lost st = running_best (of_Q 1000000) (validation_losses st).
Proof.
  assert (Hok : is_ok (fst (demo_epochs 2 demo_validation_loader 2 demo_world)) = true)
    by (vm_compute; reflexivity).
  destruct (demo_epochs 2 demo_validation_loader 2 demo_world) as [[st' | e] w'] eqn:E;
    [| discriminate Hok].
  assert (Hk : 1 < Z.to_nat 2) by (simpl; lia).
  exists st', w'. split; [exact Hk |]. split; [reflexivity |].
  destruct (checkpoint_on_strict_improvement (Opt := unit) demo_format 2 0 demo_training_loader
              demo_validation_loader demo_world 1 st' w' Hk E)
    as (st & w & E1 & _ & _ & Hm & _).
  exists st, w. split; [exact E1 | exact Hm].
Defined.

(** C5 as stated fails: with validation labels far from the predictions the
    first epoch's validation mean is 1988020, not below the sentinel, and
    the epoch completes without a checkpoint; and with no validation batch
    the mean is not a number, and no checkpoint is written either. *)
Lemma first_epoch_without_checkpoint :
  (let '(r, w) := demo_epochs 1 harsh_validation_loader 1 demo_world in
   (match r with Ok st => Some (validation_losses st) | Raise _ => None end,
    size (disk w), List.filter is_saved (events w)))
  = (Some [1988020%Q], 0, []) /\
  demo_epoch_without_validation = Some (true, [S754_nan], 0, 0).
Proof. split; vm_compute; reflexivity. Qed.

(** C5 (amended) on a first epoch that writes a checkpoint. *)
Lemma first_epoch_checkpoint_witness :
  exists st' w',
    0 < Z.to_nat 1 /\
    demo_epochs 1 demo_validation_loader 1 demo_world = (Ok st', w') /\
    validation_losses st' =
      [arith_mean (rev (epoch_validation_losses (Opt := unit) demo_format 1
                          demo_training_loader demo_validation_loader 0
                          (initial_locals (G := N) (net demo_world) 0) demo_world))].
Proof.
  assert (Hok : is_ok (fst (demo_epochs 1 demo_validation_loader 1 demo_world)) = true)
    by (vm_compute; reflexivity).
  destruct (demo_epochs 1 demo_validation_loader 1 demo_world) as [[st' | e] w'] eqn:E;
    [| discriminate Hok].
  assert (Hk : 0 < Z.to_nat 1) by (simpl; lia).
  exists st', w'. split; [exact Hk |]. split; [reflexivity |].
  exact (proj1 (first_epoch_checkpoint (Opt := unit) demo_format 1 0 demo_training_loader
                  demo_validation_loader demo_world st' w' Hk E)).
Defined.

(** C8 on a run of two epochs. *)
Lemma loss_histories_witness :
  exists w,
    demo_train (Z.of_nat 2) demo_validation_loader demo_world = (Ok tt, w) /\
    exists st wn,
      demo_epochs (Z.of_nat 2) demo_validation_loader 2 demo_world = (Ok st, wn) /\
      length (training_losses st) = 2 /\ length (validation_losses st) = 2.
Proof.
  assert (Hok : is_ok (fst (demo_train (Z.of_nat 2) demo_validation_loader demo_world)) = true)
    by (vm_compute; reflexivity).
  destruct (demo_train (Z.of_nat 2) demo_validation_loader demo_world) as [[[] | e] w] eqn:E;
    [| discriminate Hok].
  exists w. split; [reflexivity |].
  destruct (loss_histories (Opt := unit) any_device demo_format "cpu" 2 0 demo_training_loader
              demo_validation_loader demo_world w E) as (st & wn & E2 & Lt & Lv & _).
  exists st, wn. split; [exact E2 |]. split; assumption.
Defined.

(** A run that raises in the validation loop of its first epoch, in a world
    that holds a checkpoint of an earlier run: the file is as it was. *)
Example failed_run_leaves_the_file :
  (let '(r, w) := demo_train 2 failing_validation_loader demo_world_with_checkpoint in
   (is_ok r, map_to_list (disk w), List.filter is_saved (events w),
    List.filter is_vis_train (events w)))
  = (false, [("driver_best.pt"%string, 5%Q)], [], []).
Proof. vm_compute. reflexivity. Qed.

(** C9 on that run. *)
Lemma failed_run_keeps_checkpoints_witness :
  exists e w,
    demo_train 2 failing_validation_loader demo_world_with_checkpoint = (Raise e, w) /\
    List.filter is_vis_train (events w) =
    List.filter is_vis_train (events demo_world_with_checkpoint).
Proof.
  assert (Hok : is_ok (fst (demo_train 2 failing_validation_loader demo_world_with_checkpoint))
                = false) by (vm_compute; reflexivity).
  destruct (demo_train 2 failing_validation_loader demo_world_with_checkpoint)
    as [[[] | e] w] eqn:E; [discriminate Hok |].
  exists e, w. split; [reflexivity |].
  exact (proj1 (proj2 (proj2
    (failed_run_keeps_checkpoints (Opt := unit) any_device demo_format "cpu" 2 0
       demo_training_loader failing_validation_loader demo_world_with_checkpoint w e E)))).
Defined.

(** ** The further properties on concrete inputs *)

(** X1 at the batch size -1. *)
Lemma constructor_rejects_negative_batch_size_witness :
  (-1 < 0)%Z /\
  exists msg g', __init__ (R := Q) (G := N) (-1) 0%N = (Raise (RuntimeError msg), g').
Proof.
  assert (Hb : (-1 < 0)%Z) by lia.
  split; [exact Hb |].
  exact (constructor_rejects_negative_batch_size (R := Q) (G := N) (-1) 0%N Hb).
Defined.

(** X2 on two images of 70 by 200 pixels. *)
Lemma convs_closed_form_witness :
  exists d0 g1,
    demo_construction = (Ok d0, g1) /\
    exists flat g3,
      _convs (demo_image 2 70 200) (d0, g1) = (Ok flat, (set_flattened_size 2304 d0, g3)) /\
      shape flat = [2; 2304].
Proof.
  pose proof demo_construction_ok as Hok.
  destruct demo_construction as [[d0 | e] g1] eqn:E; [| discriminate Hok].
  exists d0, g1. split; [reflexivity |].
  exact (convs_closed_form 1 0%N g1 g1 d0 (demo_image 2 70 200) 2 70 200 E eq_refl).
Defined.

(** X3 on two images that lie on their side, 200 by 66 pixels: they are
    accepted. *)
Lemma forward_accepts_width_1152_witness :
  exists d0 g1,
    demo_construction = (Ok d0, g1) /\ 61 <= 200 /\ 61 <= 66 /\
    exists out g3,
      forward (demo_image 2 200 66, demo_speed 2) (d0, g1)
        = (Ok out, (set_flattened_size 1152 d0, g3)) /\
      shape out = [2; 3].
Proof.
  pose proof demo_construction_ok as Hok.
  destruct demo_construction as [[d0 | e] g1] eqn:E; [| discriminate Hok].
  assert (Hh : 61 <= 200) by lia. assert (Hw : 61 <= 66) by lia.
  exists d0, g1. split; [reflexivity |]. split; [exact Hh |]. split; [exact Hw |].
  exact (proj1 (forward_accepts_width_1152 1 0%N g1 g1 d0
                  (demo_image 2 200 66, demo_speed 2) 2 200 66 E eq_refl eq_refl Hh Hw)
               eq_refl).
Defined.

(** X4 with a (2, 1) column of speeds. *)
Lemma forward_needs_speed_column_witness :
  exists d0 g1,
    demo_construction = (Ok d0, g1) /\
    is_ok (fst (forward (demo_image 2 66 200, demo_speed 2) (d0, g1))) = true.
Proof.
  pose proof demo_construction_ok as Hok.
  destruct demo_construction as [[d0 | e] g1] eqn:E; [| discriminate Hok].
  exists d0, g1. split; [reflexivity |].
  exact (proj2 (forward_needs_speed_column 1 0%N g1 g1 d0
                  (demo_image 2 66 200, demo_speed 2) 2 E eq_refl) eq_refl).
Defined.

(** X5 on an image of four channels. *)
Lemma forward_rejects_wrong_channels_witness :
  exists d0 g1,
    demo_construction = (Ok d0, g1) /\ 4 <> 3 /\
    exists msg,
      forward (mkTensor [1; 4; 66; 200] (fun _ => 0%Q), demo_speed 1) (d0, g1)
        = (Raise (RuntimeError msg), (d0, g1)).
Proof.
  pose proof demo_construction_ok as Hok.
  destruct demo_construction as [[d0 | e] g1] eqn:E; [| discriminate Hok].
  assert (Hc : 4 <> 3) by discriminate.
  exists d0, g1. split; [reflexivity |]. split; [exact Hc |].
  exact (forward_rejects_wrong_channels 1 0%N g1 g1 d0
           (mkTensor [1; 4; 66; 200] (fun _ => 0%Q), demo_speed 1) 1 4 66 200 E eq_refl Hc).
Defined.

(** X6 on a single image without the batch dimension. *)
Lemma forward_needs_batched_image_witness :
  exists d0 g1,
    demo_construction = (Ok d0, g1) /\
    length (shape (mkTensor [3; 66; 200] (fun _ => 0%Q))) <> 4 /\
    exists e g',
      forward (mkTensor [3; 66; 200] (fun _ => 0%Q), demo_speed 1) (d0, g1)
        = (Raise e, (d0, g')).
Proof.
  pose proof demo_construction_ok as Hok.
  destruct demo_construction as [[d0 | e] g1] eqn:E; [| discriminate Hok].
  assert (Hr : length (shape (mkTensor [3; 66; 200] (fun _ => 0%Q))) <> 4) by discriminate.
  exists d0, g1. split; [reflexivity |]. split; [exact Hr |].
  exact (forward_needs_batched_image d0
           (mkTensor [3; 66; 200] (fun _ => 0%Q), demo_speed 1) g1 Hr).
Defined.

(** X7 on a camera image. *)
Lemma training_dropout_zeroes_or_doubles_witness :
  exists d0 g1,
    demo_construction = (Ok d0, g1) /\ 61 <= 66 /\ 61 <= 200 /\
    exists flat flat_eval s s',
      _convs (demo_image 1 66 200) (d0, g1) = (Ok flat, s) /\
      _convs (demo_image 1 66 200) (set_training false d0, g1) = (Ok flat_eval, s') /\
      shape flat = shape flat_eval /\
      forall i, (data flat i == 0 \/ data flat i == 2 * data flat_eval i)%Q.
Proof.
  pose proof demo_construction_ok as Hok.
  destruct demo_construction as [[d0 | e] g1] eqn:E; [| discriminate Hok].
  assert (Hh : 61 <= 66) by lia. assert (Hw : 61 <= 200) by lia.
  exists d0, g1. split; [reflexivity |]. split; [exact Hh |]. split; [exact Hw |].
  exact (training_dropout_zeroes_or_doubles 1 0%N g1 g1 d0 (demo_image 1 66 200) 1 66 200
           E eq_refl Hh Hw).
Defined.

(** X8 on the one-weight network. *)
Lemma train_without_epochs_witness :
  any_device "cpu" = true /\ adam_accepts (parameters (net demo_world)) 0 = true /\
  (0 <= 0)%Z /\
  demo_train 0 demo_validation_loader demo_world =
  (Ok tt, mkWorld (net demo_world) (generator demo_world) (disk demo_world)
            (events demo_world ++ [VisTrain [] [] 0 "Losses"])).
Proof.
  assert (He : (0 <= 0)%Z) by lia.
  assert (Ha : adam_accepts (parameters (net demo_world)) 0 = true) by reflexivity.
  split; [reflexivity |]. split; [exact Ha |]. split; [exact He |].
  exact (train_without_epochs (Opt := unit) any_device demo_format "cpu" 0 0
           demo_training_loader demo_validation_loader demo_world eq_refl Ha He).
Defined.

(** X9 on a run of two epochs. *)
Lemma console_progress_witness :
  exists w,
    demo_train 2 demo_validation_loader demo_world = (Ok tt, w) /\
    exists evs training validation,
      events w = evs ++ [VisTrain training validation 2 "Losses"] /\
      length training = Z.to_nat 2 /\ length validation = Z.to_nat 2 /\
      printed (events w) =
      printed (events demo_world) ++ progress_lines demo_format 2 0 training validation.
Proof.
  assert (Hok : is_ok (fst (demo_train 2 demo_validation_loader demo_world)) = true)
    by (vm_compute; reflexivity).
  destruct (demo_train 2 demo_validation_loader demo_world) as [[[] | e] w] eqn:E;
    [| discriminate Hok].
  exists w. split; [reflexivity |].
  exact (console_progress (Opt := unit) any_device demo_format "cpu" 2 0 demo_training_loader
           demo_validation_loader demo_world w E).
Defined.

(** X11 on one epoch of the driver with nothing to train or validate on. *)
Lemma run_leaves_eval_mode_witness :
  exists d0 g1 w,
    demo_construction = (Ok d0, g1) /\ (0 < 1)%Z /\
    train (Opt := unit) any_device demo_format "cpu" 1 0 [] [] (mkWorld d0 g1 ∅ [])
      = (Ok tt, w) /\
    eval_mode (net w).
Proof.
  pose proof demo_construction_ok as Hok.
  destruct demo_construction as [[d0 | e] g1] eqn:E; [| discriminate Hok].
  assert (He : (0 < 1)%Z) by lia.
  assert (Hr : is_ok (fst (train (Opt := unit) any_device demo_format "cpu" 1 0 [] []
                             (mkWorld d0 g1 ∅ []))) = true) by (vm_compute; reflexivity).
  destruct (train (Opt := unit) any_device demo_format "cpu" 1 0 [] [] (mkWorld d0 g1 ∅ []))
    as [[[] | e] w] eqn:Et; [| discriminate Hr].
  exists d0, g1, w. split; [reflexivity |]. split; [exact He |]. split; [exact Et |].
  exact (proj1 (run_leaves_eval_mode (Opt := unit) any_device demo_format "cpu" 1 0 [] []
                  (mkWorld d0 g1 ∅ []) w He Et)).
Defined.

(** X13 on a batch of two camera images with two labels. *)
Lemma flat_labels_stop_training_witness :
  exists d0 g1 msg w,
    demo_construction = (Ok d0, g1) /\ (0 <= 0)%Q /\ (0 < 1)%Z /\ 2 <> 1 /\ 2 <> 3 /\
    train (Opt := unit) any_device demo_format "cpu" 1 0
      [(mkTensor [2; 66; 200; 3] (fun i => of_nat (i mod 256)),
        tensor_of_list [2] [10; 20]%Q, tensor_of_list [2] [0; 1]%Q)] []
      (mkWorld d0 g1 ∅ [])
    = (Raise (RuntimeError msg), w) /\
    disk w = ∅.
Proof.
  pose proof demo_construction_ok as Hok.
  destruct demo_construction as [[d0 | e] g1] eqn:E; [| discriminate Hok].
  assert (Hlr : (0 <= 0)%Q) by apply Qle_refl.
  assert (He : (0 < 1)%Z) by lia.
  assert (H1 : 2 <> 1) by discriminate. assert (H3 : 2 <> 3) by discriminate.
  destruct (flat_labels_stop_training (Opt := unit) any_device demo_format 1 0%N g1 "cpu" 1 0
              (mkTensor [2; 66; 200; 3] (fun i => of_nat (i mod 256)))
              (tensor_of_list [2] [10; 20]%Q) (tensor_of_list [2] [0; 1]%Q) [] []
              (mkWorld d0 g1 ∅ []) 2 E eq_refl Hlr He eq_refl eq_refl eq_refl H1 H3)
    as (_ & msg & w & Et & Hd & _).
  exists d0, g1, msg, w. split; [reflexivity |]. split; [exact Hlr |]. split; [exact He |].
  split; [exact H1 |]. split; [exact H3 |]. split; [exact Et | exact Hd].
Defined.

(** X16 on two epochs of the one-weight network. *)
Lemma min_lost_is_least_witness :
  demo_validation_loader <> [] /\
  exists st w,
    demo_epochs 2 demo_validation_loader 2 demo_world = (Ok st, w) /\
    (min_lost st <= 1000000)%Q.
Proof.
  assert (Hv : demo_validation_loader <> []) by discriminate.
  split; [exact Hv |].
  assert (Hok : is_ok (fst (demo_epochs 2 demo_validation_loader 2 demo_world)) = true)
    by (vm_compute; reflexivity).
  destruct (demo_epochs 2 demo_validation_loader 2 demo_world) as [[st | e] w] eqn:E;
    [| discriminate Hok].
  exists st, w. split; [reflexivity |].
  exact (proj1 (min_lost_is_least (Opt := unit) demo_format 2 0 demo_training_loader
                  demo_validation_loader 2 st demo_world w Hv E)).
Defined.

(** X17 on two images of 2 by 2 pixels and their speeds. *)
Lemma batch_layout_witness :
  exists img',
    permute (mkTensor [2; 2; 2; 3] (fun i => of_nat (R := Q) (i mod 256))) [0; 3; 1; 2]
      = Ok img' /\
    shape img' = [2; 3; 2; 2].
Proof.
  destruct (batch_layout (mkTensor [2; 2; 2; 3] (fun i => of_nat (R := Q) (i mod 256)))
              (tensor_of_list [2] [1; 2]%Q) 2 2 2 3 eq_refl eq_refl)
    as (img' & Ep & Hs & _).
  exists img'. split; [exact Ep | exact Hs].
Defined.

(** X19 on three samples whose outputs are their labels, sample by sample:
    the loss is not 0. *)
Lemma loss_pairs_labels_with_columns_witness :
  lossFunc (tensor_of_list [3; 3] [1; 1; 1; 2; 2; 2; 3; 3; 3]%Q) (tensor_of_list [3] [1; 2; 3]%Q)
  = Ok (rsum 9 (fun off =>
          let d := rsub (at_index (tensor_of_list [3; 3] [1; 1; 1; 2; 2; 2; 3; 3; 3]%Q)
                                  [off / 3; off mod 3])
                        (at_index (tensor_of_list [3] [1; 2; 3]%Q) [off mod 3]) in
          rmul d d)) /\
  lossFunc (tensor_of_list [3; 3] [1; 1; 1; 2; 2; 2; 3; 3; 3]%Q) (tensor_of_list [3] [1; 2; 3]%Q)
  = Ok 12%Q.
Proof.
  split; [| vm_compute; reflexivity].
  exact (proj1 (loss_pairs_labels_with_columns
                  (tensor_of_list [3; 3] [1; 1; 1; 2; 2; 2; 3; 3; 3]%Q)
                  (tensor_of_list [3] [1; 2; 3]%Q)) eq_refl eq_refl).
Defined.

(** X20 on the first of two camera images and the same image alone. *)
Lemma evaluation_is_per_sample_witness :
  exists d0 g1,
    demo_construction = (Ok d0, g1) /\
    same_sample 0 0 (demo_image (R := Q) 2 66 200) (demo_image 1 66 200) /\
    same_sample 0 0 (demo_speed (R := Q) 2) (demo_speed 1) /\
    exists ox oy,
      fst (forward (demo_image 2 66 200, demo_speed 2) (set_training false d0, g1)) = Ok ox /\
      fst (forward (demo_image 1 66 200, demo_speed 1) (set_training false d0, g1)) = Ok oy /\
      forall k, k < 3 -> data ox (0 * 3 + k) = data oy (0 * 3 + k).
Proof.
  pose proof demo_construction_ok as Hok.
  destruct demo_construction as [[d0 | e] g1] eqn:E; [| discriminate Hok].
  assert (Hn : 0 < 2) by lia. assert (Hn' : 0 < 1) by lia.
  assert (Nx : same_sample 0 0 (demo_image (R := Q) 2 66 200) (demo_image 1 66 200))
    by (split; [reflexivity | intros off _; reflexivity]).
  assert (Ns : same_sample 0 0 (demo_speed (R := Q) 2) (demo_speed 1))
    by (split; [reflexivity | intros off _; reflexivity]).
  exists d0, g1. split; [reflexivity |]. split; [exact Nx |]. split; [exact Ns |].
  exact (evaluation_is_per_sample 1 0%N g1 g1 g1 d0 (demo_image 2 66 200) (demo_image 1 66 200)
           (demo_speed 2) (demo_speed 1) 2 1 0 0 E eq_refl eq_refl eq_refl eq_refl
           Hn Hn' Nx Ns).
Defined.

#[local] Existing Instance Counting_Optimizer.

(** X18 on two epochs over the two training batches. *)
Lemma one_step_per_training_batch_witness :
  exists st w,
    epochs_loop (Opt := nat) demo_format 2 demo_training_loader demo_validation_loader 2
      (initial_locals (G := N) (net demo_world) 0) demo_world = (Ok st, w) /\
    optimizer st = 2 * length demo_training_loader.
Proof.
  assert (Hok : is_ok (fst (epochs_loop (Opt := nat) demo_format 2 demo_training_loader
                              demo_validation_loader 2
                              (initial_locals (G := N) (net demo_world) 0) demo_world)) = true)
    by (vm_compute; reflexivity).
  destruct (epochs_loop (Opt := nat) demo_format 2 demo_training_loader
              demo_validation_loader 2 (initial_locals (G := N) (net demo_world) 0) demo_world)
    as [[st | e] w] eqn:E; [| discriminate Hok].
  exists st, w. split; [reflexivity |].
  exact (one_step_per_training_batch demo_format 2 0 demo_training_loader
           demo_validation_loader 2 st demo_world w E).
Defined.
